(** * MediFlow AI: the in-memory clinical-data repository

    A shallow embedding of [DatabaseService] (services/databaseService.js):
    the entity store, the audit recorder and the repository facade, with
    the properties the specification states about them.

    Modelling conventions
    - A JavaScript object is a finite map from property names to values
      ([gmap string value]); object spread [{...a, ...b}] is the
      right-biased union of the two maps, an object literal is a sequence
      of property writes in source order.
    - An array of records is a [list]; [push] appends, [splice(i, 1)]
      deletes position [i], [filter] keeps order.
    - [this.db] is threaded explicitly: every facade method takes the
      store and returns its settled promise together with the new store.
    - The wall clock is an input.  A method receives a [clock]; [clk k]
      is the value of the [k]-th clock read ([Date.now()] or [new Date()])
      made during that call, in evaluation order.
    - Numbers are the integer-valued ones (identifiers, counters and
      millisecond timestamps of this program), plus [NaN]. *)

From Stdlib Require Import ZArith Lia Sorted Ascii.
From stdpp Require Import gmap strings list pretty.

Local Open Scope string_scope.
Local Open Scope list_scope.

(** ** Values *)

(** Primitive values: what a caller passes as an identifier. *)
Inductive prim : Type :=
  | PUndefined
  | PNull
  | PBool (b : bool)
  | PNum (n : Z)
  | PNaN
  | PStr (s : string).

(** Property values: a primitive or a [Date] object holding a time value. *)
Inductive value : Type :=
  | VPrim (p : prim)
  | VDate (t : Z).

Coercion VPrim : prim >-> value.

Abbreviation VUndefined := (VPrim PUndefined).
Abbreviation VNull := (VPrim PNull).
Abbreviation VBool b := (VPrim (PBool b)).
Abbreviation VNum n := (VPrim (PNum n)).
Abbreviation VNaN := (VPrim PNaN).
Abbreviation VStr s := (VPrim (PStr s)).

Global Instance prim_eq_dec : EqDecision prim.
Proof. solve_decision. Defined.

Global Instance value_eq_dec : EqDecision value.
Proof. solve_decision. Defined.

(** A record. *)
Abbreviation obj := (gmap string value).

(** [o.k]: a missing property reads as [undefined]. *)
Definition get (o : obj) (k : string) : value := default VUndefined (o !! k).

(** An object literal [{k1: v1, ..., kn: vn}]: later writes win. *)
Definition object (kvs : list (string * value)) : obj :=
  foldl (fun o kv => <[kv.1 := kv.2]> o) ∅ kvs.

(** [{...base, ...over}]. *)
Definition spread (base over : obj) : obj := over ∪ base.

(** [a === b] on primitives: [NaN] equals nothing, not even itself. *)
Definition strict_eq_prim (a b : prim) : bool :=
  match a, b with
  | PNaN, _ | _, PNaN => false
  | _, _ => bool_decide (a = b)
  end.

(** [v === p] for a stored value and a primitive: an object (a [Date])
    is never identical to a primitive. *)
Definition strict_eq (v : value) (p : prim) : bool :=
  match v with
  | VPrim q => strict_eq_prim q p
  | VDate _ => false
  end.

(** ToBoolean. *)
Definition truthy (v : value) : bool :=
  match v with
  | VPrim PUndefined | VPrim PNull | VPrim PNaN => false
  | VPrim (PBool b) => b
  | VPrim (PNum n) => negb (n =? 0)%Z
  | VPrim (PStr s) => negb (bool_decide (s = ""))
  | VDate _ => true
  end.

(** [a || b]. *)
Definition js_or (a b : value) : value := if truthy a then a else b.

(** Built-in functions of the host that the program calls and whose
    result the language leaves to the implementation or to Unicode
    tables. *)
Class Host : Type := {
  (** [Date.prototype.toString] on a time value (time-zone dependent) *)
  Date_toString : Z -> string;
  (** [String.prototype.toLowerCase] *)
  toLowerCase : string -> string;
  (** ToNumber on a string: a [PNum] or [PNaN] *)
  StringToNumber : string -> prim
}.

(** ** The store *)

Record database : Type := {
  patients : list obj;
  allergies : list obj;
  chronicConditions : list obj;
  clinicalNotes : list obj;
  workflows : list obj;
  tasks : list obj;
  appointments : list obj;
  referrals : list obj;
  auditLog : list obj
}.

Definition set_patients (l : list obj) (db : database) : database :=
  {| patients := l; allergies := allergies db;
     chronicConditions := chronicConditions db;
     clinicalNotes := clinicalNotes db; workflows := workflows db;
     tasks := tasks db; appointments := appointments db;
     referrals := referrals db; auditLog := auditLog db |}.

Definition set_allergies (l : list obj) (db : database) : database :=
  {| patients := patients db; allergies := l;
     chronicConditions := chronicConditions db;
     clinicalNotes := clinicalNotes db; workflows := workflows db;
     tasks := tasks db; appointments := appointments db;
     referrals := referrals db; auditLog := auditLog db |}.

Definition set_chronicConditions (l : list obj) (db : database) : database :=
  {| patients := patients db; allergies := allergies db;
     chronicConditions := l;
     clinicalNotes := clinicalNotes db; workflows := workflows db;
     tasks := tasks db; appointments := appointments db;
     referrals := referrals db; auditLog := auditLog db |}.

Definition set_clinicalNotes (l : list obj) (db : database) : database :=
  {| patients := patients db; allergies := allergies db;
     chronicConditions := chronicConditions db;
     clinicalNotes := l; workflows := workflows db;
     tasks := tasks db; appointments := appointments db;
     referrals := referrals db; auditLog := auditLog db |}.

Definition set_workflows (l : list obj) (db : database) : database :=
  {| patients := patients db; allergies := allergies db;
     chronicConditions := chronicConditions db;
     clinicalNotes := clinicalNotes db; workflows := l;
     tasks := tasks db; appointments := appointments db;
     referrals := referrals db; auditLog := auditLog db |}.

Definition set_tasks (l : list obj) (db : database) : database :=
  {| patients := patients db; allergies := allergies db;
     chronicConditions := chronicConditions db;
     clinicalNotes := clinicalNotes db; workflows := workflows db;
     tasks := l; appointments := appointments db;
     referrals := referrals db; auditLog := auditLog db |}.

Definition set_appointments (l : list obj) (db : database) : database :=
  {| patients := patients db; allergies := allergies db;
     chronicConditions := chronicConditions db;
     clinicalNotes := clinicalNotes db; workflows := workflows db;
     tasks := tasks db; appointments := l;
     referrals := referrals db; auditLog := auditLog db |}.

Definition set_referrals (l : list obj) (db : database) : database :=
  {| patients := patients db; allergies := allergies db;
     chronicConditions := chronicConditions db;
     clinicalNotes := clinicalNotes db; workflows := workflows db;
     tasks := tasks db; appointments := appointments db;
     referrals := l; auditLog := auditLog db |}.

Definition set_auditLog (l : list obj) (db : database) : database :=
  {| patients := patients db; allergies := allergies db;
     chronicConditions := chronicConditions db;
     clinicalNotes := clinicalNotes db; workflows := workflows db;
     tasks := tasks db; appointments := appointments db;
     referrals := referrals db; auditLog := l |}.

(** The store built by the constructor. *)
Definition initial_patients : list obj :=
  [ object [ ("id", VStr "P20250002"); ("firstName", VStr "James");
             ("lastName", VStr "Martinez"); ("dateOfBirth", VStr "1978-07-21");
             ("gender", VStr "Male"); ("bloodType", VStr "A+");
             ("phone", VStr "(555) 234-5678");
             ("email", VStr "james.martinez@email.com");
             ("emergencyContactName", VStr "Maria Martinez");
             ("emergencyContactPhone", VStr "(555) 234-5679");
             ("insuranceProvider", VStr "Aetna");
             ("insurancePolicyNumber", VStr "AET987654321");
             ("status", VStr "active");
             ("createdAt", VDate 1736208000000) ];
    object [ ("id", VStr "P20250003"); ("firstName", VStr "Emily");
             ("lastName", VStr "Chen"); ("dateOfBirth", VStr "1992-11-29");
             ("gender", VStr "Female"); ("bloodType", VStr "O+");
             ("phone", VStr "(555) 345-6789");
             ("email", VStr "emily.chen@email.com");
             ("emergencyContactName", VStr "David Chen");
             ("emergencyContactPhone", VStr "(555) 345-6790");
             ("insuranceProvider", VStr "Blue Cross");
             ("insurancePolicyNumber", VStr "BC123456789");
             ("status", VStr "active");
             ("createdAt", VDate 1735948800000) ];
    object [ ("id", VStr "P20250001"); ("firstName", VStr "Sarah");
             ("lastName", VStr "Johnson"); ("dateOfBirth", VStr "1985-03-14");
             ("gender", VStr "Female"); ("bloodType", VStr "B+");
             ("phone", VStr "(555) 123-4567");
             ("email", VStr "sarah.johnson@email.com");
             ("emergencyContactName", VStr "Michael Johnson");
             ("emergencyContactPhone", VStr "(555) 123-4568");
             ("insuranceProvider", VStr "United Healthcare");
             ("insurancePolicyNumber", VStr "UHC987654321");
             ("status", VStr "active");
             ("createdAt", VDate 1736380800000) ] ].

Definition initial_allergies : list obj :=
  [ object [ ("id", VNum 1); ("patientId", VStr "P20250002");
             ("allergen", VStr "Latex");
             ("reaction", VStr "Skin rash, itching");
             ("severity", VStr "moderate"); ("status", VStr "active") ];
    object [ ("id", VNum 2); ("patientId", VStr "P20250001");
             ("allergen", VStr "Penicillin");
             ("reaction", VStr "Hives, difficulty breathing");
             ("severity", VStr "severe"); ("status", VStr "active") ];
    object [ ("id", VNum 3); ("patientId", VStr "P20250001");
             ("allergen", VStr "Shellfish");
             ("reaction", VStr "Anaphylaxis");
             ("severity", VStr "life_threatening");
             ("status", VStr "active") ] ].

Definition initial_chronicConditions : list obj :=
  [ object [ ("id", VNum 1); ("patientId", VStr "P20250002");
             ("condition", VStr "Type 2 Diabetes");
             ("diagnosisDate", VStr "2015-06-15"); ("status", VStr "active") ];
    object [ ("id", VNum 2); ("patientId", VStr "P20250002");
             ("condition", VStr "High Cholesterol");
             ("diagnosisDate", VStr "2018-03-22");
             ("status", VStr "active") ] ].

Definition initial_workflows : list obj :=
  [ object [ ("id", VNum 1); ("name", VStr "Emergency Department Triage");
             ("description",
              VStr "Rapid assessment workflow for emergency department patients");
             ("category", VStr "emergency"); ("steps", VNum 4);
             ("checklistItems", VNum 5); ("usageCount", VNum 156) ];
    object [ ("id", VNum 2); ("name", VStr "Annual Physical Examination");
             ("description",
              VStr "Standard workflow for routine annual health checkups");
             ("category", VStr "examination"); ("steps", VNum 5);
             ("checklistItems", VNum 5); ("usageCount", VNum 89) ];
    object [ ("id", VNum 3); ("name", VStr "New Patient Intake");
             ("description",
              VStr "Comprehensive workflow for registering and onboarding new patients");
             ("category", VStr "intake"); ("steps", VNum 4);
             ("checklistItems", VNum 5); ("usageCount", VNum 45) ] ].

Definition initial_db : database :=
  {| patients := initial_patients;
     allergies := initial_allergies;
     chronicConditions := initial_chronicConditions;
     clinicalNotes := [];
     workflows := initial_workflows;
     tasks := [];
     appointments := [];
     referrals := [];
     auditLog := [] |}.

(** ** Settled promises and array helpers *)

(** What a facade call hands back: a resolved promise, a rejected one
    ([new Error(message)]), or an exception thrown before any promise
    was made. *)
Inductive outcome (A : Type) : Type :=
  | Resolved (a : A)
  | Rejected (message : string)
  | Threw (error : string).

Arguments Resolved {A} a.
Arguments Rejected {A} message.
Arguments Threw {A} error.

(** The reads of the wall clock made during one call. *)
Definition clock : Type := nat -> Z.

(** [Array.prototype.findIndex]; [None] stands for [-1]. *)
Fixpoint findIndex {A : Type} (f : A -> bool) (l : list A) : option nat :=
  match l with
  | [] => None
  | x :: l' => if f x then Some 0%nat else S <$> findIndex f l'
  end.

(** [Array.prototype.find]; [None] stands for [undefined]. *)
Fixpoint find {A : Type} (f : A -> bool) (l : list A) : option A :=
  match l with
  | [] => None
  | x :: l' => if f x then Some x else find f l'
  end.

(** [{...arr[i]}]: spreading [undefined] contributes no property. *)
Definition at_index (l : list obj) (i : nat) : obj := default ∅ (l !! i).

(** [arr.length + 1] *)
Definition next_id (l : list obj) : value := VNum (Z.of_nat (length l) + 1).

(** [r => r.id === id] and [r => r.patientId === id] *)
Definition has_id (id : prim) (r : obj) : bool := strict_eq (get r "id") id.
Definition of_patient (id : prim) (r : obj) : bool :=
  strict_eq (get r "patientId") id.

(** [String.prototype.includes]: [q] occurs in [s]. *)
Fixpoint starts_with (q s : string) : bool :=
  match q, s with
  | EmptyString, _ => true
  | String a q', String b s' => if decide (a = b) then starts_with q' s' else false
  | String _ _, EmptyString => false
  end.

Fixpoint includes (s q : string) : bool :=
  starts_with q s ||
  match s with
  | EmptyString => false
  | String _ s' => includes s' q
  end.

(** [{ success: true }] *)
Definition success : obj := object [ ("success", VBool true) ].

Section Facade.

Context `{host : Host}.

(** [String(v)] *)
Definition String_of (v : value) : string :=
  match v with
  | VPrim PUndefined => "undefined"
  | VPrim PNull => "null"
  | VPrim (PBool true) => "true"
  | VPrim (PBool false) => "false"
  | VPrim (PNum n) => pretty n
  | VPrim PNaN => "NaN"
  | VPrim (PStr s) => s
  | VDate t => Date_toString t
  end.

(** ToNumber: a [PNum] or [PNaN]. *)
Definition ToNumber (v : value) : prim :=
  match v with
  | VPrim PUndefined => PNaN
  | VPrim PNull => PNum 0
  | VPrim (PBool b) => PNum (if b then 1 else 0)
  | VPrim (PNum n) => PNum n
  | VPrim PNaN => PNaN
  | VPrim (PStr s) => StringToNumber s
  | VDate t => PNum t
  end.

(** The value stored by [x++]. *)
Definition increment (v : value) : value :=
  match ToNumber v with
  | PNum n => VNum (n + 1)
  | _ => VNaN
  end.

(** *** Audit recorder *)

Definition logAudit (now : Z) (entityType : string) (entityId : value)
    (action : string) (userId : value) (db : database) : database :=
  let logEntry :=
    object [ ("id", next_id (auditLog db));
             ("entityType", VStr entityType);
             ("entityId", VStr (String_of entityId));
             ("action", VStr action);
             ("userId", userId);
             ("timestamp", VDate now) ] in
  set_auditLog (auditLog db ++ [logEntry]) db.

(** *** Patient operations *)

Definition getAllPatients (db : database) : outcome (list obj) :=
  Resolved (patients db).

(** The object [{...patient, allergies, chronicConditions, clinicalNotes,
    tasks, appointments, referrals}]: the six array-valued properties
    shadow same-named properties of [patient]. *)
Record patient_detail : Type := {
  patient : obj;
  detail_allergies : list obj;
  detail_chronicConditions : list obj;
  detail_clinicalNotes : list obj;
  detail_tasks : list obj;
  detail_appointments : list obj;
  detail_referrals : list obj
}.

Definition getPatientById (patientId : prim) (db : database)
    : outcome patient_detail :=
  match find (has_id patientId) (patients db) with
  | None => Rejected "Patient not found"
  | Some p =>
      Resolved
        {| patient := p;
           detail_allergies := List.filter (of_patient patientId) (allergies db);
           detail_chronicConditions :=
             List.filter (of_patient patientId) (chronicConditions db);
           detail_clinicalNotes :=
             List.filter (of_patient patientId) (clinicalNotes db);
           detail_tasks := List.filter (of_patient patientId) (tasks db);
           detail_appointments :=
             List.filter (of_patient patientId) (appointments db);
           detail_referrals :=
             List.filter (of_patient patientId) (referrals db) |}
  end.

Definition createPatient (clk : clock) (patientData : obj) (db : database)
    : outcome obj * database :=
  let newPatient :=
    <["updatedAt" := VDate (clk 2%nat)]>
      (<["createdAt" := VDate (clk 1%nat)]>
        (<["status" := VStr "active"]>
          (spread (object [ ("id", VStr ("P" +:+ pretty (clk 0%nat))) ])
                  patientData))) in
  let db1 := set_patients (patients db ++ [newPatient]) db in
  let db2 := logAudit (clk 3%nat) "Patient" (get newPatient "id") "CREATE"
               (VStr "system") db1 in
  (Resolved newPatient, db2).

Definition updatePatient (clk : clock) (patientId : prim) (updates : obj)
    (db : database) : outcome obj * database :=
  match findIndex (has_id patientId) (patients db) with
  | None => (Rejected "Patient not found", db)
  | Some index =>
      let merged :=
        <["updatedAt" := VDate (clk 0%nat)]>
          (spread (at_index (patients db) index) updates) in
      let db1 := set_patients (<[index := merged]> (patients db)) db in
      let db2 := logAudit (clk 1%nat) "Patient" patientId "UPDATE"
                   (VStr "system") db1 in
      (Resolved merged, db2)
  end.

Definition deletePatient (clk : clock) (patientId : prim) (db : database)
    : outcome obj * database :=
  match findIndex (has_id patientId) (patients db) with
  | None => (Rejected "Patient not found", db)
  | Some index =>
      let keep := fun r : obj => negb (of_patient patientId r) in
      let db1 := set_patients (delete index (patients db)) db in
      let db2 := set_allergies (List.filter keep (allergies db1)) db1 in
      let db3 :=
        set_chronicConditions (List.filter keep (chronicConditions db2)) db2 in
      let db4 := set_clinicalNotes (List.filter keep (clinicalNotes db3)) db3 in
      let db5 := set_tasks (List.filter keep (tasks db4)) db4 in
      let db6 := set_appointments (List.filter keep (appointments db5)) db5 in
      let db7 := set_referrals (List.filter keep (referrals db6)) db6 in
      let db8 := logAudit (clk 0%nat) "Patient" patientId "DELETE"
                   (VStr "system") db7 in
      (Resolved success, db8)
  end.

(** *** Clinical notes *)

Definition getClinicalNotesByPatient (patientId : prim) (db : database)
    : outcome (list obj) :=
  Resolved (List.filter (of_patient patientId) (clinicalNotes db)).

Definition createClinicalNote (clk : clock) (noteData : obj) (db : database)
    : outcome obj * database :=
  let newNote :=
    <["updatedAt" := VDate (clk 1%nat)]>
      (<["createdAt" := VDate (clk 0%nat)]>
        (<["status" := js_or (get noteData "status") (VStr "draft")]>
          (spread (object [ ("id", next_id (clinicalNotes db)) ]) noteData))) in
  let db1 := set_clinicalNotes (clinicalNotes db ++ [newNote]) db in
  let db2 := logAudit (clk 2%nat) "ClinicalNote" (get newNote "id") "CREATE"
               (js_or (get noteData "createdBy") (VStr "system")) db1 in
  (Resolved newNote, db2).

Definition updateClinicalNote (clk : clock) (noteId : prim) (updates : obj)
    (db : database) : outcome obj * database :=
  match findIndex (has_id noteId) (clinicalNotes db) with
  | None => (Rejected "Clinical note not found", db)
  | Some index =>
      let merged :=
        <["updatedAt" := VDate (clk 0%nat)]>
          (spread (at_index (clinicalNotes db) index) updates) in
      let db1 := set_clinicalNotes (<[index := merged]> (clinicalNotes db)) db in
      let db2 := logAudit (clk 1%nat) "ClinicalNote" noteId "UPDATE"
                   (VStr "system") db1 in
      (Resolved merged, db2)
  end.

(** *** Allergies *)

Definition getAllergiesByPatient (patientId : prim) (db : database)
    : outcome (list obj) :=
  Resolved (List.filter (of_patient patientId) (allergies db)).

Definition addAllergy (clk : clock) (allergyData : obj) (db : database)
    : outcome obj * database :=
  let newAllergy :=
    <["status" := VStr "active"]>
      (spread (object [ ("id", next_id (allergies db)) ]) allergyData) in
  let db1 := set_allergies (allergies db ++ [newAllergy]) db in
  let db2 := logAudit (clk 0%nat) "Allergy" (get newAllergy "id") "CREATE"
               (VStr "system") db1 in
  (Resolved newAllergy, db2).

Definition removeAllergy (clk : clock) (allergyId : prim) (db : database)
    : outcome obj * database :=
  match findIndex (has_id allergyId) (allergies db) with
  | None => (Rejected "Allergy not found", db)
  | Some index =>
      let db1 := set_allergies (delete index (allergies db)) db in
      let db2 := logAudit (clk 0%nat) "Allergy" allergyId "DELETE"
                   (VStr "system") db1 in
      (Resolved success, db2)
  end.

(** *** Chronic conditions *)

Definition getChronicConditionsByPatient (patientId : prim) (db : database)
    : outcome (list obj) :=
  Resolved (List.filter (of_patient patientId) (chronicConditions db)).

Definition addChronicCondition (clk : clock) (conditionData : obj)
    (db : database) : outcome obj * database :=
  let newCondition :=
    <["status" := VStr "active"]>
      (spread (object [ ("id", next_id (chronicConditions db)) ])
              conditionData) in
  let db1 := set_chronicConditions (chronicConditions db ++ [newCondition]) db in
  let db2 := logAudit (clk 0%nat) "ChronicCondition" (get newCondition "id")
               "CREATE" (VStr "system") db1 in
  (Resolved newCondition, db2).

(** *** Workflows *)

Definition getAllWorkflows (db : database) : outcome (list obj) :=
  Resolved (workflows db).

Definition getWorkflowById (workflowId : prim) (db : database) : outcome obj :=
  match find (has_id workflowId) (workflows db) with
  | None => Rejected "Workflow not found"
  | Some workflow => Resolved workflow
  end.

(** [find] hands out the stored object itself and [usageCount++] writes
    to it in place: the record at the position of the first match is
    replaced by the incremented one.  The promise resolves with
    [undefined] ([None]) when nothing was found. *)
Definition incrementWorkflowUsage (clk : clock) (workflowId : prim)
    (db : database) : outcome (option obj) * database :=
  match findIndex (has_id workflowId) (workflows db) with
  | None => (Resolved None, db)
  | Some index =>
      let workflow := at_index (workflows db) index in
      let workflow' :=
        <["usageCount" := increment (get workflow "usageCount")]> workflow in
      let db1 := set_workflows (<[index := workflow']> (workflows db)) db in
      let db2 := logAudit (clk 0%nat) "WorkflowTemplate" workflowId "UPDATE"
                   (VStr "system") db1 in
      (Resolved (Some workflow'), db2)
  end.

(** *** Tasks *)

Definition getTasksByPatient (patientId : prim) (db : database)
    : outcome (list obj) :=
  Resolved (List.filter (of_patient patientId) (tasks db)).

Definition createTask (clk : clock) (taskData : obj) (db : database)
    : outcome obj * database :=
  let newTask :=
    <["createdAt" := VDate (clk 0%nat)]>
      (<["status" := js_or (get taskData "status") (VStr "pending")]>
        (spread (object [ ("id", next_id (tasks db)) ]) taskData)) in
  let db1 := set_tasks (tasks db ++ [newTask]) db in
  let db2 := logAudit (clk 1%nat) "Task" (get newTask "id") "CREATE"
               (js_or (get taskData "createdBy") (VStr "system")) db1 in
  (Resolved newTask, db2).

(** The completion stamp is one more clock read, made only when
    [updates.status === 'completed']. *)
Definition updateTask (clk : clock) (taskId : prim) (updates : obj)
    (db : database) : outcome obj * database :=
  match findIndex (has_id taskId) (tasks db) with
  | None => (Rejected "Task not found", db)
  | Some index =>
      let merged := spread (at_index (tasks db) index) updates in
      if strict_eq (get updates "status") (PStr "completed") then
        let stamped := <["completedAt" := VDate (clk 0%nat)]> merged in
        let db1 := set_tasks (<[index := stamped]> (tasks db)) db in
        let db2 := logAudit (clk 1%nat) "Task" taskId "UPDATE"
                     (VStr "system") db1 in
        (Resolved stamped, db2)
      else
        let db1 := set_tasks (<[index := merged]> (tasks db)) db in
        let db2 := logAudit (clk 0%nat) "Task" taskId "UPDATE"
                     (VStr "system") db1 in
        (Resolved merged, db2)
  end.

(** *** Appointments and referrals *)

Definition getAppointmentsByPatient (patientId : prim) (db : database)
    : outcome (list obj) :=
  Resolved (List.filter (of_patient patientId) (appointments db)).

Definition createAppointment (clk : clock) (appointmentData : obj)
    (db : database) : outcome obj * database :=
  let newAppointment :=
    <["createdAt" := VDate (clk 0%nat)]>
      (<["status" := js_or (get appointmentData "status") (VStr "scheduled")]>
        (spread (object [ ("id", next_id (appointments db)) ])
                appointmentData)) in
  let db1 := set_appointments (appointments db ++ [newAppointment]) db in
  let db2 := logAudit (clk 1%nat) "Appointment" (get newAppointment "id")
               "CREATE" (VStr "system") db1 in
  (Resolved newAppointment, db2).

Definition getReferralsByPatient (patientId : prim) (db : database)
    : outcome (list obj) :=
  Resolved (List.filter (of_patient patientId) (referrals db)).

Definition createReferral (clk : clock) (referralData : obj) (db : database)
    : outcome obj * database :=
  let newReferral :=
    <["createdAt" := VDate (clk 0%nat)]>
      (<["status" := js_or (get referralData "status") (VStr "pending")]>
        (spread (object [ ("id", next_id (referrals db)) ]) referralData)) in
  let db1 := set_referrals (referrals db ++ [newReferral]) db in
  let db2 := logAudit (clk 1%nat) "Referral" (get newReferral "id") "CREATE"
               (VStr "system") db1 in
  (Resolved newReferral, db2).

(** *** Search *)

(** [p.field.toLowerCase()]: a [TypeError] unless the property holds a
    string. *)
Definition lower_field (p : obj) (k : string) : option string :=
  match get p k with
  | VPrim (PStr s) => Some (toLowerCase s)
  | _ => None
  end.

(** The filter callback of [searchPatients]: [||] evaluates its operands
    left to right and stops at the first that holds; [None] is a thrown
    [TypeError]. *)
Fixpoint matches_any (lowerQuery : string) (p : obj) (fields : list string)
    : option bool :=
  match fields with
  | [] => Some false
  | k :: rest =>
      match lower_field p k with
      | None => None
      | Some s => if includes s lowerQuery then Some true
                  else matches_any lowerQuery p rest
      end
  end.

Definition search_fields : list string :=
  [ "firstName"; "lastName"; "id"; "email" ].

(** [Array.prototype.filter] with a callback that may throw: the first
    exception aborts the scan. *)
Fixpoint filter_throwing {A : Type} (f : A -> option bool) (l : list A)
    : option (list A) :=
  match l with
  | [] => Some []
  | x :: l' =>
      match f x with
      | None => None
      | Some b =>
          match filter_throwing f l' with
          | None => None
          | Some r => Some (if b then x :: r else r)
          end
      end
  end.

Definition searchPatients (query : string) (db : database)
    : outcome (list obj) :=
  let lowerQuery := toLowerCase query in
  match filter_throwing
          (fun p => matches_any lowerQuery p search_fields) (patients db) with
  | None => Threw "TypeError"
  | Some results => Resolved results
  end.

(** *** The mutating calls of the facade *)

Inductive call : Type :=
  | CreatePatient (patientData : obj)
  | UpdatePatient (patientId : prim) (updates : obj)
  | DeletePatient (patientId : prim)
  | CreateClinicalNote (noteData : obj)
  | UpdateClinicalNote (noteId : prim) (updates : obj)
  | AddAllergy (allergyData : obj)
  | RemoveAllergy (allergyId : prim)
  | AddChronicCondition (conditionData : obj)
  | IncrementWorkflowUsage (workflowId : prim)
  | CreateTask (taskData : obj)
  | UpdateTask (taskId : prim) (updates : obj)
  | CreateAppointment (appointmentData : obj)
  | CreateReferral (referralData : obj).

(** What such a call resolves with: an object or [undefined]. *)
Definition reply : Type := option obj.

Definition returning {A B : Type} (f : A -> B) (r : outcome A * database)
    : outcome B * database :=
  (match r.1 with
   | Resolved a => Resolved (f a)
   | Rejected m => Rejected m
   | Threw e => Threw e
   end, r.2).

Definition exec (clk : clock) (c : call) (db : database)
    : outcome reply * database :=
  match c with
  | CreatePatient d => returning Some (createPatient clk d db)
  | UpdatePatient i u => returning Some (updatePatient clk i u db)
  | DeletePatient i => returning Some (deletePatient clk i db)
  | CreateClinicalNote d => returning Some (createClinicalNote clk d db)
  | UpdateClinicalNote i u => returning Some (updateClinicalNote clk i u db)
  | AddAllergy d => returning Some (addAllergy clk d db)
  | RemoveAllergy i => returning Some (removeAllergy clk i db)
  | AddChronicCondition d => returning Some (addChronicCondition clk d db)
  | IncrementWorkflowUsage i => incrementWorkflowUsage clk i db
  | CreateTask d => returning Some (createTask clk d db)
  | UpdateTask i u => returning Some (updateTask clk i u db)
  | CreateAppointment d => returning Some (createAppointment clk d db)
  | CreateReferral d => returning Some (createReferral clk d db)
  end.

(** A session: calls in order, each with the clock reads it sees. *)
Fixpoint run (cs : list (clock * call)) (db : database) : database :=
  match cs with
  | [] => db
  | (clk, c) :: cs' => run cs' (exec clk c db).2
  end.

(** The stores the facade can bring about from the constructor's. *)
Inductive reachable : database -> Prop :=
  | reachable_initial : reachable initial_db
  | reachable_step clk c db :
      reachable db -> reachable (exec clk c db).2.

End Facade.

(** ** A host for concrete runs

    ASCII case folding, decimal numerals, and a fixed rendering of
    dates: enough to evaluate the facade on explicit inputs. *)

Definition ascii_lower (c : Ascii.ascii) : Ascii.ascii :=
  let n := Ascii.nat_of_ascii c in
  if (65 <=? n)%nat && (n <=? 90)%nat then Ascii.ascii_of_nat (n + 32) else c.

Fixpoint ascii_toLowerCase (s : string) : string :=
  match s with
  | EmptyString => EmptyString
  | String c s' => String (ascii_lower c) (ascii_toLowerCase s')
  end.

Definition digit_value (c : Ascii.ascii) : option Z :=
  let n := Ascii.nat_of_ascii c in
  if (48 <=? n)%nat && (n <=? 57)%nat then Some (Z.of_nat (n - 48)) else None.

Fixpoint decimal_value (acc : Z) (s : string) : prim :=
  match s with
  | EmptyString => PNum acc
  | String c s' =>
      match digit_value c with
      | Some d => decimal_value (10 * acc + d) s'
      | None => PNaN
      end
  end.

Definition reference_host : Host :=
  {| Date_toString := fun t => "Date(" +:+ pretty t +:+ ")";
     toLowerCase := ascii_toLowerCase;
     StringToNumber := decimal_value 0 |}.

(** A clock that reads [t] every time. *)
Definition frozen (t : Z) : clock := fun _ => t.

(** A clock that advances by one millisecond per read, from [t]. *)
Definition ticking (t : Z) : clock := fun k => (t + Z.of_nat k)%Z.

(** ** Specification vocabulary *)

(** The entity kinds that have an update operation. *)
Inductive updatable : Type := KPatient | KClinicalNote | KTask.

Definition records (k : updatable) (db : database) : list obj :=
  match k with
  | KPatient => patients db
  | KClinicalNote => clinicalNotes db
  | KTask => tasks db
  end.

Definition create `{Host} (k : updatable) (clk : clock) (data : obj)
    (db : database) : outcome obj * database :=
  match k with
  | KPatient => createPatient clk data db
  | KClinicalNote => createClinicalNote clk data db
  | KTask => createTask clk data db
  end.

Definition update `{Host} (k : updatable) (clk : clock) (id : prim)
    (updates : obj) (db : database) : outcome obj * database :=
  match k with
  | KPatient => updatePatient clk id updates db
  | KClinicalNote => updateClinicalNote clk id updates db
  | KTask => updateTask clk id updates db
  end.

(** The one property an update of kind [k] writes on its own account:
    [updatePatient] and [updateClinicalNote] set [updatedAt] on every
    call; [updateTask] sets [completedAt], and only when the updates set
    the status to completed (a task has no [updatedAt]). *)
Definition stamp_field (k : updatable) : string :=
  match k with
  | KPatient | KClinicalNote => "updatedAt"
  | KTask => "completedAt"
  end.

(** What an update of kind [k] stores and resolves with, given the
    spread [merged] of the stored record and the updates. *)
Definition stamp (k : updatable) (clk : clock) (updates merged : obj) : obj :=
  match k with
  | KPatient | KClinicalNote => <["updatedAt" := VDate (clk 0%nat)]> merged
  | KTask =>
      if strict_eq (get updates "status") (PStr "completed")
      then <["completedAt" := VDate (clk 0%nat)]> merged
      else merged
  end.

(** Every record of the six dependent sequences that refers to patient
    [id]: the result of a scan of the whole store. *)
Definition dependents (id : prim) (db : database) : list obj :=
  List.filter (of_patient id)
    (allergies db ++ chronicConditions db ++ clinicalNotes db ++
     tasks db ++ appointments db ++ referrals db).

(** No record of [l] carries identifier [id]. *)
Definition absent (id : prim) (l : list obj) : Prop :=
  Forall (fun r => has_id id r = false) l.

(** CREATE, UPDATE or DELETE, by the kind of the call. *)
Definition action_of (c : call) : string :=
  match c with
  | CreatePatient _ | CreateClinicalNote _ | AddAllergy _
  | AddChronicCondition _ | CreateTask _ | CreateAppointment _
  | CreateReferral _ => "CREATE"
  | UpdatePatient _ _ | UpdateClinicalNote _ _ | UpdateTask _ _
  | IncrementWorkflowUsage _ => "UPDATE"
  | DeletePatient _ | RemoveAllergy _ => "DELETE"
  end.

(** The stored record an id-keyed call addresses; [None] for a create. *)
Definition addressed (c : call) (db : database) : option obj :=
  match c with
  | UpdatePatient i _ | DeletePatient i => find (has_id i) (patients db)
  | UpdateClinicalNote i _ => find (has_id i) (clinicalNotes db)
  | RemoveAllergy i => find (has_id i) (allergies db)
  | IncrementWorkflowUsage i => find (has_id i) (workflows db)
  | UpdateTask i _ => find (has_id i) (tasks db)
  | _ => None
  end.

(** The record a successful call affects: the one it addressed, or for a
    create the new record [r] it resolved with. *)
Definition affected (c : call) (db : database) (r : obj) : obj :=
  default r (addressed c db).

(** The properties of a patient record that the store writes itself, and
    the six that [getPatientById] shadows.  The registration form (the
    only producer of creation input) submits none of them. *)
Definition managed_fields : list string :=
  [ "id"; "status"; "createdAt"; "updatedAt"; "allergies";
    "chronicConditions"; "clinicalNotes"; "tasks"; "appointments";
    "referrals" ].

Definition valid_patient_input (data : obj) : Prop :=
  Forall (fun k => data !! k = None) managed_fields.

(** [q] occurs in [s]. *)
Definition substring (q s : string) : Prop :=
  exists a b, s = a +:+ q +:+ b.

(** Property [k] of [p] is a string that contains [q], ignoring case. *)
Definition field_contains `{Host} (q : string) (p : obj) (k : string) : Prop :=
  exists s, get p k = VStr s /\ substring (toLowerCase q) (toLowerCase s).

(** Every searched property of every patient holds a string. *)
Definition searchable (db : database) : Prop :=
  Forall (fun p => Forall (fun k => exists s, get p k = VStr s) search_fields)
         (patients db).

(** A workflow whose usage counter is a number. *)
Definition counted (w : obj) : Prop :=
  exists n, get w "usageCount" = VNum n.

(** The identifier [createPatient] generates: [`P${Date.now()}`]. *)
Definition generated_id (clk : clock) : prim :=
  PStr ("P" +:+ pretty (clk 0%nat)).

(** Two records that agree on every property but [f]. *)
Definition same_except (f : string) (a b : obj) : Prop :=
  forall g, g <> f -> a !! g = b !! g.

(** The entity sequences of the store: everything but the audit log. *)
Definition entity_sequences (db : database) : list (list obj) :=
  [ patients db; allergies db; chronicConditions db; clinicalNotes db;
    workflows db; tasks db; appointments db; referrals db ].

(** Where the records of kind [k] stand among them. *)
Definition sequence_index (k : updatable) : nat :=
  match k with
  | KPatient => 0
  | KClinicalNote => 3
  | KTask => 5
  end.

Definition with_records (k : updatable) (l : list obj) (db : database)
    : database :=
  match k with
  | KPatient => set_patients l db
  | KClinicalNote => set_clinicalNotes l db
  | KTask => set_tasks l db
  end.

(** ** Scenarios *)

Definition P20250001 : prim := PStr "P20250001".

(** A second patient is registered under an identifier already in use. *)
Definition duplicate_id_store : database :=
  (createPatient (host := reference_host) (ticking 1736500000000)
     (object [ ("id", VStr "P20250001"); ("firstName", VStr "Eve") ])
     initial_db).2.

(** Two allergies are removed between two additions. *)
Definition allergy_session : list (clock * call) :=
  [ (frozen 10, AddAllergy (object [ ("patientId", VStr "P20250003");
                                      ("allergen", VStr "Pollen") ]));
    (frozen 20, RemoveAllergy (PNum 1));
    (frozen 30, RemoveAllergy (PNum 2));
    (frozen 40, AddAllergy (object [ ("patientId", VStr "P20250003");
                                      ("allergen", VStr "Dust") ])) ].

(** A patient delete cascades, then an allergy is added. *)
Definition cascade_session : list (clock * call) :=
  [ (frozen 10, DeletePatient (PStr "P20250002"));
    (frozen 20, AddAllergy (object [ ("patientId", VStr "P20250003");
                                      ("allergen", VStr "Pollen") ])) ].

Definition ada : obj :=
  object [ ("firstName", VStr "Ada"); ("lastName", VStr "Lovelace");
           ("dateOfBirth", VStr "1990-01-01"); ("bloodType", VStr "O+") ].

Definition grace : obj :=
  object [ ("firstName", VStr "Grace"); ("lastName", VStr "Hopper");
           ("dateOfBirth", VStr "1906-12-09"); ("email", VStr "grace@navy.mil") ].

(** The store in which Ada has just been registered; Grace will be,
    within the same millisecond. *)
Definition same_millisecond_store : database :=
  (createPatient (host := reference_host) (frozen 1736500000000) ada
     initial_db).2.

(** A patient registered with no data at all. *)
Definition blank_patient_store `{Host} : database :=
  (exec (frozen 1736500000000) (CreatePatient ∅) initial_db).2.

Definition follow_up : obj :=
  object [ ("title", VStr "Follow up"); ("patientId", VStr "P20250001") ].

(** Ada is registered and her record updated twice. *)
Definition ada_id : prim := generated_id (ticking 1736500000000).

Definition first_update : obj :=
  object [ ("phone", VStr "(555) 000-0001"); ("gender", VStr "Female") ].

Definition second_update : obj :=
  object [ ("phone", VStr "(555) 000-0002");
           ("email", VStr "ada@analytical.engine") ].

(** The object a promise resolved with. *)
Definition resolved_with (o : outcome obj) : obj :=
  match o with
  | Resolved a => a
  | _ => ∅
  end.

Definition ada_created : outcome obj * database :=
  createPatient (host := reference_host) (ticking 1736500000000) ada
    initial_db.

Definition ada_updated : outcome obj * database :=
  updatePatient (host := reference_host) (ticking 1736500001000) ada_id
    first_update ada_created.2.

(** Grace is registered in Ada's millisecond, and the identifier she
    was given is used for two updates. *)
Definition grace_created : outcome obj * database :=
  createPatient (host := reference_host) (frozen 1736500000000) grace
    same_millisecond_store.

Definition grace_updated : outcome obj * database :=
  updatePatient (host := reference_host) (ticking 1736500001000)
    (PStr "P1736500000000") first_update grace_created.2.

Definition grace_updated_again : outcome obj * database :=
  updatePatient (host := reference_host) (ticking 1736500002000)
    (PStr "P1736500000000") second_update grace_updated.2.

(** A progress note and two revisions of it. *)
Definition visit_note : obj :=
  object [ ("patientId", VStr "P20250001");
           ("content", VStr "Headache for two days");
           ("type", VStr "progress") ].

Definition first_revision : obj :=
  object [ ("content", VStr "Headache for three days");
           ("diagnosis", VStr "Migraine") ].

Definition second_revision : obj :=
  object [ ("content", VStr "Headache resolved");
           ("plan", VStr "Review in a week") ].

(** The store after the follow-up task has been created. *)
Definition task_store : database :=
  (createTask (host := reference_host) (ticking 1736500000000) follow_up
     initial_db).2.

Definition completed : obj := object [ ("status", VStr "completed") ].

(** Creation data that names store-managed properties. *)
Definition overriding_data : obj :=
  object [ ("id", VStr "X-1"); ("status", VStr "inactive");
           ("createdAt", VStr "yesterday"); ("updatedAt", VNull) ].

(** ** Audit log query and statistics *)

(** The host's date parser: the time value of [new Date(s)] for a
    string [s], [None] for an Invalid Date. *)
Class DateHost : Type := {
  Date_parse : string -> option Z
}.

(** TimeClip: time values beyond 8.64e15 ms are invalid. *)
Definition TimeClip (t : Z) : option Z :=
  if (Z.abs t <=? 8640000000000000)%Z then Some t else None.

(** [Array.prototype.sort(cmp)], which is stable: each element, taken
    from the last to the first, is put in front of the first element of
    the sorted rest that it does not have to follow ([cmp x y <= 0]).
    The language fixes the result only for a consistent comparator; this
    is the stable order in that case. *)
Fixpoint sort_insert {A : Type} (cmp : A -> A -> Z) (x : A) (l : list A)
    : list A :=
  match l with
  | [] => [x]
  | y :: l' => if (0 <? cmp x y)%Z then y :: sort_insert cmp x l' else x :: l
  end.

Definition sort_by {A : Type} (cmp : A -> A -> Z) (l : list A) : list A :=
  foldr (sort_insert cmp) [] l.

Section Queries.

Context `{host : Host} `{dates : DateHost}.

(** [filters.k]; the filter values are primitives. *)
Definition filter_value (filters : gmap string prim) (k : string) : prim :=
  default PUndefined (filters !! k).

(** [if (filters.k) logs = logs.filter(l => l.k === filters.k)] *)
Definition narrow (filters : gmap string prim) (k : string)
    (logs : list obj) : list obj :=
  if truthy (VPrim (filter_value filters k))
  then List.filter (fun l => strict_eq (get l k) (filter_value filters k)) logs
  else logs.

(** [(a, b) => b.timestamp - a.timestamp]; a [NaN] result counts as 0. *)
Definition newest_first (a b : obj) : Z :=
  match ToNumber (get b "timestamp"), ToNumber (get a "timestamp") with
  | PNum tb, PNum ta => tb - ta
  | _, _ => 0
  end.

Definition getAuditLog (filters : gmap string prim) (db : database)
    : outcome (list obj) :=
  let logs := auditLog db in
  let logs := narrow filters "entityType" logs in
  let logs := narrow filters "entityId" logs in
  let logs := narrow filters "userId" logs in
  Resolved (sort_by newest_first logs).

(** The time value of [new Date(v)]. *)
Definition Date_of (v : value) : option Z :=
  match v with
  | VDate t => Some t
  | VPrim (PStr s) => Date_parse s
  | _ => match ToNumber v with
         | PNum n => TimeClip n
         | _ => None
         end
  end.

(** The appointments kept by
    [a => a.status === 'scheduled' && new Date(a.scheduledDate) > new Date()]:
    the clock is read once for each scheduled appointment, [k] reads
    having been made before. *)
Fixpoint upcoming (clk : clock) (k : nat) (l : list obj) : list obj :=
  match l with
  | [] => []
  | a :: l' =>
      if strict_eq (get a "status") (PStr "scheduled") then
        match Date_of (get a "scheduledDate") with
        | Some t => if (clk k <? t)%Z then a :: upcoming clk (S k) l'
                    else upcoming clk (S k) l'
        | None => upcoming clk (S k) l'
        end
      else upcoming clk k l'
  end.

Record statistics : Type := {
  totalPatients : nat;
  activePatients : nat;
  totalClinicalNotes : nat;
  aiGeneratedNotes : nat;
  pendingTasks : nat;
  upcomingAppointments : nat
}.

Definition getStatistics (clk : clock) (db : database) : outcome statistics :=
  Resolved
    {| totalPatients := length (patients db);
       activePatients :=
         length (List.filter
                   (fun p => strict_eq (get p "status") (PStr "active"))
                   (patients db));
       totalClinicalNotes := length (clinicalNotes db);
       aiGeneratedNotes :=
         length (List.filter (fun n => truthy (get n "isAIGenerated"))
                   (clinicalNotes db));
       pendingTasks :=
         length (List.filter
                   (fun t => strict_eq (get t "status") (PStr "pending"))
                   (tasks db));
       upcomingAppointments := length (upcoming clk 0 (appointments db)) |}.

(** The outcomes of the calls of a session, in order. *)
Fixpoint run_outcomes (cs : list (clock * call)) (db : database)
    : list (outcome reply) :=
  match cs with
  | [] => []
  | (clk, c) :: cs' => (exec clk c db).1 :: run_outcomes cs' (exec clk c db).2
  end.

End Queries.

(** *** A date parser for concrete runs

    The date-time string format of the language (ECMA-262, Date Time
    String Format) with the years 0000 to 9999: a date [YYYY],
    [YYYY-MM] or [YYYY-MM-DD], alone (midnight UTC) or followed by [T],
    a time [HH:mm], [HH:mm:ss] or [HH:mm:ss.sss] and a UTC offset [Z],
    [+HH:mm] or [-HH:mm]; a time with no offset is local time, and the
    host's zone is UTC.  Every other string is an Invalid Date, as the
    language requires of a string that no format of the engine
    recognises (engines have further formats of their own, which are
    not modelled). *)

Definition number_of (cs : list Ascii.ascii) : option Z :=
  foldl (fun acc c => a ← acc; d ← digit_value c; Some (10 * a + d)%Z)
        (Some 0%Z) cs.

Definition leap_year (y : Z) : bool :=
  ((y mod 4 =? 0) && negb (y mod 100 =? 0) || (y mod 400 =? 0))%Z.

Definition days_in_month (y m : Z) : Z :=
  if (m =? 2)%Z then (if leap_year y then 29 else 28)%Z
  else if ((m =? 4) || (m =? 6) || (m =? 9) || (m =? 11))%Z then 30%Z
  else 31%Z.

(** The day number of a date of the proleptic Gregorian calendar, day 0
    being 1 January 1970. *)
Definition day_number (y m d : Z) : Z :=
  (let y' := if m <=? 2 then y - 1 else y in
   let era := y' / 400 in
   let year_of_era := y' - era * 400 in
   let day_of_year := (153 * ((m + 9) mod 12) + 2) / 5 + d - 1 in
   let day_of_era :=
     year_of_era * 365 + year_of_era / 4 - year_of_era / 100 + day_of_year in
   era * 146097 + day_of_era - 719468)%Z.

Definition date_value (y m d : Z) : option Z :=
  if ((1 <=? m) && (m <=? 12) && (1 <=? d) && (d <=? days_in_month y m))%Z
  then Some (day_number y m d * 86400000)%Z
  else None.

Definition time_value (h m s ms : Z) : option Z :=
  if ((h <=? 23) && (m <=? 59) && (s <=? 59) ||
      (h =? 24) && (m =? 0) && (s =? 0) && (ms =? 0))%Z
  then Some (h * 3600000 + m * 60000 + s * 1000 + ms)%Z
  else None.

Definition is_char (c : Ascii.ascii) (s : string) : bool :=
  bool_decide (String c EmptyString = s).

(** [YYYY], [YYYY-MM] or [YYYY-MM-DD]. *)
Definition parse_date (cs : list Ascii.ascii) : option Z :=
  match cs with
  | [y1; y2; y3; y4] =>
      y ← number_of [y1; y2; y3; y4]; date_value y 1 1
  | [y1; y2; y3; y4; a; m1; m2] =>
      if is_char a "-" then
        y ← number_of [y1; y2; y3; y4]; m ← number_of [m1; m2];
        date_value y m 1
      else None
  | [y1; y2; y3; y4; a; m1; m2; b; d1; d2] =>
      if is_char a "-" && is_char b "-" then
        y ← number_of [y1; y2; y3; y4]; m ← number_of [m1; m2];
        d ← number_of [d1; d2]; date_value y m d
      else None
  | _ => None
  end.

(** [HH:mm], [HH:mm:ss] or [HH:mm:ss.sss]. *)
Definition parse_time (cs : list Ascii.ascii) : option Z :=
  match cs with
  | [h1; h2; a; m1; m2] =>
      if is_char a ":" then
        h ← number_of [h1; h2]; m ← number_of [m1; m2]; time_value h m 0 0
      else None
  | [h1; h2; a; m1; m2; b; s1; s2] =>
      if is_char a ":" && is_char b ":" then
        h ← number_of [h1; h2]; m ← number_of [m1; m2];
        s ← number_of [s1; s2]; time_value h m s 0
      else None
  | [h1; h2; a; m1; m2; b; s1; s2; c; f1; f2; f3] =>
      if is_char a ":" && is_char b ":" && is_char c "." then
        h ← number_of [h1; h2]; m ← number_of [m1; m2];
        s ← number_of [s1; s2]; ms ← number_of [f1; f2; f3];
        time_value h m s ms
      else None
  | _ => None
  end.

(** The UTC offset: none, [Z], [+HH:mm] or [-HH:mm]. *)
Definition parse_offset (cs : list Ascii.ascii) : option Z :=
  match cs with
  | [] => Some 0%Z
  | [z] => if is_char z "Z" then Some 0%Z else None
  | [sign; h1; h2; a; m1; m2] =>
      if is_char a ":" then
        h ← number_of [h1; h2]; m ← number_of [m1; m2];
        if ((h <=? 23) && (m <=? 59))%Z then
          if is_char sign "+" then Some (h * 3600000 + m * 60000)%Z
          else if is_char sign "-" then Some (- (h * 3600000 + m * 60000))%Z
          else None
        else None
      else None
  | _ => None
  end.

(** The characters before the first one that satisfies [p], and the
    rest. *)
Fixpoint break_at (p : Ascii.ascii -> bool) (cs : list Ascii.ascii)
    : list Ascii.ascii * list Ascii.ascii :=
  match cs with
  | [] => ([], [])
  | c :: cs' =>
      if p c then ([], cs)
      else let '(a, b) := break_at p cs' in (c :: a, b)
  end.

Definition parse_date_time (s : string) : option Z :=
  let '(date, rest) :=
    break_at (fun c => is_char c "T") (String.list_ascii_of_string s) in
  day ← parse_date date;
  match rest with
  | [] => TimeClip day
  | _ :: time_zone =>
      let '(time, zone) :=
        break_at (fun c => is_char c "Z" || is_char c "+" || is_char c "-")
          time_zone in
      t ← parse_time time; offset ← parse_offset zone;
      TimeClip (day + t - offset)%Z
  end.

Definition reference_dates : DateHost :=
  {| Date_parse := parse_date_time |}.

(** The six kinds of record that refer to a patient. *)
Inductive dependent : Type :=
  | DAllergy | DChronicCondition | DClinicalNote
  | DTask | DAppointment | DReferral.

Definition dependent_records (d : dependent) (db : database) : list obj :=
  match d with
  | DAllergy => allergies db
  | DChronicCondition => chronicConditions db
  | DClinicalNote => clinicalNotes db
  | DTask => tasks db
  | DAppointment => appointments db
  | DReferral => referrals db
  end.

Definition create_dependent `{Host} (d : dependent) (clk : clock) (data : obj)
    (db : database) : outcome obj * database :=
  match d with
  | DAllergy => addAllergy clk data db
  | DChronicCondition => addChronicCondition clk data db
  | DClinicalNote => createClinicalNote clk data db
  | DTask => createTask clk data db
  | DAppointment => createAppointment clk data db
  | DReferral => createReferral clk data db
  end.

Definition by_patient (d : dependent) (patientId : prim) (db : database)
    : outcome (list obj) :=
  match d with
  | DAllergy => getAllergiesByPatient patientId db
  | DChronicCondition => getChronicConditionsByPatient patientId db
  | DClinicalNote => getClinicalNotesByPatient patientId db
  | DTask => getTasksByPatient patientId db
  | DAppointment => getAppointmentsByPatient patientId db
  | DReferral => getReferralsByPatient patientId db
  end.

(** The status a create falls back to, for the kinds that have one. *)
Definition default_status (d : dependent) : option string :=
  match d with
  | DClinicalNote => Some "draft"
  | DTask => Some "pending"
  | DAppointment => Some "scheduled"
  | DReferral => Some "pending"
  | DAllergy | DChronicCondition => None
  end.

(** A call resolved with an object. *)
Definition resolved_object (o : outcome reply) : bool :=
  match o with
  | Resolved (Some _) => true
  | _ => false
  end.

(** The time an audit entry was stamped with. *)
Definition entry_time (e : obj) : option Z :=
  match get e "timestamp" with
  | VDate t => Some t
  | _ => None
  end.

(** An entry as [logAudit] writes it. *)
Definition audit_entry_shape (e : obj) : Prop :=
  (exists n, get e "id" = VNum n) /\
  (exists s, get e "entityType" = VStr s) /\
  (exists s, get e "entityId" = VStr s) /\
  (get e "action" = VStr "CREATE" \/ get e "action" = VStr "UPDATE" \/
   get e "action" = VStr "DELETE") /\
  (exists t, get e "timestamp" = VDate t).

(** Identifiers 1, 2, ..., n in order. *)
Definition numbered_from_one (l : list obj) : Prop :=
  forall i e, l !! i = Some e -> get e "id" = VNum (Z.of_nat i + 1).

(** The usage counters of the workflows, summed. *)
Definition usage_of (w : obj) : Z :=
  match get w "usageCount" with
  | VNum n => n
  | _ => 0
  end.

Definition total_usage (db : database) : Z :=
  foldr (fun w acc => (usage_of w + acc)%Z) 0%Z (workflows db).

Definition workflow_updates (db : database) : list obj :=
  List.filter
    (fun e => strict_eq (get e "entityType") (PStr "WorkflowTemplate"))
    (auditLog db).

(** The keys [getAuditLog] can narrow by. *)
Definition audit_filter_keys : list string :=
  [ "entityType"; "entityId"; "userId" ].

(** Entry [e] agrees with every filter that is given (truthy). *)
Definition passes (filters : gmap string prim) (e : obj) : bool :=
  forallb
    (fun k => negb (truthy (VPrim (filter_value filters k))) ||
              strict_eq (get e k) (filter_value filters k))
    audit_filter_keys.

(** Entry [b] was not stamped later than entry [a]. *)
Definition not_later (a b : obj) : Prop :=
  exists ta tb, entry_time a = Some ta /\ entry_time b = Some tb /\
                (tb <= ta)%Z.

(** The entries stamped at time [t]. *)
Definition stamped_at (t : Z) (e : obj) : bool :=
  bool_decide (entry_time e = Some t).

(** The entity type a call audits under. *)
Definition entity_of (c : call) : string :=
  match c with
  | CreatePatient _ | UpdatePatient _ _ | DeletePatient _ => "Patient"
  | CreateClinicalNote _ | UpdateClinicalNote _ _ => "ClinicalNote"
  | AddAllergy _ | RemoveAllergy _ => "Allergy"
  | AddChronicCondition _ => "ChronicCondition"
  | IncrementWorkflowUsage _ => "WorkflowTemplate"
  | CreateTask _ | UpdateTask _ _ => "Task"
  | CreateAppointment _ => "Appointment"
  | CreateReferral _ => "Referral"
  end.

(** [r => r.status === s] *)
Definition has_status (s : string) (r : obj) : bool :=
  strict_eq (get r "status") (PStr s).

(** Appointment [a] is scheduled for a time after [now]. *)
Definition scheduled_after `{Host} `{DateHost} (now : Z) (a : obj) : bool :=
  has_status "scheduled" a &&
  match Date_of (get a "scheduledDate") with
  | Some t => (now <? t)%Z
  | None => false
  end.

(** ** Form helpers (validators.js, formatters.js)

    The two phone helpers and the sanitiser only look at ASCII
    characters, which no encoding of a longer character contains, so
    they are modelled on the strings as they are. *)

(** [\d] *)
Definition is_digit (c : Ascii.ascii) : bool :=
  let n := Ascii.nat_of_ascii c in (48 <=? n)%nat && (n <=? 57)%nat.

(** [s.replace(/\D/g, '')] *)
Fixpoint digits_only (s : string) : string :=
  match s with
  | EmptyString => EmptyString
  | String c s' =>
      if is_digit c then String c (digits_only s') else digits_only s'
  end.

(** [{ isValid, error }], [error: null] being [None]. *)
Record validation : Type := {
  isValid : bool;
  error : option string
}.

Definition validatePhone (phone : string) : validation :=
  if bool_decide (phone = "") then
    {| isValid := false; error := Some "Phone number is required" |}
  else
    let cleaned := digits_only phone in
    if negb (String.length cleaned =? 10)%nat then
      {| isValid := false; error := Some "Phone number must be 10 digits" |}
    else {| isValid := true; error := None |}.

(** [s.slice(from, to)] and [s.slice(from)], for [from <= to]. *)
Definition slice (from to : nat) (s : string) : string :=
  String.substring from (to - from) s.

Definition slice_from (from : nat) (s : string) : string :=
  String.substring from (String.length s - from) s.

Definition formatPhone (phone : string) : string :=
  if bool_decide (phone = "") then "N/A"
  else
    let cleaned := digits_only phone in
    if (String.length cleaned =? 10)%nat then
      "(" +:+ slice 0 3 cleaned +:+ ") " +:+ slice 3 6 cleaned +:+ "-" +:+
      slice_from 6 cleaned
    else phone.

(** [s.replace(/c/g, by)] for a single character [c]. *)
Fixpoint replace_all (c : Ascii.ascii) (by_ : string) (s : string) : string :=
  match s with
  | EmptyString => EmptyString
  | String a s' =>
      if decide (a = c) then by_ +:+ replace_all c by_ s'
      else String a (replace_all c by_ s')
  end.

Definition double_quote : Ascii.ascii := Ascii.ascii_of_nat 34.

Definition sanitizeInput (input : string) : string :=
  replace_all "/"%char "&#x2F;"
    (replace_all "'"%char "&#x27;"
      (replace_all double_quote "&quot;"
        (replace_all ">"%char "&gt;"
          (replace_all "<"%char "&lt;" input)))).

(** Character [c] occurs in [s]. *)
Fixpoint occurs (c : Ascii.ascii) (s : string) : bool :=
  match s with
  | EmptyString => false
  | String a s' => bool_decide (a = c) || occurs c s'
  end.

(** The characters [sanitizeInput] escapes. *)
Definition escaped_characters : list Ascii.ascii :=
  [ "<"; ">"; double_quote; "'"; "/" ]%char.

(** ** Array searches *)

Section ArraySearch.

Context {A : Type} (f : A -> bool).

Lemma findIndex_None (l : list A) :
  findIndex f l = None <-> Forall (fun x => f x = false) l.
Proof.
  induction l as [|x l IH]; simpl.
  - split; [constructor | reflexivity].
  - destruct (f x) eqn:Hx.
    + split; [discriminate | intros Hall; inversion Hall; congruence].
    + destruct (findIndex f l); simpl.
      * split; [discriminate | intros Hall; inversion Hall; subst].
        assert (Some n = None) by (apply IH; assumption). discriminate.
      * split; [intros _; constructor; [assumption | apply IH; reflexivity]
               | reflexivity].
Qed.

Lemma findIndex_Some (l : list A) (i : nat) :
  findIndex f l = Some i ->
  exists x, l !! i = Some x /\ f x = true /\ find f l = Some x /\
            Forall (fun y => f y = false) (take i l).
Proof.
  revert i. induction l as [|x l IH]; intros i; simpl; [discriminate|].
  destruct (f x) eqn:Hx.
  - intros [= <-]. exists x. simpl. repeat split; auto.
  - destruct (findIndex f l) as [j|]; simpl; [|discriminate].
    intros [= <-]. destruct (IH j eq_refl) as (y & Hy & Hfy & Hfind & Hbefore).
    exists y. simpl. repeat split; auto.
Qed.

Lemma find_findIndex (l : list A) :
  find f l = findIndex f l ≫= (fun i => l !! i).
Proof.
  induction l as [|x l IH]; simpl; [reflexivity|].
  destruct (f x); [reflexivity|].
  rewrite IH. destruct (findIndex f l); reflexivity.
Qed.

Lemma find_None (l : list A) :
  find f l = None <-> Forall (fun x => f x = false) l.
Proof.
  rewrite <- findIndex_None. rewrite find_findIndex.
  destruct (findIndex f l) as [i|] eqn:Hi; simpl; [|tauto].
  destruct (findIndex_Some _ _ Hi) as (x & Hx & _). rewrite Hx.
  split; discriminate.
Qed.

Lemma find_is_Some (l : list A) (x : A) :
  x ∈ l -> f x = true -> exists y, find f l = Some y.
Proof.
  intros Hin Hx. destruct (find f l) as [y|] eqn:Hfind; [eauto|].
  apply find_None in Hfind. rewrite Forall_forall in Hfind.
  specialize (Hfind x Hin). congruence.
Qed.

Lemma filter_nil_iff (l : list A) :
  List.filter f l = [] <-> Forall (fun x => f x = false) l.
Proof.
  induction l as [|x l IH]; simpl.
  - split; [constructor | reflexivity].
  - destruct (f x) eqn:Hx.
    + split; [discriminate | intros Hall; inversion Hall; congruence].
    + rewrite IH. split; [constructor; assumption | intros Hall; inversion Hall; assumption].
Qed.

Lemma filter_negb_nil (l : list A) :
  List.filter f (List.filter (fun x => negb (f x)) l) = [].
Proof.
  induction l as [|x l IH]; simpl; [reflexivity|].
  destruct (f x) eqn:Hx; simpl; [assumption|]. rewrite Hx. assumption.
Qed.

(** Deleting the only match leaves no match, and is the same as
    filtering the matches out. *)
Lemma delete_only_match (l : list A) (i : nat) :
  findIndex f l = Some i ->
  length (List.filter f l) = 1%nat ->
  delete i l = List.filter (fun x => negb (f x)) l /\
  List.filter f (delete i l) = [].
Proof.
  revert i. induction l as [|x l IH]; intros i; simpl; [discriminate|].
  destruct (f x) eqn:Hx; simpl.
  - intros [= <-] [= Hlen]. simpl.
    apply length_zero_iff_nil in Hlen.
    assert (Hall : Forall (fun y => f y = false) l) by (apply filter_nil_iff; assumption).
    split; [|assumption].
    clear -Hall. induction Hall as [|y l Hy _ IHl]; simpl; [reflexivity|].
    rewrite Hy. simpl. f_equal. assumption.
  - destruct (findIndex f l) as [j|]; simpl; [|discriminate].
    intros [= <-] Hlen. destruct (IH j eq_refl Hlen) as [Hdel Hnone].
    simpl. rewrite Hx. split; [f_equal|]; assumption.
Qed.

End ArraySearch.

(** ** Values and records *)

Lemma strict_eq_true (v : value) (p : prim) :
  strict_eq v p = true -> v = VPrim p.
Proof.
  destruct v as [q|t]; simpl; [|discriminate].
  unfold strict_eq_prim.
  destruct q, p; try discriminate;
    intros Heq; apply bool_decide_eq_true in Heq; congruence.
Qed.

Lemma strict_eq_refl (p : prim) : p <> PNaN -> strict_eq (VPrim p) p = true.
Proof.
  intros Hp. simpl. unfold strict_eq_prim.
  destruct p; try apply bool_decide_eq_true; try reflexivity. congruence.
Qed.

Lemma get_insert_eq (o : obj) (k : string) (v : value) :
  get (<[k := v]> o) k = v.
Proof. unfold get. rewrite lookup_insert_eq. reflexivity. Qed.

Lemma get_insert_ne (o : obj) (k k' : string) (v : value) :
  k <> k' -> get (<[k := v]> o) k' = get o k'.
Proof. intros Hne. unfold get. rewrite lookup_insert_ne by assumption. reflexivity. Qed.

Lemma lookup_spread (base over : obj) (k : string) :
  spread base over !! k =
  match over !! k with Some v => Some v | None => base !! k end.
Proof.
  unfold spread. rewrite lookup_union.
  destruct (over !! k), (base !! k); reflexivity.
Qed.

Lemma at_index_lookup (l : list obj) (i : nat) (r : obj) :
  l !! i = Some r -> at_index l i = r.
Proof. intros Hr. unfold at_index. rewrite Hr. reflexivity. Qed.

Section Properties.

Context `{host : Host}.

(** ** The audit recorder *)

Lemma logAudit_appends now ty id act user db :
  exists entry,
    auditLog (logAudit now ty id act user db) = auditLog db ++ [entry] /\
    get entry "entityType" = VStr ty /\
    get entry "entityId" = VStr (String_of id) /\
    get entry "action" = VStr act /\
    get entry "userId" = user /\
    get entry "timestamp" = VDate now.
Proof.
  eexists. split; [reflexivity|].
  unfold object; simpl.
  repeat split;
    repeat (first [ rewrite get_insert_eq; reflexivity
                  | rewrite get_insert_ne by discriminate ]).
Qed.

(** ** Lookups that fail *)

(** C5.  An id-keyed operation other than [incrementWorkflowUsage],
    called with an identifier that no record of its sequence carries, is
    rejected with the message naming what was not found, and leaves the
    store (every entity sequence and the audit log) as it was.  The two
    reads, [getPatientById] and [getWorkflowById], have no access to a
    new store at all. *)
Theorem not_found_is_rejected_and_harmless
    (clk : clock) (id : prim) (updates : obj) (db : database) :
  (absent id (patients db) ->
     getPatientById id db = Rejected "Patient not found" /\
     updatePatient clk id updates db = (Rejected "Patient not found", db) /\
     deletePatient clk id db = (Rejected "Patient not found", db)) /\
  (absent id (clinicalNotes db) ->
     updateClinicalNote clk id updates db =
       (Rejected "Clinical note not found", db)) /\
  (absent id (allergies db) ->
     removeAllergy clk id db = (Rejected "Allergy not found", db)) /\
  (absent id (workflows db) ->
     getWorkflowById id db = Rejected "Workflow not found") /\
  (absent id (tasks db) ->
     updateTask clk id updates db = (Rejected "Task not found", db)).
Proof.
  unfold absent.
  repeat match goal with |- _ /\ _ => split end; intros Habs;
    pose proof (proj2 (findIndex_None _ _) Habs) as Hidx;
    pose proof (proj2 (find_None _ _) Habs) as Hfind.
  - unfold getPatientById, updatePatient, deletePatient.
    rewrite Hfind, Hidx. repeat split.
  - unfold updateClinicalNote. rewrite Hidx. reflexivity.
  - unfold removeAllergy. rewrite Hidx. reflexivity.
  - unfold getWorkflowById. rewrite Hfind. reflexivity.
  - unfold updateTask. rewrite Hidx. reflexivity.
Qed.

(** ** Cascading delete *)

Lemma dependents_nil id db :
  dependents id db = [] <->
  List.filter (of_patient id) (allergies db) = [] /\
  List.filter (of_patient id) (chronicConditions db) = [] /\
  List.filter (of_patient id) (clinicalNotes db) = [] /\
  List.filter (of_patient id) (tasks db) = [] /\
  List.filter (of_patient id) (appointments db) = [] /\
  List.filter (of_patient id) (referrals db) = [].
Proof.
  unfold dependents. rewrite !List.filter_app.
  split.
  - intros Happ.
    repeat (apply app_eq_nil in Happ; destruct Happ as [? Happ]).
    repeat split; assumption.
  - intros (-> & -> & -> & -> & -> & ->). reflexivity.
Qed.

(** What a successful [deletePatient] does to the store: the first
    patient carrying the identifier goes, and so does every dependent
    record that refers to it. *)
Lemma deletePatient_found clk id db index :
  findIndex (has_id id) (patients db) = Some index ->
  exists db',
    deletePatient clk id db = (Resolved success, db') /\
    patients db' = delete index (patients db) /\
    allergies db' =
      List.filter (fun r => negb (of_patient id r)) (allergies db) /\
    chronicConditions db' =
      List.filter (fun r => negb (of_patient id r)) (chronicConditions db) /\
    clinicalNotes db' =
      List.filter (fun r => negb (of_patient id r)) (clinicalNotes db) /\
    tasks db' = List.filter (fun r => negb (of_patient id r)) (tasks db) /\
    appointments db' =
      List.filter (fun r => negb (of_patient id r)) (appointments db) /\
    referrals db' =
      List.filter (fun r => negb (of_patient id r)) (referrals db) /\
    workflows db' = workflows db /\
    dependents id db' = [].
Proof.
  intros Hidx. unfold deletePatient. rewrite Hidx.
  eexists. split; [reflexivity|]. simpl.
  repeat split. apply dependents_nil. simpl.
  repeat split; apply filter_negb_nil.
Qed.

(** C1, as the store implements it.  When exactly one patient record
    carries identifier [P], [deletePatient(P)] resolves, removes that
    record and every allergy, chronic condition, clinical note, task,
    appointment and referral whose patient reference is [P] (and nothing
    else from these sequences), so that a scan of the whole store finds
    no record referring to [P], and [getPatientById(P)] is then rejected
    as not found. *)
Theorem deletePatient_cascades
    (clk : clock) (P : prim) (db : database) :
  length (List.filter (has_id P) (patients db)) = 1%nat ->
  exists db',
    deletePatient clk P db = (Resolved success, db') /\
    patients db' = List.filter (fun r => negb (has_id P r)) (patients db) /\
    allergies db' =
      List.filter (fun r => negb (of_patient P r)) (allergies db) /\
    chronicConditions db' =
      List.filter (fun r => negb (of_patient P r)) (chronicConditions db) /\
    clinicalNotes db' =
      List.filter (fun r => negb (of_patient P r)) (clinicalNotes db) /\
    tasks db' = List.filter (fun r => negb (of_patient P r)) (tasks db) /\
    appointments db' =
      List.filter (fun r => negb (of_patient P r)) (appointments db) /\
    referrals db' =
      List.filter (fun r => negb (of_patient P r)) (referrals db) /\
    List.filter (has_id P) (patients db') = [] /\
    dependents P db' = [] /\
    getPatientById P db' = Rejected "Patient not found".
Proof.
  intros Hone.
  destruct (findIndex (has_id P) (patients db)) as [index|] eqn:Hidx.
  2:{ apply findIndex_None, filter_nil_iff in Hidx.
      rewrite Hidx in Hone. discriminate. }
  destruct (delete_only_match _ _ _ Hidx Hone) as [Hdel Hnone].
  destruct (deletePatient_found clk P db index Hidx)
    as (db' & Hrun & Hpat & Hal & Hcc & Hcn & Hta & Hap & Hre & _ & Hdep).
  exists db'. rewrite Hpat.
  repeat split; try assumption.
  unfold getPatientById. rewrite Hpat.
  apply filter_nil_iff, find_None in Hnone. rewrite Hnone. reflexivity.
Qed.

(** ** One audit entry per mutation *)

Lemma logAudit_after now ty id act user db0 db :
  auditLog db = auditLog db0 ->
  exists entry,
    auditLog (logAudit now ty id act user db) = auditLog db0 ++ [entry] /\
    get entry "action" = VStr act /\
    get entry "entityId" = VStr (String_of id).
Proof.
  intros <-.
  destruct (logAudit_appends now ty id act user db)
    as (entry & Hlog & _ & Hid & Hact & _).
  exists entry. repeat split; assumption.
Qed.

Lemma addressed_id (l : list obj) (id : prim) (index : nat) :
  findIndex (has_id id) l = Some index ->
  exists x, find (has_id id) l = Some x /\ l !! index = Some x /\
            get x "id" = VPrim id.
Proof.
  intros Hidx. destruct (findIndex_Some _ _ _ Hidx) as (x & Hx & Hid & Hfind & _).
  exists x. repeat split; try assumption. apply strict_eq_true, Hid.
Qed.

(** C3.  A mutating facade call that succeeds (it resolves with an
    object: a create, an update, a delete with its cascade, or a usage
    increment that found its workflow) leaves the audit log one entry
    longer, the new entry last.  The entry's action is the kind of the
    call and its [entityId] is the string form of the identifier of the
    affected record: the new record for a create, the record stored
    under the given identifier for the others.  The store returned with
    the result already holds the entry. *)
Theorem mutation_appends_one_audit_entry
    (clk : clock) (c : call) (db db' : database) (r : obj) :
  exec clk c db = (Resolved (Some r), db') ->
  exists entry,
    auditLog db' = auditLog db ++ [entry] /\
    get entry "action" = VStr (action_of c) /\
    get entry "entityId" = VStr (String_of (get (affected c db r) "id")).
Proof.
  unfold affected.
  destruct c; cbn [exec addressed action_of]; unfold returning;
    try (unfold createPatient, createClinicalNote, addAllergy,
           addChronicCondition, createTask, createAppointment, createReferral;
         cbn [fst snd default]; intros [= <- <-];
         apply logAudit_after; reflexivity).
  - (* updatePatient *)
    unfold updatePatient.
    destruct (findIndex _ _) as [index|] eqn:Hidx; cbn [fst snd]; [|discriminate].
    destruct (addressed_id _ _ _ Hidx) as (x & -> & _ & Hid);
      change (default r (Some x)) with x; rewrite Hid.
    intros [= <- <-]. apply logAudit_after. reflexivity.
  - (* deletePatient *)
    unfold deletePatient.
    destruct (findIndex _ _) as [index|] eqn:Hidx; cbn [fst snd]; [|discriminate].
    destruct (addressed_id _ _ _ Hidx) as (x & -> & _ & Hid);
      change (default r (Some x)) with x; rewrite Hid.
    intros [= <- <-]. apply logAudit_after. reflexivity.
  - (* updateClinicalNote *)
    unfold updateClinicalNote.
    destruct (findIndex _ _) as [index|] eqn:Hidx; cbn [fst snd]; [|discriminate].
    destruct (addressed_id _ _ _ Hidx) as (x & -> & _ & Hid);
      change (default r (Some x)) with x; rewrite Hid.
    intros [= <- <-]. apply logAudit_after. reflexivity.
  - (* removeAllergy *)
    unfold removeAllergy.
    destruct (findIndex _ _) as [index|] eqn:Hidx; cbn [fst snd]; [|discriminate].
    destruct (addressed_id _ _ _ Hidx) as (x & -> & _ & Hid);
      change (default r (Some x)) with x; rewrite Hid.
    intros [= <- <-]. apply logAudit_after. reflexivity.
  - (* incrementWorkflowUsage *)
    unfold incrementWorkflowUsage.
    destruct (findIndex _ _) as [index|] eqn:Hidx; [|discriminate].
    destruct (addressed_id _ _ _ Hidx) as (x & -> & _ & Hid);
      change (default r (Some x)) with x; rewrite Hid.
    intros [= <- <-]. apply logAudit_after. reflexivity.
  - (* updateTask *)
    unfold updateTask.
    destruct (findIndex _ _) as [index|] eqn:Hidx; cbn [fst snd]; [|discriminate].
    destruct (addressed_id _ _ _ Hidx) as (x & -> & _ & Hid);
      change (default r (Some x)) with x; rewrite Hid.
    destruct (strict_eq _ _); cbn [fst snd];
      intros [= <- <-]; apply logAudit_after; reflexivity.
Qed.

(** ** Workflow usage *)

Lemma initial_workflows_counted : Forall counted initial_workflows.
Proof. repeat constructor; eexists; reflexivity. Qed.

Lemma exec_keeps_counted clk c db :
  Forall counted (workflows db) -> Forall counted (workflows (exec clk c db).2).
Proof.
  intros Hall.
  destruct c; cbn [exec]; unfold returning; cbn [snd];
    try (unfold createPatient, createClinicalNote, addAllergy,
           addChronicCondition, createTask, createAppointment, createReferral;
         exact Hall).
  - unfold updatePatient. destruct (findIndex _ _); exact Hall.
  - unfold deletePatient. destruct (findIndex _ _); exact Hall.
  - unfold updateClinicalNote. destruct (findIndex _ _); exact Hall.
  - unfold removeAllergy. destruct (findIndex _ _); exact Hall.
  - unfold incrementWorkflowUsage.
    destruct (findIndex _ _) as [index|] eqn:Hidx; [|exact Hall].
    destruct (findIndex_Some _ _ _ Hidx) as (w & Hw & _).
    cbn [snd logAudit workflows set_auditLog set_workflows].
    apply Forall_insert; [exact Hall|].
    rewrite (at_index_lookup _ _ _ Hw).
    rewrite Forall_forall in Hall.
    destruct (Hall w) as [n Hn]; [eapply list_elem_of_lookup_2; eassumption|].
    exists (n + 1)%Z. rewrite Hn. apply get_insert_eq.
  - unfold updateTask. destruct (findIndex _ _); [|exact Hall].
    destruct (strict_eq _ _); exact Hall.
Qed.

Lemma reachable_counted db : reachable db -> Forall counted (workflows db).
Proof.
  induction 1 as [|clk c db _ IH].
  - exact initial_workflows_counted.
  - apply exec_keeps_counted, IH.
Qed.

(** C4.  In every store the facade can reach: when no workflow carries
    the identifier, [incrementWorkflowUsage] resolves with [undefined]
    and returns the store as it was (no counter moves, nothing is
    audited); when a workflow carries it, the first such workflow has a
    numeric usage counter [n], the call resolves with that workflow at
    counter [n + 1], the stored workflow is replaced by it, every other
    record of the store is as before, and one UPDATE entry for the
    WorkflowTemplate is appended to the audit log. *)
Theorem incrementWorkflowUsage_tolerant
    (clk : clock) (id : prim) (db : database) :
  reachable db ->
  (absent id (workflows db) ->
     incrementWorkflowUsage clk id db = (Resolved None, db)) /\
  (forall w, find (has_id id) (workflows db) = Some w ->
     exists index n entry db',
       findIndex (has_id id) (workflows db) = Some index /\
       get w "usageCount" = VNum n /\
       incrementWorkflowUsage clk id db =
         (Resolved (Some (<["usageCount" := VNum (n + 1)]> w)), db') /\
       workflows db' =
         <[index := <["usageCount" := VNum (n + 1)]> w]> (workflows db) /\
       auditLog db' = auditLog db ++ [entry] /\
       get entry "entityType" = VStr "WorkflowTemplate" /\
       get entry "entityId" = VStr (String_of id) /\
       get entry "action" = VStr "UPDATE" /\
       patients db' = patients db /\ allergies db' = allergies db /\
       chronicConditions db' = chronicConditions db /\
       clinicalNotes db' = clinicalNotes db /\ tasks db' = tasks db /\
       appointments db' = appointments db /\ referrals db' = referrals db).
Proof.
  intros Hreach. split.
  - intros Habs. unfold incrementWorkflowUsage.
    rewrite (proj2 (findIndex_None _ _) Habs). reflexivity.
  - intros w Hfind. unfold incrementWorkflowUsage.
    destruct (findIndex (has_id id) (workflows db)) as [index|] eqn:Hidx.
    2:{ apply findIndex_None, find_None in Hidx. congruence. }
    destruct (findIndex_Some _ _ _ Hidx) as (w' & Hw & _ & Hfind' & _).
    assert (w' = w) as -> by congruence.
    pose proof (reachable_counted db Hreach) as Hall.
    rewrite Forall_forall in Hall.
    destruct (Hall w) as [n Hn]; [eapply list_elem_of_lookup_2; eassumption|].
    rewrite (at_index_lookup _ _ _ Hw), Hn.
    destruct (logAudit_appends (clk 0%nat) "WorkflowTemplate" id "UPDATE"
                (VStr "system")
                (set_workflows
                   (<[index := <["usageCount" := VNum (n + 1)]> w]>
                      (workflows db)) db))
      as (entry & Hlog & Hty & Hid & Hact & _).
    exists index, n, entry. eexists.
    split; [reflexivity|]. split; [reflexivity|].
    split; [reflexivity|].
    split; [reflexivity|].
    split; [exact Hlog|].
    repeat split; assumption.
Qed.

(** ** Creating and reading back a patient *)

Lemma find_app_absent {A : Type} (f : A -> bool) (l : list A) (x : A) :
  Forall (fun y => f y = false) l -> f x = true ->
  find f (l ++ [x]) = Some x /\
  length (List.filter f (l ++ [x])) = 1%nat.
Proof.
  intros Hall Hx. induction Hall as [|y l Hy _ IH]; simpl.
  - rewrite Hx. split; reflexivity.
  - rewrite Hy. exact IH.
Qed.

Lemma createPatient_record clk data db :
  exists r db',
    createPatient clk data db = (Resolved r, db') /\
    r = <["updatedAt" := VDate (clk 2%nat)]>
          (<["createdAt" := VDate (clk 1%nat)]>
            (<["status" := VStr "active"]>
              (data ∪ {[ "id" := VStr ("P" +:+ pretty (clk 0%nat)) ]}))) /\
    patients db' = patients db ++ [r].
Proof.
  eexists. eexists. split; [reflexivity|].
  split; [|reflexivity].
  unfold spread, object. simpl. rewrite insert_empty. reflexivity.
Qed.

(** C6, as the store implements it.  For creation input that carries
    none of the store-managed properties, and a store in which no
    patient carries the generated identifier [P<Date.now()>] yet: [createPatient]
    resolves with a record under that identifier, which afterwards
    exactly one patient carries; [getPatientById] on it resolves with
    that record; the record has every input property with its input
    value, status 'active', the two clock reads as [createdAt] and
    [updatedAt], and no property besides these and [id]. *)
Theorem createPatient_then_getPatientById
    (clk : clock) (data : obj) (db : database) :
  valid_patient_input data ->
  absent (generated_id clk) (patients db) ->
  exists r db' d,
    createPatient clk data db = (Resolved r, db') /\
    get r "id" = VPrim (generated_id clk) /\
    length (List.filter (has_id (generated_id clk)) (patients db')) = 1%nat /\
    getPatientById (generated_id clk) db' = Resolved d /\
    patient d = r /\
    (forall k v, data !! k = Some v -> patient d !! k = Some v) /\
    patient d !! "status" = Some (VStr "active") /\
    patient d !! "createdAt" = Some (VDate (clk 1%nat)) /\
    patient d !! "updatedAt" = Some (VDate (clk 2%nat)) /\
    dom (patient d) =
      dom data ∪ {[ "id"; "status"; "createdAt"; "updatedAt" ]}.
Proof.
  intros Hvalid Habs. set (id := generated_id clk) in *.
  assert (Hmanaged : forall k, k ∈ managed_fields -> data !! k = None).
  { apply Forall_forall. exact Hvalid. }
  assert (Hid : data !! "id" = None)
    by (apply Hmanaged, list_elem_of_In; simpl; tauto).
  assert (Hst : data !! "status" = None)
    by (apply Hmanaged, list_elem_of_In; simpl; tauto).
  assert (Hcr : data !! "createdAt" = None)
    by (apply Hmanaged, list_elem_of_In; simpl; tauto).
  assert (Hup : data !! "updatedAt" = None)
    by (apply Hmanaged, list_elem_of_In; simpl; tauto).
  destruct (createPatient_record clk data db) as (r & db' & Hrun & Hr & Hpat).
  assert (Hrid : get r "id" = VPrim id).
  { rewrite Hr. rewrite !get_insert_ne by discriminate.
    unfold get. rewrite lookup_union, Hid, lookup_singleton_eq. reflexivity. }
  assert (Hmatch : has_id id r = true).
  { unfold has_id. rewrite Hrid. apply strict_eq_refl. discriminate. }
  destruct (find_app_absent (has_id id) (patients db) r Habs Hmatch)
    as [Hfind Hone].
  exists r, db'. eexists.
  split; [exact Hrun|]. split; [exact Hrid|].
  rewrite Hpat. split; [exact Hone|].
  unfold getPatientById. rewrite Hpat, Hfind.
  split; [reflexivity|]. cbn [patient]. split; [reflexivity|].
  split; [|split; [|split; [|split]]].
  - intros k v Hk. rewrite Hr.
    rewrite !lookup_insert_ne by (intros <-; congruence).
    apply lookup_union_Some_l, Hk.
  - rewrite Hr. rewrite lookup_insert_ne by discriminate.
    rewrite lookup_insert_ne by discriminate. apply lookup_insert_eq.
  - rewrite Hr. rewrite lookup_insert_ne by discriminate.
    apply lookup_insert_eq.
  - rewrite Hr. apply lookup_insert_eq.
  - rewrite Hr. rewrite !dom_insert_L, dom_union_L, dom_singleton_L.
    apply set_eq. intros x.
    rewrite !elem_of_union, !elem_of_singleton. tauto.
Qed.

(** ** Which writes win in a create *)

(** C9.  A create builds its record by writing the generated [id],
    then the caller's properties, then the store's own.  So an [id] in
    the data of [createPatient] or [createClinicalNote] is the [id] of
    the stored and returned record; whereas whatever the data says,
    [createPatient] stores status 'active' and the clock reads of the
    call as [createdAt] and [updatedAt], and [addAllergy] and
    [addChronicCondition] store status 'active'. *)
Theorem create_field_precedence (clk : clock) (data : obj) (db : database) :
  (forall v, data !! "id" = Some v ->
     (exists r db',
        createPatient clk data db = (Resolved r, db') /\
        patients db' = patients db ++ [r] /\ r !! "id" = Some v) /\
     (exists r db',
        createClinicalNote clk data db = (Resolved r, db') /\
        clinicalNotes db' = clinicalNotes db ++ [r] /\ r !! "id" = Some v)) /\
  (exists r db',
     createPatient clk data db = (Resolved r, db') /\
     patients db' = patients db ++ [r] /\
     r !! "status" = Some (VStr "active") /\
     r !! "createdAt" = Some (VDate (clk 1%nat)) /\
     r !! "updatedAt" = Some (VDate (clk 2%nat))) /\
  (exists r db',
     addAllergy clk data db = (Resolved r, db') /\
     allergies db' = allergies db ++ [r] /\
     r !! "status" = Some (VStr "active")) /\
  (exists r db',
     addChronicCondition clk data db = (Resolved r, db') /\
     chronicConditions db' = chronicConditions db ++ [r] /\
     r !! "status" = Some (VStr "active")).
Proof.
  split; [intros v Hv; split|split; [|split]];
    (eexists; eexists; split; [reflexivity|]; split; [reflexivity|]).
  - rewrite !lookup_insert_ne by discriminate.
    apply lookup_union_Some_l, Hv.
  - rewrite !lookup_insert_ne by discriminate.
    apply lookup_union_Some_l, Hv.
  - repeat split;
      rewrite ?lookup_insert_ne by discriminate; apply lookup_insert_eq.
  - apply lookup_insert_eq.
  - apply lookup_insert_eq.
Qed.

(** ** Task status *)

(** C8.  A task created from data with no [status] is stored with
    status 'pending'.  For a stored task and its identifier,
    [updateTask] with updates whose status is 'completed' (in
    particular [{status: 'completed'}]) resolves with a record, put in
    the place of the first task under that identifier, whose status is
    'completed' and whose [completedAt] is the clock read made for that
    stamp; updates with another status, or none, stamp nothing. *)
Theorem task_pending_then_completed
    (clk : clock) (db : database) :
  (forall data, data !! "status" = None ->
     exists t db',
       createTask clk data db = (Resolved t, db') /\
       tasks db' = tasks db ++ [t] /\
       get t "status" = VStr "pending") /\
  (forall id t updates,
     t ∈ tasks db -> has_id id t = true ->
     exists index old,
       findIndex (has_id id) (tasks db) = Some index /\
       tasks db !! index = Some old /\
       (updates !! "status" = Some (VStr "completed") ->
        exists r db',
          updateTask clk id updates db = (Resolved r, db') /\
          tasks db' = <[index := r]> (tasks db) /\
          get r "status" = VStr "completed" /\
          get r "completedAt" = VDate (clk 0%nat)) /\
       (strict_eq (get updates "status") (PStr "completed") = false ->
        exists r db',
          updateTask clk id updates db = (Resolved r, db') /\
          tasks db' = <[index := r]> (tasks db) /\
          r = spread old updates)).
Proof.
  split.
  - intros data Hst. eexists. eexists.
    split; [reflexivity|]. split; [reflexivity|].
    rewrite get_insert_ne by discriminate. rewrite get_insert_eq.
    unfold get. rewrite Hst. reflexivity.
  - intros id t updates Hin Hid.
    destruct (find_is_Some _ _ _ Hin Hid) as [old Hfind].
    destruct (findIndex (has_id id) (tasks db)) as [index|] eqn:Hidx.
    2:{ apply findIndex_None, find_None in Hidx. congruence. }
    destruct (findIndex_Some _ _ _ Hidx) as (old' & Hold & _).
    exists index, old'. split; [reflexivity|]. split; [exact Hold|].
    unfold updateTask. rewrite Hidx, (at_index_lookup _ _ _ Hold). split.
    + intros Hst.
      assert (Hget : get updates "status" = VStr "completed")
        by (unfold get; rewrite Hst; reflexivity).
      rewrite Hget. cbn [strict_eq strict_eq_prim].
      rewrite bool_decide_eq_true_2 by reflexivity.
      eexists. eexists. split; [reflexivity|]. split; [reflexivity|].
      split.
      * rewrite get_insert_ne by discriminate.
        unfold get. rewrite lookup_spread, Hst. reflexivity.
      * apply get_insert_eq.
    + intros Hst. rewrite Hst.
      eexists. eexists. split; [reflexivity|]. split; reflexivity.
Qed.

(** ** Updates are shallow merges *)

Lemma same_except_trans (f : string) (a b c : obj) :
  same_except f a b -> same_except f b c -> same_except f a c.
Proof. intros Hab Hbc g Hg. rewrite (Hab g Hg). apply Hbc, Hg. Qed.

Lemma stamp_same_except k clk u m :
  same_except (stamp_field k) (stamp k clk u m) m.
Proof.
  intros g Hg. destruct k; cbn [stamp stamp_field] in *.
  - apply lookup_insert_ne. congruence.
  - apply lookup_insert_ne. congruence.
  - destruct (strict_eq _ _); [|reflexivity].
    apply lookup_insert_ne. congruence.
Qed.

Lemma spread_same_except (f : string) (a b u : obj) :
  same_except f a b -> same_except f (spread a u) (spread b u).
Proof.
  intros Hab g Hg. rewrite !lookup_spread, (Hab g Hg). reflexivity.
Qed.

Lemma create_total k clk data db :
  exists r db',
    create k clk data db = (Resolved r, db') /\
    records k db' = records k db ++ [r].
Proof. destruct k; eexists; eexists; split; reflexivity. Qed.

(** An update that finds its record at position [n]: the record there
    becomes the stamped shallow merge, one audit entry is appended,
    nothing else moves. *)
Lemma update_at k clk i u db n old :
  findIndex (has_id i) (records k db) = Some n ->
  records k db !! n = Some old ->
  exists entry,
    update k clk i u db =
      (Resolved (stamp k clk u (spread old u)),
       set_auditLog (auditLog db ++ [entry])
         (with_records k
            (<[n := stamp k clk u (spread old u)]> (records k db)) db)).
Proof.
  intros Hidx Hold.
  destruct k; cbn [update records with_records stamp] in *.
  - unfold updatePatient. rewrite Hidx, (at_index_lookup _ _ _ Hold).
    eexists. reflexivity.
  - unfold updateClinicalNote. rewrite Hidx, (at_index_lookup _ _ _ Hold).
    eexists. reflexivity.
  - unfold updateTask. rewrite Hidx, (at_index_lookup _ _ _ Hold).
    destruct (strict_eq _ _); eexists; reflexivity.
Qed.

Lemma records_with_records k l entries db :
  records k (set_auditLog entries (with_records k l db)) = l.
Proof. destruct k; reflexivity. Qed.

Lemma entity_sequences_with_records k l entries db :
  entity_sequences (set_auditLog entries (with_records k l db)) =
    <[sequence_index k := l]> (entity_sequences db).
Proof. destruct k; reflexivity. Qed.

(** C7, as the code has it.  For each entity kind with an update
    (Patient, ClinicalNote, Task):

    (1) a create resolves and appends the record it resolves with; when
    the first update then finds its identifier first at that record, it
    resolves, and when the second update does so too, it resolves as
    well: each resolves with the spread of the stored record and its
    updates, stamped, and puts it in the place of the stored record.
    The record stored at the position at the end is the one the second
    update resolved with, a search by an identifier that is first found
    there returns it, and on every property but the stamped one
    (updatedAt for patients and notes, completedAt for tasks) it is the
    shallow merge of the created record, the first updates and the
    second updates, in that order.

    (2) an update that finds its identifier resolves and replaces the
    record it found; when the same update is applied once more and
    finds the identifier at the same record, it resolves with a record
    that differs from the first result in the stamped property at most,
    and the entity sequences after the second application are those
    after the first with that one record replaced. *)
Theorem updates_merge_in_order_and_idempotently (k : updatable) :
  (forall clk0 clk1 clk2 data i1 u1 i2 u2 db0,
     exists r db1,
       create k clk0 data db0 = (Resolved r, db1) /\
       records k db1 = records k db0 ++ [r] /\
       (findIndex (has_id i1) (records k db1) =
          Some (length (records k db0)) ->
        exists r1 db2,
          update k clk1 i1 u1 db1 = (Resolved r1, db2) /\
          r1 = stamp k clk1 u1 (spread r u1) /\
          records k db2 = <[length (records k db0) := r1]> (records k db1) /\
          (findIndex (has_id i2) (records k db2) =
             Some (length (records k db0)) ->
           exists r2 db3,
             update k clk2 i2 u2 db2 = (Resolved r2, db3) /\
             r2 = stamp k clk2 u2 (spread r1 u2) /\
             records k db3 =
               <[length (records k db0) := r2]> (records k db2) /\
             records k db3 !! length (records k db0) = Some r2 /\
             (forall i3,
                findIndex (has_id i3) (records k db3) =
                  Some (length (records k db0)) ->
                find (has_id i3) (records k db3) = Some r2) /\
             same_except (stamp_field k) r2 (spread (spread r u1) u2)))) /\
  (forall clk1 clk2 i u db n,
     findIndex (has_id i) (records k db) = Some n ->
     exists r1 db1,
       update k clk1 i u db = (Resolved r1, db1) /\
       records k db1 = <[n := r1]> (records k db) /\
       (findIndex (has_id i) (records k db1) = Some n ->
        exists r2 db2,
          update k clk2 i u db1 = (Resolved r2, db2) /\
          same_except (stamp_field k) r2 r1 /\
          entity_sequences db2 =
            <[sequence_index k := <[n := r2]> (records k db1)]>
              (entity_sequences db1))).
Proof.
  split.
  - intros clk0 clk1 clk2 data i1 u1 i2 u2 db0.
    destruct (create_total k clk0 data db0) as (r & db1 & Hcreate & Hrec1).
    exists r, db1. split; [exact Hcreate|]. split; [exact Hrec1|].
    set (n := length (records k db0)) in *.
    assert (Hr : records k db1 !! n = Some r).
    { rewrite Hrec1. apply list_lookup_middle. reflexivity. }
    intros Hidx1.
    destruct (update_at k clk1 i1 u1 db1 n r Hidx1 Hr) as (e1 & Hrun1).
    set (r1 := stamp k clk1 u1 (spread r u1)) in *.
    exists r1, (set_auditLog (auditLog db1 ++ [e1])
                  (with_records k (<[n := r1]> (records k db1)) db1)).
    split; [exact Hrun1|]. split; [reflexivity|].
    rewrite records_with_records. split; [reflexivity|]. intros Hidx2.
    assert (Hr1 : <[n := r1]> (records k db1) !! n = Some r1).
    { apply list_lookup_insert_eq. eapply lookup_lt_Some, Hr. }
    pose proof (update_at k clk2 i2 u2
                  (set_auditLog (auditLog db1 ++ [e1])
                     (with_records k (<[n := r1]> (records k db1)) db1))
                  n r1) as Hsecond.
    rewrite records_with_records in Hsecond.
    destruct (Hsecond Hidx2 Hr1) as (e2 & Hrun2).
    set (r2 := stamp k clk2 u2 (spread r1 u2)) in *.
    eexists r2, (set_auditLog _ (with_records k _ _)).
    split; [exact Hrun2|]. split; [reflexivity|].
    rewrite records_with_records. split; [reflexivity|].
    assert (Hr2 : <[n := r2]> (<[n := r1]> (records k db1)) !! n = Some r2).
    { apply list_lookup_insert_eq. rewrite length_insert.
      eapply lookup_lt_Some, Hr. }
    split; [exact Hr2|]. split.
    + intros i3 Hidx3. rewrite find_findIndex, Hidx3. exact Hr2.
    + eapply same_except_trans; [apply stamp_same_except|].
      apply spread_same_except, stamp_same_except.
  - intros clk1 clk2 i u db n Hidx1.
    destruct (findIndex_Some _ _ _ Hidx1) as (old & Hold & _).
    destruct (update_at k clk1 i u db n old Hidx1 Hold) as (e1 & Hrun1).
    set (r1 := stamp k clk1 u (spread old u)) in *.
    exists r1, (set_auditLog (auditLog db ++ [e1])
                  (with_records k (<[n := r1]> (records k db)) db)).
    split; [exact Hrun1|].
    rewrite records_with_records.
    assert (Hr1 : <[n := r1]> (records k db) !! n = Some r1).
    { apply list_lookup_insert_eq. eapply lookup_lt_Some, Hold. }
    split; [reflexivity|]. intros Hidx2.
    pose proof (update_at k clk2 i u
                  (set_auditLog (auditLog db ++ [e1])
                     (with_records k (<[n := r1]> (records k db)) db))
                  n r1) as Hsecond.
    rewrite records_with_records in Hsecond.
    destruct (Hsecond Hidx2 Hr1) as (e2 & Hrun2).
    set (r2 := stamp k clk2 u (spread r1 u)) in *.
    eexists r2, (set_auditLog _ (with_records k _ _)).
    split; [exact Hrun2|]. split.
    + eapply same_except_trans; [apply stamp_same_except|].
      intros g Hg. unfold r1.
      rewrite lookup_spread, (stamp_same_except k clk1 u _ g Hg),
        lookup_spread.
      destruct (u !! g); reflexivity.
    + rewrite !entity_sequences_with_records. reflexivity.
Qed.

(** ** Search *)

Lemma append_cons (c : Ascii.ascii) (a b : string) :
  String c a +:+ b = String c (a +:+ b).
Proof. reflexivity. Qed.

Lemma starts_with_spec (q s : string) :
  starts_with q s = true <-> exists b, s = q +:+ b.
Proof.
  revert s. induction q as [|a q IH]; intros s; simpl.
  - split; [intros _; exists s; reflexivity | reflexivity].
  - destruct s as [|c s].
    + split; [discriminate | intros [b Hb]; discriminate].
    + destruct (decide (a = c)) as [->|Hne].
      * rewrite IH. split; intros [b Hb]; exists b;
          rewrite append_cons in *; congruence.
      * split; [discriminate|].
        intros [b Hb]. rewrite append_cons in Hb. congruence.
Qed.

Lemma includes_spec (s q : string) :
  includes s q = true <-> substring q s.
Proof.
  unfold substring. induction s as [|c s IH].
  - simpl. rewrite orb_false_r, starts_with_spec. split.
    + intros [b Hb]. exists "", b. exact Hb.
    + intros (a & b & Hab). destruct a; [exists b; exact Hab|discriminate].
  - cbn [includes]. rewrite orb_true_iff, starts_with_spec, IH. split.
    + intros [[b Hb] | (a & b & Hab)].
      * exists "", b. exact Hb.
      * exists (String c a), b. rewrite append_cons. congruence.
    + intros (a & b & Hab). destruct a as [|c' a].
      * left. exists b. exact Hab.
      * right. exists a, b. rewrite append_cons in Hab. congruence.
Qed.

Lemma matches_any_strings (query : string) (p : obj) (fields : list string) :
  Forall (fun k => exists s, get p k = VStr s) fields ->
  exists b,
    matches_any (toLowerCase query) p fields = Some b /\
    (b = true <-> exists k, k ∈ fields /\ field_contains query p k).
Proof.
  induction 1 as [|k fields [s Hs] _ (b & Hb & Hiff)]; simpl.
  - exists false. split; [reflexivity|].
    split; [discriminate | intros (k & Hk & _); inversion Hk].
  - unfold lower_field. rewrite Hs.
    destruct (includes (toLowerCase s) (toLowerCase query)) eqn:Hinc.
    + exists true. split; [reflexivity|]. split; [|reflexivity].
      intros _. exists k. split; [left|].
      exists s. split; [exact Hs|]. apply includes_spec, Hinc.
    + exists b. split; [exact Hb|]. rewrite Hiff.
      split; intros (k' & Hk' & Hc).
      * exists k'. split; [right|]; assumption.
      * apply elem_of_cons in Hk' as [->|Hk']; [|exists k'; split; assumption].
        destruct Hc as (s' & Hs' & Hsub).
        assert (s' = s) as -> by congruence.
        apply includes_spec in Hsub. congruence.
Qed.

Lemma filter_throwing_total {A : Type} (f : A -> option bool)
    (keep : A -> bool) (l : list A) :
  Forall (fun x => f x = Some (keep x)) l ->
  filter_throwing f l = Some (List.filter keep l).
Proof.
  induction 1 as [|x l Hx _ IH]; simpl; [reflexivity|].
  rewrite Hx, IH. reflexivity.
Qed.

Lemma filter_throwing_throws {A : Type} (f : A -> option bool)
    (l : list A) (x : A) :
  x ∈ l -> f x = None -> filter_throwing f l = None.
Proof.
  intros Hin Hx. induction l as [|y l IH]; [inversion Hin|].
  simpl. apply elem_of_cons in Hin as [<-|Hin].
  - rewrite Hx. reflexivity.
  - rewrite (IH Hin). destruct (f y); reflexivity.
Qed.

Lemma blank_patient_created :
  exists p,
    patients blank_patient_store = initial_patients ++ [p] /\
    p !! "email" = None /\
    get p "firstName" = VUndefined.
Proof. eexists. split; [reflexivity|]. split; reflexivity. Qed.

(** C10.  (1) In a store where every patient holds strings in
    [firstName], [lastName], [id] and [email], [searchPatients] resolves
    with the patients, in store order, of which one of these four
    properties contains the query, case ignored.  (2) Nothing in
    [createPatient] makes the premise hold: there is a reachable store,
    holding a patient created without email, on which every
    [searchPatients] call throws.  (3) In any store a call throws as
    soon as some patient has no string email while its three other
    searched properties are strings that do not contain the query. *)
Theorem searchPatients_needs_string_fields :
  (forall query db,
     searchable db ->
     exists keep,
       searchPatients query db = Resolved (List.filter keep (patients db)) /\
       forall p, p ∈ patients db ->
         (keep p = true <->
          exists k, k ∈ search_fields /\ field_contains query p k)) /\
  (exists db,
     reachable db /\
     (exists p, p ∈ patients db /\ p !! "email" = None) /\
     forall query, searchPatients query db = Threw "TypeError") /\
  (forall query db p,
     p ∈ patients db ->
     (forall k, k ∈ [ "firstName"; "lastName"; "id" ] ->
        exists s, get p k = VStr s /\
                  includes (toLowerCase s) (toLowerCase query) = false) ->
     (forall s, get p "email" <> VStr s) ->
     searchPatients query db = Threw "TypeError").
Proof.
  split; [|split].
  - intros query db Hall.
    set (f := fun p => matches_any (toLowerCase query) p search_fields).
    exists (fun p => match f p with Some true => true | _ => false end).
    split.
    + unfold searchPatients. fold f.
      rewrite (filter_throwing_total f
                 (fun p => match f p with Some true => true | _ => false end)).
      * reflexivity.
      * eapply Forall_impl; [exact Hall|]. intros p Hp. cbn beta in Hp.
        destruct (matches_any_strings query p search_fields Hp) as (b & Hb & _).
        unfold f. rewrite Hb. destruct b; reflexivity.
    + intros p Hin. unfold searchable in Hall. rewrite Forall_forall in Hall.
      destruct (matches_any_strings query p search_fields (Hall p Hin))
        as (b & Hb & Hiff).
      unfold f. rewrite Hb, <- Hiff. destruct b; split; congruence.
  - destruct blank_patient_created as (p & Hpat & Hemail & Hname).
    assert (Hin : p ∈ patients blank_patient_store).
    { rewrite Hpat. apply elem_of_app. right. left. }
    exists blank_patient_store. split; [|split].
    + apply reachable_step, reachable_initial.
    + exists p. split; assumption.
    + intros query. unfold searchPatients.
      erewrite filter_throwing_throws; [reflexivity|exact Hin|].
      unfold search_fields. cbn [matches_any]. unfold lower_field.
      rewrite Hname. reflexivity.
  - intros query db p Hin Hstr Hemail. unfold searchPatients.
    erewrite filter_throwing_throws; [reflexivity|exact Hin|].
    unfold search_fields. cbn [matches_any]. unfold lower_field.
    destruct (Hstr "firstName") as (s1 & -> & ->);
      [apply list_elem_of_In; simpl; tauto|].
    destruct (Hstr "lastName") as (s2 & -> & ->);
      [apply list_elem_of_In; simpl; tauto|].
    destruct (Hstr "id") as (s3 & -> & ->);
      [apply list_elem_of_In; simpl; tauto|].
    destruct (get p "email") as [[| | | | |s]|]; try reflexivity.
    destruct (Hemail s). reflexivity.
Qed.

(** ** Sessions *)

Lemma reachable_run cs db : reachable db -> reachable (run cs db).
Proof.
  revert db. induction cs as [|[clk c] cs IH]; intros db Hdb; simpl.
  - exact Hdb.
  - apply IH, reachable_step, Hdb.
Qed.

(** ** Results as projections *)

Lemma create_resolves k clk data db :
  create k clk data db =
    (Resolved (resolved_with (create k clk data db).1),
     (create k clk data db).2).
Proof. destruct k; reflexivity. Qed.

Lemma update_resolves k clk i u db n :
  findIndex (has_id i) (records k db) = Some n ->
  update k clk i u db =
    (Resolved (resolved_with (update k clk i u db).1),
     (update k clk i u db).2).
Proof.
  intros Hidx. destruct (findIndex_Some _ _ _ Hidx) as (old & Hold & _).
  destruct (update_at k clk i u db n old Hidx Hold) as (e & ->).
  reflexivity.
Qed.

End Properties.

Section FurtherProperties.

Context `{host : Host} `{dates : DateHost}.

(** ** Dependent records *)

Lemma filter_app_one {A : Type} (f : A -> bool) (l : list A) (x : A) :
  List.filter f (l ++ [x]) = List.filter f l ++ (if f x then [x] else []).
Proof. rewrite List.filter_app. simpl. destruct (f x); reflexivity. Qed.

(** What any of the six dependent creates does: it resolves with a new
    record that keeps the caller's patient reference and is appended to
    its own sequence; no other entity sequence changes. *)
Lemma create_dependent_effect d clk data db :
  exists r db',
    create_dependent d clk data db = (Resolved r, db') /\
    get r "patientId" = get data "patientId" /\
    dependent_records d db' = dependent_records d db ++ [r] /\
    patients db' = patients db /\
    workflows db' = workflows db /\
    forall d', d' <> d -> dependent_records d' db' = dependent_records d' db.
Proof.
  destruct d; (eexists; eexists; split; [reflexivity|]);
    (split; [|split; [reflexivity|split; [reflexivity|split; [reflexivity|]]]]).
  all: try (intros d' Hd'; destruct d'; try reflexivity; congruence).
  all: rewrite ?get_insert_ne by discriminate;
    unfold get; rewrite lookup_spread;
    destruct (data !! "patientId"); reflexivity.
Qed.

(** A dependent create seen through the by-patient query. *)
Lemma create_dependent_query
    (d : dependent) (clk : clock) (data : obj) (db : database) (P : prim) :
  strict_eq (get data "patientId") P = true ->
  exists r db' before,
    create_dependent d clk data db = (Resolved r, db') /\
    by_patient d P db = Resolved before /\
    by_patient d P db' = Resolved (before ++ [r]) /\
    (forall Q, strict_eq (get data "patientId") Q = false ->
               by_patient d Q db' = by_patient d Q db) /\
    patients db' = patients db /\
    workflows db' = workflows db /\
    (forall d', d' <> d -> dependent_records d' db' = dependent_records d' db).
Proof.
  intros HP.
  destruct (create_dependent_effect d clk data db)
    as (r & db' & Hrun & Hpid & Hrec & Hpat & Hwf & Hother).
  assert (Hquery : forall Q db0,
            by_patient d Q db0 =
            Resolved (List.filter (of_patient Q) (dependent_records d db0)))
    by (intros Q db0; destruct d; reflexivity).
  exists r, db', (List.filter (of_patient P) (dependent_records d db)).
  split; [exact Hrun|]. split; [apply Hquery|].
  split; [|split; [|split; [exact Hpat|split; [exact Hwf|exact Hother]]]].
  - rewrite Hquery, Hrec, filter_app_one. unfold of_patient at 2.
    rewrite Hpid, HP. reflexivity.
  - intros Q HQ. rewrite !Hquery, Hrec, filter_app_one.
    unfold of_patient at 2. rewrite Hpid, HQ. rewrite app_nil_r. reflexivity.
Qed.

(** X1.  Creating a dependent record of any of the six kinds for patient
    [P] (the data's [patientId] is identical to [P]) and then querying
    that kind by patient gives the previous answer with the new record
    added at the end; the answer for any identifier the data's
    [patientId] is not identical to is unchanged, as are the patients,
    the workflows and the five other dependent sequences. *)
Theorem create_then_query_by_patient
    (d : dependent) (clk : clock) (data : obj) (db : database) (P : prim) :
  strict_eq (get data "patientId") P = true ->
  exists r db' before,
    create_dependent d clk data db = (Resolved r, db') /\
    by_patient d P db = Resolved before /\
    by_patient d P db' = Resolved (before ++ [r]) /\
    (forall Q, strict_eq (get data "patientId") Q = false ->
               by_patient d Q db' = by_patient d Q db) /\
    patients db' = patients db /\
    workflows db' = workflows db /\
    (forall d', d' <> d -> dependent_records d' db' = dependent_records d' db).
Proof. exact (create_dependent_query d clk data db P). Qed.

(** X2.  The dependent creates do not look the patient up: when no
    patient carries [P], creating a record for [P] still resolves, the
    record is listed by the by-patient query for [P], and
    [getPatientById(P)] is rejected before and after. *)
Theorem create_dependent_without_patient
    (d : dependent) (clk : clock) (data : obj) (db : database) (P : prim) :
  absent P (patients db) ->
  strict_eq (get data "patientId") P = true ->
  exists r db' before,
    create_dependent d clk data db = (Resolved r, db') /\
    getPatientById P db = Rejected "Patient not found" /\
    getPatientById P db' = Rejected "Patient not found" /\
    by_patient d P db = Resolved before /\
    by_patient d P db' = Resolved (before ++ [r]).
Proof.
  intros Habs HP.
  destruct (create_dependent_query d clk data db P HP)
    as (r & db' & before & Hrun & Hq & Hq' & _ & Hpat & _).
  exists r, db', before.
  split; [exact Hrun|].
  assert (Hrej : forall db0, patients db0 = patients db ->
                   getPatientById P db0 = Rejected "Patient not found").
  { intros db0 Heq. unfold getPatientById. rewrite Heq.
    rewrite (proj2 (find_None _ _) Habs). reflexivity. }
  split; [apply Hrej; reflexivity|]. split; [apply Hrej, Hpat|].
  split; assumption.
Qed.

(** X3.  For the four creates that default the status (clinical note
    'draft', task 'pending', appointment 'scheduled', referral
    'pending'): the default is stored whenever the data's status is
    missing or falsy (so also for [''], [0], [null], [false]), and a
    truthy status of the data is stored as given. *)
Theorem create_status_default
    (d : dependent) (s : string) (clk : clock) (data : obj) (db : database) :
  default_status d = Some s ->
  exists r db',
    create_dependent d clk data db = (Resolved r, db') /\
    (truthy (get data "status") = false -> get r "status" = VStr s) /\
    (truthy (get data "status") = true ->
     get r "status" = get data "status").
Proof.
  intros Hd.
  destruct d; simpl in Hd; try discriminate; injection Hd as <-;
    (eexists; eexists; split; [reflexivity|]);
    rewrite ?get_insert_ne by discriminate; rewrite get_insert_eq;
    unfold js_or; split; intros ->; reflexivity.
Qed.

(** ** Adding and removing an allergy *)

Lemma findIndex_app_one {A : Type} (f : A -> bool) (l : list A) (x : A) :
  findIndex f (l ++ [x]) =
  match findIndex f l with
  | Some i => Some i
  | None => if f x then Some (length l) else None
  end.
Proof.
  induction l as [|y l IH]; simpl.
  - destruct (f x); reflexivity.
  - destruct (f y); [reflexivity|]. rewrite IH.
    destruct (findIndex f l); [reflexivity|]. destruct (f x); reflexivity.
Qed.

Lemma delete_app_one {A : Type} (l : list A) (x : A) (i : nat) :
  delete i (l ++ [x]) =
  if decide (i < length l)%nat then delete i l ++ [x]
  else if decide (i = length l) then l else l ++ [x].
Proof.
  revert i. induction l as [|y l IH]; intros [|i]; cbn [app length].
  - reflexivity.
  - repeat case_decide; try lia. reflexivity.
  - case_decide; [reflexivity|lia].
  - change (delete (S i) (y :: l ++ [x])) with (y :: delete i (l ++ [x])).
    rewrite IH. repeat case_decide; try reflexivity; lia.
Qed.

(** X4.  [addAllergy] resolves with the record it appends; take the
    identifier [i] of that record, a primitive value, and call
    [removeAllergy] with it.  When an older allergy carries [i]
    (identifiers come from the length of the sequence), the removal
    resolves but takes out the first, older allergy under [i], and the
    new record stays.  When none does and [i] is not NaN, the removal
    resolves and the allergy sequence is back to what it was.  When [i]
    is NaN (the data carried it), no record is found under it: the
    removal is rejected, the store stays as the addition left it. *)
Theorem addAllergy_then_removeAllergy
    (clk clk' : clock) (data : obj) (db : database) :
  exists r db1,
    addAllergy clk data db = (Resolved r, db1) /\
    allergies db1 = allergies db ++ [r] /\
    forall i : prim,
      get r "id" = VPrim i ->
      (forall index,
         findIndex (has_id i) (allergies db) = Some index ->
         exists db2,
           removeAllergy clk' i db1 = (Resolved success, db2) /\
           allergies db2 = delete index (allergies db) ++ [r]) /\
      (absent i (allergies db) ->
       i <> PNaN ->
       exists db2,
         removeAllergy clk' i db1 = (Resolved success, db2) /\
         allergies db2 = allergies db) /\
      (i = PNaN ->
       removeAllergy clk' i db1 = (Rejected "Allergy not found", db1)).
Proof.
  eexists. eexists. split; [reflexivity|]. split; [reflexivity|].
  cbn [logAudit set_auditLog set_allergies allergies].
  set (r := <["status" := VStr "active"]> _).
  intros i Hid. split; [|split].
  - intros index Hidx. unfold removeAllergy.
    cbn [logAudit set_auditLog set_allergies allergies].
    rewrite findIndex_app_one, Hidx.
    eexists. split; [reflexivity|].
    cbn [logAudit set_auditLog set_allergies allergies].
    rewrite delete_app_one.
    destruct (findIndex_Some _ _ _ Hidx) as (x & Hx & _).
    apply lookup_lt_Some in Hx. case_decide; [reflexivity|lia].
  - intros Habs Hnan.
    assert (Hr : has_id i r = true)
      by (unfold has_id; rewrite Hid; apply strict_eq_refl, Hnan).
    unfold removeAllergy.
    cbn [logAudit set_auditLog set_allergies allergies].
    rewrite findIndex_app_one, (proj2 (findIndex_None _ _) Habs), Hr.
    eexists. split; [reflexivity|].
    cbn [logAudit set_auditLog set_allergies allergies].
    rewrite delete_app_one.
    case_decide; [lia|]. case_decide; [reflexivity|congruence].
  - intros ->.
    assert (Hnone : findIndex (has_id PNaN) (allergies db ++ [r]) = None).
    { apply findIndex_None, Forall_forall. intros x _.
      unfold has_id. destruct (get x "id") as [[]|]; reflexivity. }
    unfold removeAllergy.
    cbn [logAudit set_auditLog set_allergies allergies].
    rewrite Hnone. reflexivity.
Qed.

(** ** The audit log over a session *)

Lemma logAudit_entry now ty id act user db0 db :
  auditLog db = auditLog db0 ->
  exists entry,
    auditLog (logAudit now ty id act user db) = auditLog db0 ++ [entry] /\
    get entry "id" = next_id (auditLog db0) /\
    get entry "entityType" = VStr ty /\
    get entry "entityId" = VStr (String_of id) /\
    get entry "action" = VStr act /\
    get entry "timestamp" = VDate now.
Proof.
  intros <-. eexists. split; [reflexivity|].
  unfold object; simpl.
  repeat split;
    repeat (first [ rewrite get_insert_eq; reflexivity
                  | rewrite get_insert_ne by discriminate ]).
Qed.

(** One call: either it did not resolve with an object and the log is
    as it was, or it did and the log has one more entry, written by
    [logAudit] for that call. *)
Lemma exec_audit clk c db :
  (resolved_object (exec clk c db).1 = false /\
   auditLog (exec clk c db).2 = auditLog db) \/
  (resolved_object (exec clk c db).1 = true /\
   exists entry now idv,
     auditLog (exec clk c db).2 = auditLog db ++ [entry] /\
     get entry "id" = next_id (auditLog db) /\
     get entry "entityType" = VStr (entity_of c) /\
     get entry "entityId" = VStr (String_of idv) /\
     get entry "action" = VStr (action_of c) /\
     get entry "timestamp" = VDate now).
Proof.
  destruct c; cbn [exec entity_of action_of]; unfold returning;
    try (right; split; [reflexivity|];
         unfold createPatient, createClinicalNote, addAllergy,
           addChronicCondition, createTask, createAppointment, createReferral;
         cbn [fst snd];
         edestruct logAudit_entry as (entry & Hlog); [|do 3 eexists; exact Hlog];
         reflexivity).
  - unfold updatePatient. destruct (findIndex _ _); cbn [fst snd].
    + right. split; [reflexivity|].
      edestruct logAudit_entry as (entry & Hlog); [|do 3 eexists; exact Hlog].
      reflexivity.
    + left. split; reflexivity.
  - unfold deletePatient. destruct (findIndex _ _); cbn [fst snd].
    + right. split; [reflexivity|].
      edestruct logAudit_entry as (entry & Hlog); [|do 3 eexists; exact Hlog].
      reflexivity.
    + left. split; reflexivity.
  - unfold updateClinicalNote. destruct (findIndex _ _); cbn [fst snd].
    + right. split; [reflexivity|].
      edestruct logAudit_entry as (entry & Hlog); [|do 3 eexists; exact Hlog].
      reflexivity.
    + left. split; reflexivity.
  - unfold removeAllergy. destruct (findIndex _ _); cbn [fst snd].
    + right. split; [reflexivity|].
      edestruct logAudit_entry as (entry & Hlog); [|do 3 eexists; exact Hlog].
      reflexivity.
    + left. split; reflexivity.
  - unfold incrementWorkflowUsage. destruct (findIndex _ _); cbn [fst snd].
    + right. split; [reflexivity|].
      edestruct logAudit_entry as (entry & Hlog); [|do 3 eexists; exact Hlog].
      reflexivity.
    + left. split; reflexivity.
  - unfold updateTask. destruct (findIndex _ _); cbn [fst snd].
    + right. destruct (strict_eq _ _); cbn [fst snd];
        (split; [reflexivity|]);
        (edestruct logAudit_entry as (entry & Hlog);
           [|do 3 eexists; exact Hlog]); reflexivity.
    + left. split; reflexivity.
Qed.

(** X5.  Over any session of facade calls the audit log only grows at
    its end: the log afterwards is the log before followed by exactly
    one entry for each call that resolved with an object.  Rejected
    calls and usage increments that found nothing add no entry, and no
    call removes or rewrites an entry. *)
Theorem session_audit_log (cs : list (clock * call)) (db : database) :
  exists added,
    auditLog (run cs db) = auditLog db ++ added /\
    length added =
      length (List.filter resolved_object (run_outcomes cs db)).
Proof.
  revert db. induction cs as [|[clk c] cs IH]; intros db.
  - exists []. split; [symmetry; apply app_nil_r|reflexivity].
  - cbn [run run_outcomes List.filter].
    destruct (IH (exec clk c db).2) as (added & Hlog & Hlen).
    destruct (exec_audit clk c db)
      as [[Hres Hsame] | (Hres & entry & now & idv & Hone & _)];
      rewrite Hres.
    + exists added. rewrite Hlog, Hsame. split; [reflexivity|exact Hlen].
    + exists (entry :: added). rewrite Hlog, Hone, <- app_assoc.
      split; [reflexivity|]. simpl. rewrite Hlen. reflexivity.
Qed.

Lemma exec_keeps_audit_shape clk c db :
  Forall audit_entry_shape (auditLog db) ->
  numbered_from_one (auditLog db) ->
  Forall audit_entry_shape (auditLog (exec clk c db).2) /\
  numbered_from_one (auditLog (exec clk c db).2).
Proof.
  intros Hshape Hnum.
  destruct (exec_audit clk c db)
    as [[_ ->] | (_ & entry & now & idv & -> & Hid & Hty & Heid & Hact & Hts)];
    [split; assumption|].
  split.
  - apply Forall_app. split; [exact Hshape|].
    constructor; [|constructor].
    unfold audit_entry_shape. rewrite Hid, Hty, Heid, Hact, Hts.
    split; [eexists; reflexivity|]. split; [eexists; reflexivity|].
    split; [eexists; reflexivity|]. split; [|eexists; reflexivity].
    destruct c; cbn [action_of]; auto.
  - intros i e Hi.
    destruct (decide (i < length (auditLog db))%nat) as [Hlt|Hge].
    + rewrite lookup_app_l in Hi by exact Hlt. apply Hnum, Hi.
    + rewrite lookup_app_r in Hi by lia.
      destruct (i - length (auditLog db))%nat as [|k] eqn:Hk;
        [|destruct k; discriminate].
      injection Hi as <-. rewrite Hid. unfold next_id.
      do 2 f_equal. lia.
Qed.

Lemma reachable_audit_shape (db : database) :
  reachable db ->
  Forall audit_entry_shape (auditLog db) /\ numbered_from_one (auditLog db).
Proof.
  induction 1 as [|clk c db _ [IHshape IHnum]].
  - split; [constructor|]. intros i e Hi. destruct i; discriminate.
  - apply exec_keeps_audit_shape; assumption.
Qed.

(** X6.  In every store the facade can reach, the audit entries are
    numbered 1, 2, 3, ... in log order, and each has an entity type, a
    string [entityId], a [Date] timestamp and one of the actions CREATE,
    UPDATE and DELETE: no facade call logs a READ. *)
Theorem reachable_audit_log (db : database) :
  reachable db ->
  Forall audit_entry_shape (auditLog db) /\ numbered_from_one (auditLog db).
Proof. exact (reachable_audit_shape db). Qed.

(** ** Querying the audit log *)

Lemma filter_filter_andb {A : Type} (f g : A -> bool) (l : list A) :
  List.filter g (List.filter f l) = List.filter (fun x => f x && g x) l.
Proof.
  induction l as [|x l IH]; simpl; [reflexivity|].
  destruct (f x); simpl; [|exact IH].
  destruct (g x); [f_equal|]; exact IH.
Qed.

Lemma filter_all {A : Type} (l : list A) : List.filter (fun _ => true) l = l.
Proof. induction l as [|x l IH]; simpl; [|f_equal]; trivial. Qed.

(** The three optional narrowings are one filter: the conjunction of
    the filters that are given. *)
Lemma narrow_passes (filters : gmap string prim) (l : list obj) :
  narrow filters "userId"
    (narrow filters "entityId" (narrow filters "entityType" l)) =
  List.filter (passes filters) l.
Proof.
  unfold narrow, passes, audit_filter_keys. cbn [forallb].
  destruct (truthy (filter_value filters "entityType"));
    destruct (truthy (filter_value filters "entityId"));
    destruct (truthy (filter_value filters "userId"));
    cbn [negb orb andb]; rewrite ?filter_filter_andb;
    first [ apply List.filter_ext; intros e;
            rewrite ?andb_true_r, ?andb_assoc; reflexivity
          | symmetry; apply filter_all ].
Qed.

Lemma sort_insert_Permutation {A : Type} (cmp : A -> A -> Z) x (l : list A) :
  sort_insert cmp x l ≡ₚ x :: l.
Proof.
  induction l as [|y l IH]; simpl; [reflexivity|].
  destruct (0 <? cmp x y)%Z; [|reflexivity].
  rewrite IH. apply Permutation_swap.
Qed.

Lemma sort_by_Permutation {A : Type} (cmp : A -> A -> Z) (l : list A) :
  sort_by cmp l ≡ₚ l.
Proof.
  induction l as [|x l IH]; simpl; [reflexivity|].
  rewrite sort_insert_Permutation, IH. reflexivity.
Qed.

Lemma newest_first_dated (a b : obj) (ta tb : Z) :
  entry_time a = Some ta -> entry_time b = Some tb ->
  newest_first a b = (tb - ta)%Z.
Proof.
  unfold entry_time, newest_first.
  destruct (get a "timestamp") as [?|ta']; [discriminate|].
  destruct (get b "timestamp") as [?|tb']; [discriminate|].
  intros [= <-] [= <-]. reflexivity.
Qed.

Lemma sort_insert_sorted (x : obj) (l : list obj) :
  is_Some (entry_time x) ->
  Forall (fun e => is_Some (entry_time e)) l ->
  StronglySorted not_later l ->
  StronglySorted not_later (sort_insert newest_first x l).
Proof.
  intros [tx Hx] Hall Hsorted.
  induction Hsorted as [|y l Hl IH Hy]; simpl.
  - repeat constructor.
  - apply Forall_cons in Hall as [[ty Hty] Hall].
    rewrite (newest_first_dated x y tx ty Hx Hty).
    destruct (0 <? ty - tx)%Z eqn:Hcmp.
    + apply Z.ltb_lt in Hcmp. constructor; [apply IH, Hall|].
      rewrite sort_insert_Permutation. constructor; [|exact Hy].
      exists ty, tx. repeat split; [assumption..|lia].
    + apply Z.ltb_ge in Hcmp. constructor; [constructor; assumption|].
      constructor.
      * exists tx, ty. repeat split; [assumption..|lia].
      * eapply Forall_impl; [exact Hy|].
        intros z (ty' & tz & Hty' & Hz & Hle).
        assert (ty' = ty) as -> by congruence.
        exists tx, tz. repeat split; [assumption..|lia].
Qed.

Lemma sort_by_sorted (l : list obj) :
  Forall (fun e => is_Some (entry_time e)) l ->
  StronglySorted not_later (sort_by newest_first l).
Proof.
  induction 1 as [|x l Hx Hall IH]; simpl; [constructor|].
  apply sort_insert_sorted; [exact Hx| |exact IH].
  rewrite sort_by_Permutation. exact Hall.
Qed.

(** Stability: among the entries stamped at one time, the order of the
    input is kept. *)
Lemma sort_insert_stamped_at (t : Z) (x : obj) (l : list obj) :
  is_Some (entry_time x) ->
  Forall (fun e => is_Some (entry_time e)) l ->
  List.filter (stamped_at t) (sort_insert newest_first x l) =
  List.filter (stamped_at t) (x :: l).
Proof.
  intros [tx Hx] Hall.
  induction Hall as [|y l [ty Hty] _ IH]; [reflexivity|].
  cbn [sort_insert]. rewrite (newest_first_dated x y tx ty Hx Hty).
  destruct (0 <? ty - tx)%Z eqn:Hcmp; [|reflexivity].
  apply Z.ltb_lt in Hcmp.
  cbn [List.filter] in *. rewrite IH.
  destruct (stamped_at t x) eqn:Sx, (stamped_at t y) eqn:Sy; try reflexivity.
  unfold stamped_at in Sx, Sy.
  apply bool_decide_eq_true in Sx, Sy.
  rewrite Hx in Sx. rewrite Hty in Sy.
  injection Sx as ->. injection Sy as ->. lia.
Qed.

Lemma sort_by_stamped_at (t : Z) (l : list obj) :
  Forall (fun e => is_Some (entry_time e)) l ->
  List.filter (stamped_at t) (sort_by newest_first l) =
  List.filter (stamped_at t) l.
Proof.
  induction 1 as [|x l Hx Hall IH]; [reflexivity|].
  cbn [sort_by foldr]. fold (sort_by newest_first l).
  rewrite sort_insert_stamped_at; [|exact Hx|].
  - cbn [List.filter]. rewrite IH. reflexivity.
  - rewrite sort_by_Permutation. exact Hall.
Qed.

Lemma reachable_audit_dated (db : database) :
  reachable db -> Forall (fun e => is_Some (entry_time e)) (auditLog db).
Proof.
  intros Hreach. destruct (reachable_audit_shape db Hreach) as [Hshape _].
  eapply Forall_impl; [exact Hshape|].
  intros e (_ & _ & _ & _ & t & Ht). exists t. unfold entry_time.
  rewrite Ht. reflexivity.
Qed.

Lemma Forall_filter_keeps {A : Type} (P : A -> Prop) (f : A -> bool)
    (l : list A) :
  Forall P l -> Forall P (List.filter f l).
Proof.
  induction 1 as [|x l Hx _ IH]; simpl; [constructor|].
  destruct (f x); [constructor|]; assumption.
Qed.

(** X7.  In every store the facade can reach, [getAuditLog(filters)]
    resolves with exactly the entries that agree with every filter given
    (a falsy or missing filter is no filter; the given ones are
    conjoined), each once, ordered most recent first, entries stamped at
    the same time staying in log order. *)
Theorem getAuditLog_selects_newest_first
    (filters : gmap string prim) (db : database) :
  reachable db ->
  exists logs,
    getAuditLog filters db = Resolved logs /\
    logs ≡ₚ List.filter (passes filters) (auditLog db) /\
    StronglySorted not_later logs /\
    forall t,
      List.filter (stamped_at t) logs =
      List.filter (stamped_at t) (List.filter (passes filters) (auditLog db)).
Proof.
  intros Hreach.
  assert (Hdated : Forall (fun e => is_Some (entry_time e))
                     (List.filter (passes filters) (auditLog db)))
    by (apply Forall_filter_keeps, reachable_audit_dated, Hreach).
  exists (sort_by newest_first (List.filter (passes filters) (auditLog db))).
  split; [|split; [|split]].
  - unfold getAuditLog. rewrite narrow_passes. reflexivity.
  - apply sort_by_Permutation.
  - apply sort_by_sorted, Hdated.
  - intros t. apply sort_by_stamped_at, Hdated.
Qed.

(** X8.  Audit entries hold the entity identifier as a string.  So in
    every reachable store, narrowing the audit log by an [entityId] that
    is given (truthy) but is not a string, such as the number an allergy
    or a task goes by, resolves with no entry at all. *)
Theorem getAuditLog_entityId_not_a_string
    (filters : gmap string prim) (db : database) :
  reachable db ->
  truthy (VPrim (filter_value filters "entityId")) = true ->
  (forall s, filter_value filters "entityId" <> PStr s) ->
  getAuditLog filters db = Resolved [].
Proof.
  intros Hreach Hgiven Hnot.
  unfold getAuditLog. rewrite narrow_passes.
  replace (List.filter (passes filters) (auditLog db)) with (@nil obj);
    [reflexivity|].
  symmetry. apply filter_nil_iff.
  destruct (reachable_audit_shape db Hreach) as [Hshape _].
  eapply Forall_impl; [exact Hshape|].
  intros e (_ & _ & [s Hs] & _).
  unfold passes, audit_filter_keys. cbn [forallb].
  rewrite Hgiven, Hs. cbn [negb orb strict_eq].
  assert (Hne : strict_eq_prim (PStr s) (filter_value filters "entityId")
                = false).
  { destruct (filter_value filters "entityId") as [| | | | |s'];
      try reflexivity.
    destruct (Hnot s'). reflexivity. }
  rewrite Hne. apply andb_false_r.
Qed.

(** ** Statistics *)

Lemma upcoming_scheduled (clk : clock) (k : nat) (l : list obj) :
  (length (upcoming clk k l) <=
   length (List.filter (has_status "scheduled") l))%nat /\
  Forall (fun a => has_status "scheduled" a = true /\
                   is_Some (Date_of (get a "scheduledDate")))
         (upcoming clk k l).
Proof.
  revert k. induction l as [|a l IH]; intros k; cbn [upcoming List.filter].
  - split; [reflexivity|constructor].
  - unfold has_status at 1.
    destruct (strict_eq (get a "status") (PStr "scheduled")) eqn:Hst;
      [|apply IH].
    destruct (IH (S k)) as [Hlen Hall].
    destruct (Date_of (get a "scheduledDate")) as [t|] eqn:Hdate.
    + destruct (clk k <? t)%Z.
      * split; [simpl; lia|]. constructor; [|exact Hall].
        split; [exact Hst|]. rewrite Hdate. eexists. reflexivity.
      * split; [simpl; lia|exact Hall].
    + split; [simpl; lia|exact Hall].
Qed.

Lemma upcoming_frozen (now : Z) (k : nat) (l : list obj) :
  upcoming (frozen now) k l = List.filter (scheduled_after now) l.
Proof.
  revert k. induction l as [|a l IH]; intros k; cbn [upcoming List.filter];
    [reflexivity|].
  unfold scheduled_after at 1, has_status.
  destruct (strict_eq (get a "status") (PStr "scheduled")); cbn [andb];
    [|apply IH].
  unfold frozen at 1.
  destruct (Date_of (get a "scheduledDate")) as [t|]; [|apply IH].
  destruct (now <? t)%Z; [f_equal|]; apply IH.
Qed.

Lemma filter_delete_length {A : Type} (f : A -> bool) (l : list A)
    (i : nat) (x : A) :
  l !! i = Some x ->
  (length (List.filter f (delete i l)) + (if f x then 1 else 0))%nat =
  length (List.filter f l).
Proof.
  revert i. induction l as [|y l IH]; intros [|i]; try discriminate.
  - intros [= ->]. simpl. destruct (f x); simpl; lia.
  - intros Hx. specialize (IH i Hx).
    change (delete (S i) (y :: l)) with (y :: delete i l).
    simpl. destruct (f y); simpl; lia.
Qed.

(** X9.  [getStatistics] counts over the live store: the total of
    patients is the length of what [getAllPatients] resolves with; the
    active patients are among the patients, the AI-generated notes among
    the notes, the pending tasks among the tasks, and the upcoming
    appointments among the appointments whose status is 'scheduled'. *)
Theorem getStatistics_counts (clk : clock) (db : database) :
  exists st everyone,
    getStatistics clk db = Resolved st /\
    getAllPatients db = Resolved everyone /\
    totalPatients st = length everyone /\
    (activePatients st <= totalPatients st)%nat /\
    (aiGeneratedNotes st <= totalClinicalNotes st)%nat /\
    (pendingTasks st <= length (tasks db))%nat /\
    (upcomingAppointments st <=
     length (List.filter (has_status "scheduled") (appointments db)))%nat.
Proof.
  eexists. eexists. split; [reflexivity|]. split; [reflexivity|].
  cbn [totalPatients activePatients totalClinicalNotes aiGeneratedNotes
       pendingTasks upcomingAppointments].
  split; [reflexivity|].
  repeat split; try apply List.filter_length_le.
  apply upcoming_scheduled.
Qed.

(** X10.  Registering a patient raises both the patient total and the
    active-patient count of [getStatistics] by exactly one, whatever
    status the creation data carries, and moves no other count. *)
Theorem createPatient_statistics
    (clk now : clock) (data : obj) (db : database) :
  exists r db' st st',
    createPatient clk data db = (Resolved r, db') /\
    getStatistics now db = Resolved st /\
    getStatistics now db' = Resolved st' /\
    totalPatients st' = S (totalPatients st) /\
    activePatients st' = S (activePatients st) /\
    totalClinicalNotes st' = totalClinicalNotes st /\
    aiGeneratedNotes st' = aiGeneratedNotes st /\
    pendingTasks st' = pendingTasks st /\
    upcomingAppointments st' = upcomingAppointments st.
Proof.
  do 4 eexists. split; [reflexivity|]. split; [reflexivity|].
  split; [reflexivity|].
  cbn [totalPatients activePatients totalClinicalNotes aiGeneratedNotes
       pendingTasks upcomingAppointments logAudit set_auditLog set_patients
       patients clinicalNotes tasks appointments].
  split; [rewrite length_app; simpl; lia|].
  split; [|repeat split].
  rewrite filter_app_one, length_app.
  rewrite get_insert_ne by discriminate.
  rewrite get_insert_ne by discriminate.
  rewrite get_insert_eq. simpl. lia.
Qed.

(** X11.  A successful [deletePatient(P)] lowers the patient total by
    exactly one, the active-patient count by one exactly when the
    removed record's status was 'active', and the clinical-note total by
    the number of notes that referred to [P]. *)
Theorem deletePatient_statistics
    (clk now : clock) (P : prim) (db : database) (p : obj) :
  find (has_id P) (patients db) = Some p ->
  exists db' st st',
    deletePatient clk P db = (Resolved success, db') /\
    getStatistics now db = Resolved st /\
    getStatistics now db' = Resolved st' /\
    S (totalPatients st') = totalPatients st /\
    (activePatients st' + (if has_status "active" p then 1 else 0))%nat =
      activePatients st /\
    (totalClinicalNotes st' +
     length (List.filter (of_patient P) (clinicalNotes db)))%nat =
      totalClinicalNotes st.
Proof.
  intros Hfind.
  destruct (findIndex (has_id P) (patients db)) as [index|] eqn:Hidx.
  2:{ apply findIndex_None, find_None in Hidx. congruence. }
  destruct (findIndex_Some _ _ _ Hidx) as (p' & Hp & _ & Hfind' & _).
  assert (p' = p) as -> by congruence.
  unfold deletePatient. rewrite Hidx.
  do 3 eexists. split; [reflexivity|]. split; [reflexivity|].
  split; [reflexivity|].
  cbn [totalPatients activePatients totalClinicalNotes logAudit set_auditLog
       set_patients set_allergies set_chronicConditions set_clinicalNotes
       set_tasks set_appointments set_referrals patients clinicalNotes].
  split; [|split].
  - rewrite length_delete by (eexists; exact Hp).
    apply lookup_lt_Some in Hp. lia.
  - apply (filter_delete_length _ _ _ _ Hp).
  - rewrite Nat.add_comm. apply List.filter_length.
Qed.

Lemma filter_insert_length {A : Type} (f : A -> bool) (l : list A)
    (i : nat) (x y : A) :
  l !! i = Some x ->
  (length (List.filter f (<[i := y]> l)) + (if f x then 1 else 0))%nat =
  (length (List.filter f l) + (if f y then 1 else 0))%nat.
Proof.
  revert i. induction l as [|z l IH]; intros [|i]; try discriminate.
  - intros [= ->]. simpl. destruct (f x), (f y); simpl; lia.
  - intros Hx. specialize (IH i Hx).
    change (<[S i := y]> (z :: l)) with (z :: <[i := y]> l).
    simpl. destruct (f z); simpl; lia.
Qed.

(** X12.  Pending tasks in [getStatistics].  A task created with a
    missing or falsy status raises the count by one.  Completing a task
    ([updateTask] with status 'completed') lowers it by one when the
    first task under the identifier was pending. *)
Theorem task_statistics (clk now : clock) (db : database) :
  (forall data,
     truthy (get data "status") = false ->
     exists t db' st st',
       createTask clk data db = (Resolved t, db') /\
       getStatistics now db = Resolved st /\
       getStatistics now db' = Resolved st' /\
       pendingTasks st' = S (pendingTasks st)) /\
  (forall id updates old,
     find (has_id id) (tasks db) = Some old ->
     has_status "pending" old = true ->
     updates !! "status" = Some (VStr "completed") ->
     exists t db' st st',
       updateTask clk id updates db = (Resolved t, db') /\
       getStatistics now db = Resolved st /\
       getStatistics now db' = Resolved st' /\
       S (pendingTasks st') = pendingTasks st).
Proof.
  split.
  - intros data Hst. do 4 eexists.
    split; [reflexivity|]. split; [reflexivity|]. split; [reflexivity|].
    cbn [pendingTasks logAudit set_auditLog set_tasks tasks].
    rewrite filter_app_one, length_app.
    rewrite get_insert_ne by discriminate. rewrite get_insert_eq.
    unfold js_or. rewrite Hst. simpl. lia.
  - intros id updates old Hfind Hpending Hdone.
    destruct (findIndex (has_id id) (tasks db)) as [index|] eqn:Hidx.
    2:{ apply findIndex_None, find_None in Hidx. congruence. }
    destruct (findIndex_Some _ _ _ Hidx) as (old' & Hold & _ & Hfind' & _).
    assert (old' = old) as -> by congruence.
    assert (Hget : get updates "status" = VStr "completed")
      by (unfold get; rewrite Hdone; reflexivity).
    unfold updateTask. rewrite Hidx, (at_index_lookup _ _ _ Hold), Hget.
    cbn [strict_eq strict_eq_prim].
    rewrite bool_decide_eq_true_2 by reflexivity.
    do 4 eexists.
    split; [reflexivity|]. split; [reflexivity|]. split; [reflexivity|].
    cbn [pendingTasks logAudit set_auditLog set_tasks tasks].
    pose proof (filter_insert_length (has_status "pending") (tasks db) index
                  old
                  (<["completedAt" := VDate (clk 0%nat)]> (spread old updates))
                  Hold) as Hcount.
    rewrite Hpending in Hcount.
    assert (Hnew : has_status "pending"
                     (<["completedAt" := VDate (clk 0%nat)]>
                        (spread old updates)) = false).
    { unfold has_status. rewrite get_insert_ne by discriminate.
      unfold get. rewrite lookup_spread, Hdone. reflexivity. }
    rewrite Hnew in Hcount.
    unfold has_status in Hcount. lia.
Qed.

(** X13.  Upcoming appointments in [getStatistics], read at a time
    [now].  An appointment created with a missing or falsy status (so
    stored as 'scheduled') raises the count by one exactly when its
    [scheduledDate] is a valid date strictly after [now]; with a missing
    or invalid date, or a date at or before [now], the count stays. *)
Theorem createAppointment_statistics
    (clk : clock) (now : Z) (data : obj) (db : database) :
  truthy (get data "status") = false ->
  exists a db' st st',
    createAppointment clk data db = (Resolved a, db') /\
    getStatistics (frozen now) db = Resolved st /\
    getStatistics (frozen now) db' = Resolved st' /\
    upcomingAppointments st' =
      (upcomingAppointments st +
       match Date_of (get data "scheduledDate") with
       | Some t => if (now <? t)%Z then 1 else 0
       | None => 0
       end)%nat.
Proof.
  intros Hst. do 4 eexists.
  split; [reflexivity|]. split; [reflexivity|]. split; [reflexivity|].
  cbn [upcomingAppointments logAudit set_auditLog set_appointments
       appointments].
  rewrite !upcoming_frozen, filter_app_one, length_app.
  f_equal. unfold scheduled_after, has_status.
  rewrite get_insert_ne by discriminate. rewrite get_insert_eq.
  unfold js_or. rewrite Hst.
  cbn [strict_eq strict_eq_prim].
  rewrite bool_decide_eq_true_2 by reflexivity. cbn [andb].
  rewrite !get_insert_ne by discriminate.
  assert (Hsame : get (spread (object [("id", next_id (appointments db))]) data)
                    "scheduledDate" = get data "scheduledDate").
  { unfold get. rewrite lookup_spread.
    destruct (data !! "scheduledDate"); reflexivity. }
  rewrite Hsame.
  destruct (Date_of (get data "scheduledDate")) as [t|]; [|reflexivity].
  destruct (now <? t)%Z; reflexivity.
Qed.

(** ** Workflows over a session *)

Lemma find_insert_match {A : Type} (f : A -> bool) (l : list A)
    (i : nat) (y : A) :
  findIndex f l = Some i -> f y = true ->
  find f (<[i := y]> l) = Some y.
Proof.
  revert i. induction l as [|x l IH]; intros i; simpl; [discriminate|].
  destruct (f x) eqn:Hx.
  - intros [= <-] Hy. simpl. rewrite Hy. reflexivity.
  - destruct (findIndex f l) as [j|]; simpl; [|discriminate].
    intros [= <-] Hy. simpl. rewrite Hx. apply IH; trivial.
Qed.

Lemma total_usage_insert (l : list obj) (i : nat) (w w' : obj) :
  l !! i = Some w ->
  foldr (fun w acc => (usage_of w + acc)%Z) 0%Z (<[i := w']> l) =
  (foldr (fun w acc => (usage_of w + acc)%Z) 0%Z l
   - usage_of w + usage_of w')%Z.
Proof.
  revert i. induction l as [|x l IH]; intros [|i]; try discriminate.
  - intros [= ->]. simpl. lia.
  - intros Hw. change (<[S i := w']> (x :: l)) with (x :: <[i := w']> l).
    simpl. rewrite (IH i Hw). lia.
Qed.

(** One call and the workflows: a usage increment that finds its
    workflow writes the incremented counter and logs one
    WorkflowTemplate entry; every other call leaves the workflows and
    the WorkflowTemplate entries alone. *)
Lemma exec_workflows clk c db :
  (workflows (exec clk c db).2 = workflows db /\
   workflow_updates (exec clk c db).2 = workflow_updates db) \/
  (exists index w entry,
     workflows db !! index = Some w /\
     workflows (exec clk c db).2 =
       <[index := <["usageCount" := increment (get w "usageCount")]> w]>
         (workflows db) /\
     workflow_updates (exec clk c db).2 = workflow_updates db ++ [entry]).
Proof.
  destruct (exec_audit clk c db)
    as [[_ Hsame] | (_ & entry & now & idv & Hone & _ & Hty & _)].
  - left. unfold workflow_updates. rewrite Hsame. split; [|reflexivity].
    destruct c; cbn [exec]; unfold returning; cbn [snd]; try reflexivity.
    + unfold updatePatient. destruct (findIndex _ _); reflexivity.
    + unfold deletePatient. destruct (findIndex _ _); reflexivity.
    + unfold updateClinicalNote. destruct (findIndex _ _); reflexivity.
    + unfold removeAllergy. destruct (findIndex _ _); reflexivity.
    + cbn [exec] in Hsame. unfold incrementWorkflowUsage in *.
      destruct (findIndex _ _); [|reflexivity].
      cbn [snd logAudit set_auditLog auditLog set_workflows] in Hsame.
      apply (f_equal length) in Hsame. rewrite length_app in Hsame.
      simpl in Hsame. lia.
    + unfold updateTask. destruct (findIndex _ _); [|reflexivity].
      destruct (strict_eq _ _); reflexivity.
  - assert (Hlog : workflow_updates (exec clk c db).2 =
                   workflow_updates db ++
                   (if strict_eq (VStr (entity_of c)) (PStr "WorkflowTemplate")
                    then [entry] else [])).
    { unfold workflow_updates. rewrite Hone, filter_app_one, Hty.
      reflexivity. }
    destruct c; cbn [entity_of] in Hlog;
      match type of Hlog with
      | context [strict_eq ?a ?b] =>
          let v := eval vm_compute in (strict_eq a b) in
          change (strict_eq a b) with v in Hlog
      end;
      cbv iota in Hlog;
      try (left; split; [|rewrite Hlog; apply app_nil_r]);
      cbn [exec]; unfold returning; cbn [snd]; try reflexivity.
    + unfold updatePatient. destruct (findIndex _ _); reflexivity.
    + unfold deletePatient. destruct (findIndex _ _); reflexivity.
    + unfold updateClinicalNote. destruct (findIndex _ _); reflexivity.
    + unfold removeAllergy. destruct (findIndex _ _); reflexivity.
    + cbn [exec] in Hlog, Hone. unfold incrementWorkflowUsage in *.
      destruct (findIndex (has_id workflowId) (workflows db))
        as [index|] eqn:Hidx.
      * destruct (findIndex_Some _ _ _ Hidx) as (w & Hw & _).
        right. exists index, w, entry. split; [exact Hw|].
        split; [|exact Hlog].
        cbn [snd logAudit set_auditLog set_workflows workflows].
        rewrite (at_index_lookup _ _ _ Hw). reflexivity.
      * cbn [snd] in Hone. apply (f_equal length) in Hone.
        rewrite length_app in Hone. simpl in Hone. lia.
    + unfold updateTask. destruct (findIndex _ _); [|reflexivity].
      destruct (strict_eq _ _); reflexivity.
Qed.

(** X14.  In every store the facade can reach, the workflows are the
    three of the constructor with nothing but their usage counters
    changed, and the counters add up to the initial 290 plus the number
    of WorkflowTemplate entries in the audit log: every recorded use is
    audited once and no counter moves otherwise. *)
Theorem reachable_workflows (db : database) :
  reachable db ->
  (fun w : obj => delete "usageCount" w) <$> workflows db =
    (fun w : obj => delete "usageCount" w) <$> initial_workflows /\
  total_usage db = (290 + Z.of_nat (length (workflow_updates db)))%Z.
Proof.
  induction 1 as [|clk c db Hreach [IHsame IHsum]].
  - split; reflexivity.
  - destruct (exec_workflows clk c db)
      as [[Hwf Hlog] | (index & w & entry & Hw & Hwf & Hlog)].
    + unfold total_usage. rewrite Hwf, Hlog. split; assumption.
    + pose proof (reachable_counted db Hreach) as Hcounted.
      rewrite Forall_forall in Hcounted.
      destruct (Hcounted w) as [n Hn];
        [eapply list_elem_of_lookup_2; exact Hw|].
      rewrite Hn in Hwf. change (increment (VNum n)) with (VNum (n + 1)) in Hwf.
      unfold total_usage. rewrite Hwf, Hlog. split.
      * rewrite list_fmap_insert, delete_insert_eq, <- IHsame.
        apply list_insert_id. rewrite list_lookup_fmap, Hw. reflexivity.
      * rewrite (total_usage_insert _ _ _ _ Hw).
        unfold total_usage in IHsum. rewrite IHsum.
        unfold usage_of at 1 2. rewrite Hn, get_insert_eq.
        rewrite length_app. simpl. lia.
Qed.

(** X15.  Read your write: when [incrementWorkflowUsage(id)] resolves
    with a workflow, [getWorkflowById(id)] on the resulting store
    resolves with that same workflow, counter incremented. *)
Theorem incrementWorkflowUsage_then_getWorkflowById
    (clk : clock) (id : prim) (db db' : database) (w : obj) :
  incrementWorkflowUsage clk id db = (Resolved (Some w), db') ->
  getWorkflowById id db' = Resolved w.
Proof.
  unfold incrementWorkflowUsage.
  destruct (findIndex (has_id id) (workflows db)) as [index|] eqn:Hidx;
    [|discriminate].
  destruct (findIndex_Some _ _ _ Hidx) as (old & Hold & Hid & _).
  rewrite (at_index_lookup _ _ _ Hold).
  intros [= <- <-]. unfold getWorkflowById.
  cbn [logAudit set_auditLog set_workflows workflows].
  rewrite (find_insert_match _ _ _ _ Hidx); [reflexivity|].
  unfold has_id in *. rewrite get_insert_ne by discriminate. exact Hid.
Qed.

(** ** Updating a patient and reading it back *)

Lemma updatePatient_found clk P u db index old :
  findIndex (has_id P) (patients db) = Some index ->
  patients db !! index = Some old ->
  exists db',
    updatePatient clk P u db =
      (Resolved (<["updatedAt" := VDate (clk 0%nat)]> (spread old u)), db') /\
    patients db' =
      <[index := <["updatedAt" := VDate (clk 0%nat)]> (spread old u)]>
        (patients db) /\
    allergies db' = allergies db /\
    chronicConditions db' = chronicConditions db /\
    clinicalNotes db' = clinicalNotes db /\ tasks db' = tasks db /\
    appointments db' = appointments db /\ referrals db' = referrals db.
Proof.
  intros Hidx Hold. unfold updatePatient.
  rewrite Hidx, (at_index_lookup _ _ _ Hold).
  eexists. split; [reflexivity|]. repeat split.
Qed.

(** X16.  Read your write: when [updatePatient(P, updates)] succeeds
    and the updates carry no [id], [getPatientById(P)] afterwards
    resolves with the record the update resolved with (the stored record
    merged with the updates, [updatedAt] refreshed) and with the same
    six dependent lists as before. *)
Theorem updatePatient_then_getPatientById
    (clk : clock) (P : prim) (updates : obj) (db db' : database) (r : obj) :
  updatePatient clk P updates db = (Resolved r, db') ->
  updates !! "id" = None ->
  exists d0 d,
    getPatientById P db = Resolved d0 /\
    getPatientById P db' = Resolved d /\
    patient d = r /\
    r = <["updatedAt" := VDate (clk 0%nat)]> (spread (patient d0) updates) /\
    detail_allergies d = detail_allergies d0 /\
    detail_chronicConditions d = detail_chronicConditions d0 /\
    detail_clinicalNotes d = detail_clinicalNotes d0 /\
    detail_tasks d = detail_tasks d0 /\
    detail_appointments d = detail_appointments d0 /\
    detail_referrals d = detail_referrals d0.
Proof.
  intros Hrun Hnoid.
  destruct (findIndex (has_id P) (patients db)) as [index|] eqn:Hidx.
  2:{ unfold updatePatient in Hrun. rewrite Hidx in Hrun. discriminate. }
  destruct (findIndex_Some _ _ _ Hidx) as (old & Hold & Hid & Hfind & _).
  destruct (updatePatient_found clk P updates db index old Hidx Hold)
    as (db1 & Hrun1 & Hpat & Hal & Hcc & Hcn & Hta & Hap & Hre).
  rewrite Hrun1 in Hrun. injection Hrun as <- <-.
  assert (Hkept : has_id P (<["updatedAt" := VDate (clk 0%nat)]>
                              (spread old updates)) = true).
  { unfold has_id in *. rewrite get_insert_ne by discriminate.
    unfold get in *. rewrite lookup_spread, Hnoid. exact Hid. }
  unfold getPatientById.
  rewrite Hfind, Hpat, (find_insert_match _ _ _ _ Hidx Hkept).
  rewrite Hal, Hcc, Hcn, Hta, Hap, Hre.
  do 2 eexists. split; [reflexivity|]. split; [reflexivity|].
  repeat split.
Qed.

(** X17.  Identifiers can be rewritten.  When [P] names exactly one
    patient and the updates carry an [id] that is not identical to [P],
    [updatePatient(P, updates)] succeeds, after which
    [getPatientById(P)] is rejected while every dependent record that
    referred to [P] is still stored, referring to [P]. *)
Theorem updatePatient_rewrites_id
    (clk : clock) (P : prim) (updates : obj) (db : database) (v : value) :
  length (List.filter (has_id P) (patients db)) = 1%nat ->
  updates !! "id" = Some v ->
  strict_eq v P = false ->
  exists r db',
    updatePatient clk P updates db = (Resolved r, db') /\
    get r "id" = v /\
    getPatientById P db' = Rejected "Patient not found" /\
    dependents P db' = dependents P db.
Proof.
  intros Hone Hid Hdiff.
  destruct (findIndex (has_id P) (patients db)) as [index|] eqn:Hidx.
  2:{ apply findIndex_None, filter_nil_iff in Hidx.
      rewrite Hidx in Hone. discriminate. }
  destruct (findIndex_Some _ _ _ Hidx) as (old & Hold & Hmatch & _).
  destruct (updatePatient_found clk P updates db index old Hidx Hold)
    as (db' & Hrun & Hpat & Hal & Hcc & Hcn & Hta & Hap & Hre).
  assert (Hnew : get (<["updatedAt" := VDate (clk 0%nat)]>
                        (spread old updates)) "id" = v).
  { rewrite get_insert_ne by discriminate.
    unfold get. rewrite lookup_spread, Hid. reflexivity. }
  do 2 eexists. split; [exact Hrun|]. split; [exact Hnew|]. split.
  - unfold getPatientById. rewrite Hpat.
    pose proof (filter_insert_length (has_id P) (patients db) index old
                  (<["updatedAt" := VDate (clk 0%nat)]> (spread old updates))
                  Hold) as Hcount.
    rewrite Hmatch, Hone in Hcount. unfold has_id at 2 in Hcount.
    rewrite Hnew, Hdiff in Hcount.
    assert (Hnil : List.filter (has_id P)
                     (<[index := <["updatedAt" := VDate (clk 0%nat)]>
                                   (spread old updates)]> (patients db)) = [])
      by (apply length_zero_iff_nil; lia).
    apply filter_nil_iff, find_None in Hnil. rewrite Hnil. reflexivity.
  - unfold dependents. rewrite Hal, Hcc, Hcn, Hta, Hap, Hre. reflexivity.
Qed.

(** ** Reopening a task *)

(** X18.  [updateTask] never clears a completion stamp.  When the
    updates carry neither status 'completed' nor [completedAt], the
    updated task has the [completedAt] it had, and takes the status of
    the updates if they carry one: a completed task can be set back to
    'pending' and keeps its old stamp. *)
Theorem updateTask_keeps_completedAt
    (clk : clock) (id : prim) (updates : obj) (db : database) (old : obj) :
  find (has_id id) (tasks db) = Some old ->
  strict_eq (get updates "status") (PStr "completed") = false ->
  updates !! "completedAt" = None ->
  exists r db',
    updateTask clk id updates db = (Resolved r, db') /\
    r !! "completedAt" = old !! "completedAt" /\
    (forall s, updates !! "status" = Some s -> r !! "status" = Some s).
Proof.
  intros Hfind Hst Hnone.
  destruct (findIndex (has_id id) (tasks db)) as [index|] eqn:Hidx.
  2:{ apply findIndex_None, find_None in Hidx. congruence. }
  destruct (findIndex_Some _ _ _ Hidx) as (old' & Hold & _ & Hfind' & _).
  assert (old' = old) as -> by congruence.
  unfold updateTask. rewrite Hidx, (at_index_lookup _ _ _ Hold), Hst.
  do 2 eexists. split; [reflexivity|]. split.
  - rewrite lookup_spread, Hnone. reflexivity.
  - intros s Hs. rewrite lookup_spread, Hs. reflexivity.
Qed.

(** ** Searching with the empty query *)

Lemma includes_empty (s : string) : includes s "" = true.
Proof. destruct s; reflexivity. Qed.

(** X19.  [searchPatients] does not treat the empty query specially:
    on a host that lower-cases the empty string to itself, and a store
    whose patients all hold a string [firstName] (the first property
    tried, which the empty query always matches), the empty query
    resolves with every patient, in store order. *)
Theorem searchPatients_empty_query (db : database) :
  toLowerCase "" = "" ->
  Forall (fun p => exists s, get p "firstName" = VStr s) (patients db) ->
  searchPatients "" db = Resolved (patients db).
Proof.
  intros Hlower Hall. unfold searchPatients. rewrite Hlower.
  rewrite (filter_throwing_total _ (fun _ => true)).
  - rewrite filter_all. reflexivity.
  - eapply Forall_impl; [exact Hall|]. intros p [s Hs].
    unfold search_fields. cbn [matches_any]. unfold lower_field.
    rewrite Hs, includes_empty. reflexivity.
Qed.

(** ** Phone numbers *)

Lemma digits_only_app (a b : string) :
  digits_only (a +:+ b) = digits_only a +:+ digits_only b.
Proof.
  induction a as [|c a IH]; [reflexivity|].
  rewrite append_cons. cbn [digits_only]. rewrite IH.
  destruct (is_digit c); reflexivity.
Qed.

Lemma digits_only_idempotent (s : string) :
  digits_only (digits_only s) = digits_only s.
Proof.
  induction s as [|c s IH]; [reflexivity|]. cbn [digits_only].
  destruct (is_digit c) eqn:Hc; [|exact IH].
  cbn [digits_only]. rewrite Hc, IH. reflexivity.
Qed.

Lemma slices_of_ten (s : string) :
  String.length s = 10%nat ->
  slice 0 3 s +:+ slice 3 6 s +:+ slice_from 6 s = s /\
  String.length
    ("(" +:+ slice 0 3 s +:+ ") " +:+ slice 3 6 s +:+ "-" +:+ slice_from 6 s)
  = 14%nat.
Proof.
  intros Hlen.
  do 10 (destruct s as [|? s]; [discriminate|]).
  destruct s; [|discriminate]. split; reflexivity.
Qed.

(** X20.  [formatPhone] only adds punctuation: the digits of its result
    are the digits of the input, so [validatePhone] accepts the
    formatted number exactly when it accepts the input, a number it
    accepts is formatted to 14 characters, and formatting twice is
    formatting once. *)
Theorem formatPhone_keeps_digits (phone : string) :
  digits_only (formatPhone phone) = digits_only phone /\
  isValid (validatePhone (formatPhone phone)) = isValid (validatePhone phone) /\
  (isValid (validatePhone phone) = true ->
   String.length (formatPhone phone) = 14%nat) /\
  formatPhone (formatPhone phone) = formatPhone phone.
Proof.
  assert (Hdigits : digits_only (formatPhone phone) = digits_only phone).
  { unfold formatPhone. case_bool_decide as Hempty; [subst; reflexivity|].
    cbv zeta.
    destruct (String.length (digits_only phone) =? 10)%nat eqn:Hlen;
      [|reflexivity].
    apply Nat.eqb_eq in Hlen.
    destruct (slices_of_ten _ Hlen) as [Hcat _].
    set (cleaned := digits_only phone) in *.
    rewrite !digits_only_app.
    change (digits_only (slice 0 3 cleaned) +:+
            (digits_only (slice 3 6 cleaned) +:+
             digits_only (slice_from 6 cleaned)) = cleaned).
    rewrite <- !digits_only_app, Hcat. apply digits_only_idempotent. }
  assert (Hnonempty : phone <> "" -> formatPhone phone <> "").
  { intros Hne. unfold formatPhone.
    rewrite bool_decide_eq_false_2 by exact Hne. cbv zeta.
    destruct (String.length (digits_only phone) =? 10)%nat;
      [discriminate|exact Hne]. }
  split; [exact Hdigits|]. split; [|split].
  - destruct (decide (phone = "")) as [->|Hne]; [reflexivity|].
    unfold validatePhone. rewrite Hdigits.
    rewrite (bool_decide_eq_false_2 (phone = "")) by exact Hne.
    rewrite bool_decide_eq_false_2 by (apply Hnonempty, Hne).
    reflexivity.
  - unfold validatePhone, formatPhone.
    case_bool_decide as Hempty; [discriminate|]. cbv zeta.
    destruct (String.length (digits_only phone) =? 10)%nat eqn:Hlen;
      [|discriminate].
    intros _. apply Nat.eqb_eq in Hlen. apply (slices_of_ten _ Hlen).
  - destruct (decide (phone = "")) as [->|Hne]; [reflexivity|].
    unfold formatPhone at 1.
    rewrite bool_decide_eq_false_2 by (apply Hnonempty, Hne).
    cbv zeta. rewrite Hdigits.
    unfold formatPhone. rewrite bool_decide_eq_false_2 by exact Hne.
    cbv zeta.
    destruct (String.length (digits_only phone) =? 10)%nat eqn:Hlen;
      [reflexivity|].
    destruct (String.length (digits_only phone) =? 10)%nat; congruence.
Qed.

(** ** Sanitising input *)

Lemma occurs_app (c : Ascii.ascii) (a b : string) :
  occurs c (a +:+ b) = occurs c a || occurs c b.
Proof.
  induction a as [|x a IH]; [reflexivity|].
  rewrite append_cons. cbn [occurs]. rewrite IH. apply orb_assoc.
Qed.

Lemma occurs_replace_all (d c : Ascii.ascii) (by_ s : string) :
  occurs d (replace_all c by_ s) =
  (if decide (d = c) then false else occurs d s) ||
  (occurs c s && occurs d by_).
Proof.
  induction s as [|a s IH]; cbn [replace_all occurs].
  - destruct (decide (d = c)); reflexivity.
  - destruct (decide (a = c)) as [Hac|Hac].
    + subst a. rewrite occurs_app, IH.
      rewrite (bool_decide_eq_true_2 (c = c)) by reflexivity.
      destruct (decide (d = c)) as [Hdc|Hdc].
      * destruct (occurs c s), (occurs d by_); reflexivity.
      * rewrite (bool_decide_eq_false_2 (c = d)) by congruence.
        destruct (occurs d s), (occurs c s), (occurs d by_); reflexivity.
    + cbn [occurs]. rewrite IH.
      rewrite (bool_decide_eq_false_2 (a = c)) by exact Hac.
      destruct (decide (d = c)) as [Hdc|Hdc].
      * rewrite (bool_decide_eq_false_2 (a = d)) by congruence. reflexivity.
      * destruct (bool_decide (a = d)), (occurs d s), (occurs c s),
          (occurs d by_); reflexivity.
Qed.

Lemma replace_all_absent (c : Ascii.ascii) (by_ s : string) :
  occurs c s = false -> replace_all c by_ s = s.
Proof.
  induction s as [|a s IH]; [reflexivity|]. cbn [occurs replace_all].
  intros Hocc. apply orb_false_iff in Hocc as [Ha Hs].
  apply bool_decide_eq_false in Ha.
  destruct (decide (a = c)); [contradiction|]. rewrite (IH Hs). reflexivity.
Qed.

Lemma sanitizeInput_free (s : string) (c : Ascii.ascii) :
  c ∈ escaped_characters -> occurs c (sanitizeInput s) = false.
Proof.
  intros Hc. unfold sanitizeInput. rewrite !occurs_replace_all.
  apply list_elem_of_In in Hc. simpl in Hc.
  destruct Hc as [<-|[<-|[<-|[<-|[<-|[]]]]]];
    generalize (occurs "<" s), (occurs ">" s), (occurs double_quote s),
      (occurs "'" s), (occurs "/" s);
    intros [] [] [] [] []; vm_compute; reflexivity.
Qed.

(** X21.  [sanitizeInput] leaves none of the characters it escapes
    ([<], [>], the two quotes and [/]) in its result.  A string free of
    them is returned unchanged, so sanitising twice is sanitising once;
    the ampersand is not among them, so text that already holds an
    entity passes through as it is. *)
Theorem sanitizeInput_escapes (s : string) :
  (forall c, c ∈ escaped_characters -> occurs c (sanitizeInput s) = false) /\
  ((forall c, c ∈ escaped_characters -> occurs c s = false) ->
   sanitizeInput s = s) /\
  sanitizeInput (sanitizeInput s) = sanitizeInput s.
Proof.
  assert (Hfixed : forall t,
            (forall c, c ∈ escaped_characters -> occurs c t = false) ->
            sanitizeInput t = t).
  { intros t Hfree. unfold sanitizeInput.
    rewrite (replace_all_absent "<" _ t)
      by (apply Hfree, list_elem_of_In; simpl; tauto).
    rewrite (replace_all_absent ">" _ t)
      by (apply Hfree, list_elem_of_In; simpl; tauto).
    rewrite (replace_all_absent double_quote _ t)
      by (apply Hfree, list_elem_of_In; simpl; tauto).
    rewrite (replace_all_absent "'" _ t)
      by (apply Hfree, list_elem_of_In; simpl; tauto).
    apply replace_all_absent, Hfree, list_elem_of_In. simpl. tauto. }
  split; [apply sanitizeInput_free|]. split; [apply Hfixed|].
  apply Hfixed. apply sanitizeInput_free.
Qed.

(** ** Helpers for explicit runs *)

Lemma find_at {A : Type} (f : A -> bool) (l : list A) (i : nat) (x : A) :
  findIndex f l = Some i -> l !! i = Some x -> find f l = Some x.
Proof. intros Hi Hx. rewrite find_findIndex, Hi. exact Hx. Qed.

Lemma getStatistics_fields (clk : clock) (db : database) (st : statistics) :
  getStatistics clk db = Resolved st ->
  totalPatients st = length (patients db) /\
  activePatients st =
    length (List.filter (has_status "active") (patients db)) /\
  pendingTasks st = length (List.filter (has_status "pending") (tasks db)) /\
  upcomingAppointments st = length (upcoming clk 0 (appointments db)).
Proof. intros [= <-]. repeat split. Qed.

End FurtherProperties.

(** ** Concrete runs

    The theorems above at explicit inputs, and the inputs at which the
    store departs from the specification, evaluated on the reference
    host. *)

#[local] Existing Instance reference_host.

(** Sarah Johnson is the only patient under P20250001 in the
    constructor's store: deleting her removes her two allergies too. *)
Lemma deletePatient_cascades_run :
  length (List.filter (has_id P20250001) (patients initial_db)) = 1%nat /\
  exists db',
    deletePatient (frozen 1736600000000) P20250001 initial_db =
      (Resolved success, db') /\
    length (allergies db') = 1%nat /\
    dependents P20250001 db' = [] /\
    getPatientById P20250001 db' = Rejected "Patient not found".
Proof.
  split; [vm_compute; reflexivity|].
  destruct (deletePatient_cascades (frozen 1736600000000) P20250001
              initial_db)
    as (db' & Hrun & _ & Hal & _ & _ & _ & _ & _ & _ & Hdep & Hget).
  { vm_compute. reflexivity. }
  exists db'. split; [exact Hrun|].
  split; [rewrite Hal; vm_compute; reflexivity|].
  split; assumption.
Defined.

(** C1 does not hold as stated.  After a second patient has been
    registered under P20250001, [deletePatient] resolves, yet
    [getPatientById] still resolves: with the second record. *)
Lemma deletePatient_leaves_duplicate :
  reachable duplicate_id_store /\
  (exists p, p ∈ patients duplicate_id_store /\ has_id P20250001 p = true) /\
  (deletePatient (frozen 1736600000000) P20250001 duplicate_id_store).1 =
    Resolved success /\
  exists d,
    getPatientById P20250001
      (deletePatient (frozen 1736600000000) P20250001 duplicate_id_store).2 =
      Resolved d /\
    get (patient d) "firstName" = VStr "Eve".
Proof.
  split; [|split; [|split]].
  - exact (reachable_step (ticking 1736500000000)
             (CreatePatient
                (object [ ("id", VStr "P20250001"); ("firstName", VStr "Eve") ]))
             initial_db reachable_initial).
  - eexists. split.
    + unfold duplicate_id_store.
      cbn [createPatient snd logAudit set_auditLog set_patients patients
           initial_db].
      unfold initial_patients. do 2 right. left.
    + vm_compute. reflexivity.
  - vm_compute. reflexivity.
  - eexists. split; vm_compute; reflexivity.
Qed.

(** C2 fails on the code: identifiers are taken from the length of the
    sequence, so they repeat once a record has gone.  From the
    constructor's store (allergies 1, 2, 3): an allergy is added (it
    gets 4), allergies 1 and 2 are removed, another is added and gets 3,
    below the one assigned before it and equal to that of a stored
    allergy.  Likewise after the cascade of deleting patient P20250002
    (allergy 1 goes): the next allergy gets 3 although allergy 3 is
    stored.  Both stores are reachable. *)
Theorem addAllergy_repeats_identifier_after_removal :
  reachable (run allergy_session initial_db) /\
  (fun r => get r "id") <$> allergies (run allergy_session initial_db) =
    [ VNum 3; VNum 4; VNum 3 ] /\
  (fun r => get r "allergen") <$> allergies (run allergy_session initial_db) =
    [ VStr "Shellfish"; VStr "Pollen"; VStr "Dust" ] /\
  reachable (run cascade_session initial_db) /\
  (fun r => get r "id") <$> allergies (run cascade_session initial_db) =
    [ VNum 2; VNum 3; VNum 3 ].
Proof.
  split; [apply reachable_run, reachable_initial|].
  split; [vm_compute; reflexivity|].
  split; [vm_compute; reflexivity|].
  split; [apply reachable_run, reachable_initial|].
  vm_compute. reflexivity.
Qed.

(** Deleting James Martinez from the constructor's store: one DELETE
    entry for P20250002. *)
Lemma mutation_appends_one_audit_entry_run :
  exists entry,
    auditLog
      (exec (frozen 1736600000000) (DeletePatient (PStr "P20250002"))
         initial_db).2 = auditLog initial_db ++ [entry] /\
    get entry "action" = VStr "DELETE" /\
    get entry "entityId" = VStr "P20250002".
Proof.
  exact (mutation_appends_one_audit_entry (frozen 1736600000000)
           (DeletePatient (PStr "P20250002")) initial_db
           (exec (frozen 1736600000000) (DeletePatient (PStr "P20250002"))
              initial_db).2
           success eq_refl).
Defined.

(** Workflow 9999 does not exist; workflow 2 has been used 89 times. *)
Lemma incrementWorkflowUsage_tolerant_run :
  incrementWorkflowUsage (frozen 1736600000000) (PNum 9999) initial_db =
    (Resolved None, initial_db) /\
  exists w db',
    incrementWorkflowUsage (frozen 1736600000000) (PNum 2) initial_db =
      (Resolved (Some w), db') /\
    get w "usageCount" = VNum 90.
Proof.
  split.
  - apply (incrementWorkflowUsage_tolerant (frozen 1736600000000) (PNum 9999)
             initial_db reachable_initial).
    repeat constructor.
  - assert (Hfind : find (has_id (PNum 2)) (workflows initial_db) =
                    Some (at_index initial_workflows 1)).
    { eapply eq_trans; [apply find_findIndex|].
      assert (Hidx : findIndex (has_id (PNum 2)) (workflows initial_db) =
                     Some 1%nat) by (vm_compute; reflexivity).
      rewrite Hidx. reflexivity. }
    assert (Hcount : get (at_index initial_workflows 1) "usageCount" = VNum 89)
      by (vm_compute; reflexivity).
    destruct (proj2 (incrementWorkflowUsage_tolerant (frozen 1736600000000)
                       (PNum 2) initial_db reachable_initial) _ Hfind)
      as (index & n & entry & db' & _ & Hn & Hrun & _).
    assert (n = 89%Z) as -> by congruence.
    exists (<["usageCount" := VNum (89 + 1)]> (at_index initial_workflows 1)), db'.
    split; [exact Hrun|]. apply get_insert_eq.
Defined.

(** Nothing in the constructor's store goes by the identifier 9999. *)
Lemma not_found_is_rejected_and_harmless_run :
  getPatientById (PNum 9999) initial_db = Rejected "Patient not found" /\
  updatePatient (frozen 0) (PNum 9999) completed initial_db =
    (Rejected "Patient not found", initial_db) /\
  deletePatient (frozen 0) (PNum 9999) initial_db =
    (Rejected "Patient not found", initial_db) /\
  updateClinicalNote (frozen 0) (PNum 9999) completed initial_db =
    (Rejected "Clinical note not found", initial_db) /\
  removeAllergy (frozen 0) (PNum 9999) initial_db =
    (Rejected "Allergy not found", initial_db) /\
  getWorkflowById (PNum 9999) initial_db = Rejected "Workflow not found" /\
  updateTask (frozen 0) (PNum 9999) completed initial_db =
    (Rejected "Task not found", initial_db).
Proof.
  destruct (not_found_is_rejected_and_harmless (frozen 0) (PNum 9999)
              completed initial_db) as (Hp & Hn & Ha & Hw & Ht).
  destruct Hp as (Hp1 & Hp2 & Hp3); [repeat constructor|].
  split; [exact Hp1|]. split; [exact Hp2|]. split; [exact Hp3|].
  split; [apply Hn; constructor|].
  split; [apply Ha; repeat constructor|].
  split; [apply Hw; repeat constructor|].
  apply Ht. constructor.
Defined.

(** Ada Lovelace registered in the constructor's store. *)
Lemma createPatient_then_getPatientById_run :
  valid_patient_input ada /\
  absent ada_id (patients initial_db) /\
  exists r db' d,
    createPatient (ticking 1736500000000) ada initial_db = (Resolved r, db') /\
    getPatientById ada_id db' = Resolved d /\
    patient d = r /\
    patient d !! "lastName" = Some (VStr "Lovelace") /\
    patient d !! "status" = Some (VStr "active").
Proof.
  assert (Hvalid : valid_patient_input ada) by (repeat constructor).
  assert (Habs : absent ada_id (patients initial_db)) by (repeat constructor).
  split; [exact Hvalid|]. split; [exact Habs|].
  destruct (createPatient_then_getPatientById (ticking 1736500000000) ada
              initial_db Hvalid Habs)
    as (r & db' & d & Hrun & _ & _ & Hget & Hd & Hin & Hst & _).
  exists r, db', d.
  split; [exact Hrun|]. split; [exact Hget|]. split; [exact Hd|].
  split; [apply Hin; vm_compute; reflexivity|exact Hst].
Defined.

(** C6 does not hold as stated.  Grace is registered in the millisecond
    in which Ada was: the identifier she is given is Ada's, two patients
    carry it, and [getPatientById] on it resolves with Ada's record. *)
Lemma createPatient_same_millisecond_collides :
  reachable same_millisecond_store /\
  valid_patient_input grace /\
  exists r db' d,
    createPatient (frozen 1736500000000) grace same_millisecond_store =
      (Resolved r, db') /\
    get r "id" = VStr "P1736500000000" /\
    get r "firstName" = VStr "Grace" /\
    length (List.filter (has_id (PStr "P1736500000000")) (patients db')) =
      2%nat /\
    getPatientById (PStr "P1736500000000") db' = Resolved d /\
    get (patient d) "firstName" = VStr "Ada".
Proof.
  split; [|split].
  - exact (reachable_step (frozen 1736500000000) (CreatePatient ada)
             initial_db reachable_initial).
  - repeat constructor.
  - eexists. eexists. eexists.
    split; [reflexivity|].
    split; [vm_compute; reflexivity|].
    split; [vm_compute; reflexivity|].
    split; [vm_compute; reflexivity|].
    split; [vm_compute; reflexivity|].
    vm_compute. reflexivity.
Qed.

(** C7 does not hold as stated.  Grace is registered in the millisecond
    in which Ada was and is given Ada's identifier.  Two updates under
    the identifier Grace's registration returned both resolve, and both
    change Ada's record: the record created for Grace is stored as it
    was created, and reading the identifier back gives Ada's record
    with the updates, not the merge of Grace's record with them. *)
Lemma updates_after_identifier_collision_miss_created_record :
  reachable same_millisecond_store /\
  exists r db1 r1 db2 r2 db3,
    createPatient (frozen 1736500000000) grace same_millisecond_store =
      (Resolved r, db1) /\
    get r "id" = VStr "P1736500000000" /\
    updatePatient (ticking 1736500001000) (PStr "P1736500000000")
      first_update db1 = (Resolved r1, db2) /\
    updatePatient (ticking 1736500002000) (PStr "P1736500000000")
      second_update db2 = (Resolved r2, db3) /\
    patients db3 !! 4%nat = Some r /\
    r !! "phone" = None /\
    find (has_id (PStr "P1736500000000")) (patients db3) = Some r2 /\
    r2 !! "firstName" = Some (VStr "Ada") /\
    spread (spread r first_update) second_update !! "firstName" =
      Some (VStr "Grace").
Proof.
  split.
  - exact (reachable_step (frozen 1736500000000) (CreatePatient ada)
             initial_db reachable_initial).
  - exists (resolved_with grace_created.1), grace_created.2,
      (resolved_with grace_updated.1), grace_updated.2,
      (resolved_with grace_updated_again.1), grace_updated_again.2.
    split; [exact (create_resolves KPatient _ _ _)|].
    split; [vm_compute; reflexivity|].
    split.
    { apply (update_resolves KPatient) with (n := 3%nat).
      vm_compute. reflexivity. }
    split.
    { apply (update_resolves KPatient) with (n := 3%nat).
      vm_compute. reflexivity. }
    split; [vm_compute; reflexivity|].
    split; [vm_compute; reflexivity|].
    split; [vm_compute; reflexivity|].
    split; [vm_compute; reflexivity|].
    vm_compute. reflexivity.
Qed.

(** A progress note is written for Sarah Johnson and revised twice; Ada
    is registered and her record updated twice; the follow-up task is
    completed twice.  The second revision's content has replaced the
    first's, the diagnosis of the first and the plan of the second are
    there, the patient is as created; completing the task a second
    time changes [completedAt] only. *)
Lemma updates_merge_in_order_and_idempotently_run :
  (exists r db1 r1 db2 r2 db3,
     createClinicalNote (ticking 1736500000000) visit_note initial_db =
       (Resolved r, db1) /\
     updateClinicalNote (ticking 1736500001000) (PNum 1) first_revision db1 =
       (Resolved r1, db2) /\
     updateClinicalNote (ticking 1736500002000) (PNum 1) second_revision db2 =
       (Resolved r2, db3) /\
     clinicalNotes db3 = [r2] /\
     r2 !! "content" = Some (VStr "Headache resolved") /\
     r2 !! "diagnosis" = Some (VStr "Migraine") /\
     r2 !! "plan" = Some (VStr "Review in a week") /\
     r2 !! "patientId" = Some (VStr "P20250001") /\
     r2 !! "updatedAt" = Some (VDate 1736500002000)) /\
  (exists r db1 r1 db2 r2 db3,
     createPatient (ticking 1736500000000) ada initial_db =
       (Resolved r, db1) /\
     updatePatient (ticking 1736500001000) ada_id first_update db1 =
       (Resolved r1, db2) /\
     updatePatient (ticking 1736500002000) ada_id second_update db2 =
       (Resolved r2, db3) /\
     patients db3 !! 3%nat = Some r2 /\
     r2 !! "phone" = Some (VStr "(555) 000-0002") /\
     r2 !! "gender" = Some (VStr "Female") /\
     r2 !! "email" = Some (VStr "ada@analytical.engine") /\
     r2 !! "lastName" = Some (VStr "Lovelace")) /\
  (exists r1 db1 r2 db2,
     updateTask (ticking 1736600000000) (PNum 1) completed task_store =
       (Resolved r1, db1) /\
     updateTask (ticking 1736700000000) (PNum 1) completed db1 =
       (Resolved r2, db2) /\
     r1 !! "completedAt" = Some (VDate 1736600000000) /\
     r2 !! "completedAt" = Some (VDate 1736700000000) /\
     same_except "completedAt" r2 r1 /\
     entity_sequences db2 =
       <[5%nat := <[0%nat := r2]> (tasks db1)]> (entity_sequences db1)).
Proof.
  split; [|split].
  - destruct (proj1 (updates_merge_in_order_and_idempotently KClinicalNote)
                (ticking 1736500000000) (ticking 1736500001000)
                (ticking 1736500002000) visit_note (PNum 1) first_revision
                (PNum 1) second_revision initial_db)
      as (r & db1 & Hcreate & Hrec1 & Hnext).
    cbn [create update records stamp stamp_field] in *.
    assert (Hr : r = resolved_with
                       (createClinicalNote (ticking 1736500000000) visit_note
                          initial_db).1)
      by (rewrite Hcreate; reflexivity).
    destruct Hnext as (r1 & db2 & Hfirst & Hr1 & Hrec2 & Hnext).
    { rewrite Hrec1, Hr. vm_compute. reflexivity. }
    destruct Hnext as (r2 & db3 & Hsecond & Hr2 & Hrec3 & _ & _ & Hmerge).
    { rewrite Hrec2, Hrec1, Hr1, Hr. vm_compute. reflexivity. }
    exists r, db1, r1, db2, r2, db3.
    split; [exact Hcreate|]. split; [exact Hfirst|]. split; [exact Hsecond|].
    split; [rewrite Hrec3, Hrec2, Hrec1; reflexivity|].
    rewrite !Hmerge by discriminate.
    split; [rewrite Hr; vm_compute; reflexivity|].
    split; [rewrite Hr; vm_compute; reflexivity|].
    split; [rewrite Hr; vm_compute; reflexivity|].
    split; [rewrite Hr; vm_compute; reflexivity|].
    rewrite Hr2. apply lookup_insert_eq.
  - destruct (proj1 (updates_merge_in_order_and_idempotently KPatient)
                (ticking 1736500000000) (ticking 1736500001000)
                (ticking 1736500002000) ada ada_id first_update
                ada_id second_update initial_db)
      as (r & db1 & Hcreate & Hrec1 & Hnext).
    cbn [create update records stamp stamp_field] in *.
    assert (Hr : r = resolved_with
                       (createPatient (ticking 1736500000000) ada
                          initial_db).1)
      by (rewrite Hcreate; reflexivity).
    destruct Hnext as (r1 & db2 & Hfirst & Hr1 & Hrec2 & Hnext).
    { rewrite Hrec1, Hr. vm_compute. reflexivity. }
    destruct Hnext as (r2 & db3 & Hsecond & _ & _ & Hstored & _ & Hmerge).
    { rewrite Hrec2, Hrec1, Hr1, Hr. vm_compute. reflexivity. }
    exists r, db1, r1, db2, r2, db3.
    split; [exact Hcreate|]. split; [exact Hfirst|]. split; [exact Hsecond|].
    split; [exact Hstored|].
    rewrite !Hmerge by discriminate.
    split; [rewrite Hr; vm_compute; reflexivity|].
    split; [rewrite Hr; vm_compute; reflexivity|].
    split; [rewrite Hr; vm_compute; reflexivity|].
    rewrite Hr; vm_compute; reflexivity.
  - destruct (proj2 (updates_merge_in_order_and_idempotently KTask)
                (ticking 1736600000000) (ticking 1736700000000) (PNum 1)
                completed task_store 0%nat)
      as (r1 & db1 & Hfirst & Hrec1 & Hnext).
    { vm_compute. reflexivity. }
    cbn [create update records stamp stamp_field sequence_index] in *.
    assert (Hr1 : r1 = resolved_with
                         (updateTask (ticking 1736600000000) (PNum 1)
                            completed task_store).1)
      by (rewrite Hfirst; reflexivity).
    destruct Hnext as (r2 & db2 & Hsecond & Hsame & Hseq).
    { rewrite Hrec1, Hr1. vm_compute. reflexivity. }
    assert (Hr2 : r2 = resolved_with
                         (updateTask (ticking 1736700000000) (PNum 1)
                            completed db1).1)
      by (rewrite Hsecond; reflexivity).
    exists r1, db1, r2, db2.
    split; [exact Hfirst|]. split; [exact Hsecond|].
    split; [rewrite Hr1; vm_compute; reflexivity|].
    split; [|split; [exact Hsame|exact Hseq]].
    assert (Hdb1 : db1 = (updateTask (ticking 1736600000000) (PNum 1)
                            completed task_store).2)
      by (rewrite Hfirst; reflexivity).
    rewrite Hr2, Hdb1. vm_compute. reflexivity.
Defined.

(** The follow-up task of the specification's scenario. *)
Lemma task_pending_then_completed_run :
  (exists t db',
     createTask (ticking 1736500000000) follow_up initial_db =
       (Resolved t, db') /\
     get t "status" = VStr "pending") /\
  (exists r db',
     updateTask (ticking 1736600000000) (PNum 1) completed task_store =
       (Resolved r, db') /\
     get r "status" = VStr "completed" /\
     get r "completedAt" = VDate 1736600000000).
Proof.
  split.
  - destruct (proj1 (task_pending_then_completed (ticking 1736500000000)
                       initial_db) follow_up)
      as (t & db' & Hrun & _ & Hst).
    { vm_compute. reflexivity. }
    exists t, db'. split; assumption.
  - destruct (proj2 (task_pending_then_completed (ticking 1736600000000)
                       task_store)
                (PNum 1) (at_index (tasks task_store) 0) completed)
      as (index & old & _ & _ & Hdone & _).
    { left. }
    { vm_compute. reflexivity. }
    destruct Hdone as (r & db' & Hrun & _ & Hst & Hat).
    { vm_compute. reflexivity. }
    exists r, db'. repeat split; assumption.
Defined.

(** Creation data that names [id], [status] and the two timestamps. *)
Lemma create_field_precedence_run :
  (exists r db',
     createPatient (ticking 1736500000000) overriding_data initial_db =
       (Resolved r, db') /\
     r !! "id" = Some (VStr "X-1")) /\
  (exists r db',
     createClinicalNote (ticking 1736500000000) overriding_data initial_db =
       (Resolved r, db') /\
     r !! "id" = Some (VStr "X-1")).
Proof.
  destruct (proj1 (create_field_precedence (ticking 1736500000000)
                     overriding_data initial_db) (VStr "X-1"))
    as [(r & db' & Hrun & _ & Hid) (r' & db'' & Hrun' & _ & Hid')].
  { vm_compute. reflexivity. }
  split; [exists r, db' | exists r', db'']; split; assumption.
Defined.

(** Every patient of the constructor's store has the four strings. *)
Lemma searchPatients_needs_string_fields_run :
  searchable initial_db /\
  exists keep,
    searchPatients "CHEN" initial_db =
      Resolved (List.filter keep (patients initial_db)) /\
    forall p, p ∈ patients initial_db ->
      (keep p = true <->
       exists k, k ∈ search_fields /\ field_contains "CHEN" p k).
Proof.
  assert (Hall : searchable initial_db).
  { repeat constructor; eexists; vm_compute; reflexivity. }
  split; [exact Hall|].
  exact (proj1 searchPatients_needs_string_fields "CHEN" initial_db Hall).
Defined.

(** ** Further concrete runs *)

#[local] Existing Instance reference_dates.

(** A referral for Emily Chen, who has none yet. *)
Lemma create_then_query_by_patient_run :
  exists r db',
    create_dependent DReferral (frozen 1736600000000)
      (object [ ("patientId", VStr "P20250003"); ("specialist", VStr "Dr. Wu") ])
      initial_db = (Resolved r, db') /\
    by_patient DReferral (PStr "P20250003") db' = Resolved [r] /\
    by_patient DReferral (PStr "P20250001") db' = Resolved [].
Proof.
  destruct (create_then_query_by_patient DReferral (frozen 1736600000000)
              (object [ ("patientId", VStr "P20250003");
                        ("specialist", VStr "Dr. Wu") ])
              initial_db (PStr "P20250003"))
    as (r & db' & before & Hrun & Hbefore & Hafter & Hother & _).
  { vm_compute. reflexivity. }
  exists r, db'. split; [exact Hrun|].
  injection Hbefore as <-. split; [exact Hafter|].
  rewrite Hother by (vm_compute; reflexivity). reflexivity.
Defined.

(** A task for a patient identifier nobody carries. *)
Lemma create_dependent_without_patient_run :
  exists r db',
    create_dependent DTask (frozen 1736600000000)
      (object [ ("patientId", VStr "P-nobody"); ("title", VStr "Call back") ])
      initial_db = (Resolved r, db') /\
    getPatientById (PStr "P-nobody") db' = Rejected "Patient not found" /\
    by_patient DTask (PStr "P-nobody") db' = Resolved [r].
Proof.
  destruct (create_dependent_without_patient DTask (frozen 1736600000000)
              (object [ ("patientId", VStr "P-nobody");
                        ("title", VStr "Call back") ])
              initial_db (PStr "P-nobody"))
    as (r & db' & before & Hrun & _ & Hrej & Hbefore & Hafter).
  { repeat constructor. }
  { vm_compute. reflexivity. }
  exists r, db'. split; [exact Hrun|]. split; [exact Hrej|].
  injection Hbefore as <-. exact Hafter.
Defined.

(** An appointment whose status is the empty string. *)
Lemma create_status_default_run :
  exists r db',
    create_dependent DAppointment (frozen 1736600000000)
      (object [ ("patientId", VStr "P20250003"); ("status", VStr "") ])
      initial_db = (Resolved r, db') /\
    get r "status" = VStr "scheduled".
Proof.
  destruct (create_status_default DAppointment "scheduled"
              (frozen 1736600000000)
              (object [ ("patientId", VStr "P20250003"); ("status", VStr "") ])
              initial_db eq_refl)
    as (r & db' & Hrun & Hdefault & _).
  exists r, db'. split; [exact Hrun|].
  apply Hdefault. vm_compute. reflexivity.
Defined.

(** In the constructor's store identifier 4 is free, and the addition
    is undone.  After allergy 1 has been removed identifier 3 is given
    out again while the shellfish allergy still carries it: removing 3
    takes that one out, and the new record stays.  An allergy added with
    the identifier NaN cannot be removed under it. *)
Lemma addAllergy_then_removeAllergy_run :
  (exists r db1 db2,
     addAllergy (frozen 1) follow_up initial_db = (Resolved r, db1) /\
     get r "id" = VNum 4 /\
     removeAllergy (frozen 2) (PNum 4) db1 = (Resolved success, db2) /\
     allergies db2 = allergies initial_db) /\
  (exists r db1 db2,
     addAllergy (frozen 1) follow_up
       (removeAllergy (frozen 0) (PNum 1) initial_db).2 = (Resolved r, db1) /\
     get r "id" = VNum 3 /\
     removeAllergy (frozen 2) (PNum 3) db1 = (Resolved success, db2) /\
     (fun a => get a "allergen") <$> allergies db2 =
       [ VStr "Penicillin"; VUndefined ]) /\
  (exists r db1,
     addAllergy (frozen 1) {[ "id" := VNaN ]} initial_db = (Resolved r, db1) /\
     get r "id" = VNaN /\
     removeAllergy (frozen 2) PNaN db1 = (Rejected "Allergy not found", db1) /\
     length (allergies db1) = 4%nat).
Proof.
  split; [|split].
  - destruct (addAllergy_then_removeAllergy (frozen 1) (frozen 2) follow_up
                initial_db) as (r & db1 & Hadd & Hrec & Hremove).
    assert (Hr : r = resolved_with
                       (addAllergy (frozen 1) follow_up initial_db).1)
      by (rewrite Hadd; reflexivity).
    assert (Hid : get r "id" = VNum 4)
      by (rewrite Hr; vm_compute; reflexivity).
    destruct (Hremove (PNum 4) Hid) as (_ & Hfree & _).
    destruct Hfree as (db2 & Hrun & Hback);
      [repeat constructor | discriminate |].
    exists r, db1, db2. repeat (split; [assumption|]). exact Hback.
  - destruct (addAllergy_then_removeAllergy (frozen 1) (frozen 2) follow_up
                (removeAllergy (frozen 0) (PNum 1) initial_db).2)
      as (r & db1 & Hadd & Hrec & Hremove).
    assert (Hr : r = resolved_with
                       (addAllergy (frozen 1) follow_up
                          (removeAllergy (frozen 0) (PNum 1) initial_db).2).1)
      by (rewrite Hadd; reflexivity).
    assert (Hid : get r "id" = VNum 3)
      by (rewrite Hr; vm_compute; reflexivity).
    destruct (Hremove (PNum 3) Hid) as (Htaken & _).
    destruct (Htaken 1%nat) as (db2 & Hrun & Hleft);
      [vm_compute; reflexivity|].
    exists r, db1, db2. repeat (split; [assumption|]).
    rewrite Hleft, Hr. vm_compute. reflexivity.
  - destruct (addAllergy_then_removeAllergy (frozen 1) (frozen 2)
                {[ "id" := VNaN ]} initial_db)
      as (r & db1 & Hadd & Hrec & Hremove).
    assert (Hr : r = resolved_with
                       (addAllergy (frozen 1) {[ "id" := VNaN ]}
                          initial_db).1)
      by (rewrite Hadd; reflexivity).
    assert (Hid : get r "id" = VNaN)
      by (rewrite Hr; vm_compute; reflexivity).
    destruct (Hremove PNaN Hid) as (_ & _ & Hrejected).
    exists r, db1. repeat (split; [assumption|]).
    split; [exact (Hrejected eq_refl)|].
    rewrite Hrec, length_app. reflexivity.
Defined.

(** The log after the allergy session of four successful calls. *)
Lemma reachable_audit_log_run :
  Forall audit_entry_shape (auditLog (run allergy_session initial_db)) /\
  numbered_from_one (auditLog (run allergy_session initial_db)).
Proof.
  exact (reachable_audit_log (run allergy_session initial_db)
           (reachable_run allergy_session initial_db reachable_initial)).
Defined.

(** The whole log of that session, and its Allergy entries. *)
Lemma getAuditLog_selects_newest_first_run :
  exists logs,
    getAuditLog {[ "entityType" := PStr "Allergy" ]}
      (run allergy_session initial_db) = Resolved logs /\
    logs ≡ₚ List.filter (passes {[ "entityType" := PStr "Allergy" ]})
              (auditLog (run allergy_session initial_db)) /\
    StronglySorted not_later logs /\
    forall t,
      List.filter (stamped_at t) logs =
      List.filter (stamped_at t)
        (List.filter (passes {[ "entityType" := PStr "Allergy" ]})
           (auditLog (run allergy_session initial_db))).
Proof.
  exact (getAuditLog_selects_newest_first {[ "entityType" := PStr "Allergy" ]}
           (run allergy_session initial_db)
           (reachable_run allergy_session initial_db reachable_initial)).
Defined.

(** Allergy 1 was removed in that session, but its entry is filed under
    the string "1". *)
Lemma getAuditLog_entityId_not_a_string_run :
  getAuditLog {[ "entityId" := PNum 1 ]} (run allergy_session initial_db) =
    Resolved [].
Proof.
  apply getAuditLog_entityId_not_a_string.
  - apply reachable_run, reachable_initial.
  - reflexivity.
  - intros s. discriminate.
Defined.

(** Deleting Sarah Johnson, one of three active patients. *)
Lemma deletePatient_statistics_run :
  exists db' st',
    deletePatient (frozen 1736600000000) P20250001 initial_db =
      (Resolved success, db') /\
    getStatistics (frozen 1736600000000) db' = Resolved st' /\
    totalPatients st' = 2%nat /\ activePatients st' = 2%nat.
Proof.
  destruct (deletePatient_statistics (frozen 1736600000000)
              (frozen 1736600000000) P20250001 initial_db
              (at_index initial_patients 2))
    as (db' & st & st' & Hrun & Hst & Hst' & Htotal & Hactive & _).
  { apply find_at with (i := 2%nat); [vm_compute|]; reflexivity. }
  exists db', st'. split; [exact Hrun|]. split; [exact Hst'|].
  destruct (getStatistics_fields _ _ _ Hst) as (Ht & Ha & _).
  assert (Hthree : length (patients initial_db) = 3%nat)
    by (vm_compute; reflexivity).
  assert (Hactives : length (List.filter (has_status "active")
                               (patients initial_db)) = 3%nat)
    by (vm_compute; reflexivity).
  assert (Hp : has_status "active" (at_index initial_patients 2) = true)
    by (vm_compute; reflexivity).
  rewrite Hp in Hactive. split; lia.
Defined.

(** The follow-up task: pending once created, not once completed. *)
Lemma task_statistics_run :
  (exists t db' st',
     createTask (ticking 1736500000000) follow_up initial_db =
       (Resolved t, db') /\
     getStatistics (frozen 1736600000000) db' = Resolved st' /\
     pendingTasks st' = 1%nat) /\
  (exists t db' st',
     updateTask (ticking 1736500000000) (PNum 1) completed task_store =
       (Resolved t, db') /\
     getStatistics (frozen 1736600000000) db' = Resolved st' /\
     pendingTasks st' = 0%nat).
Proof.
  split.
  - destruct (proj1 (task_statistics (ticking 1736500000000)
                       (frozen 1736600000000) initial_db) follow_up)
      as (t & db' & st & st' & Hrun & Hst & Hst' & Hcount).
    { vm_compute. reflexivity. }
    exists t, db', st'. split; [exact Hrun|]. split; [exact Hst'|].
    destruct (getStatistics_fields _ _ _ Hst) as (_ & _ & Hp & _).
    assert (Hnone : length (List.filter (has_status "pending")
                              (tasks initial_db)) = 0%nat) by reflexivity.
    lia.
  - destruct (proj2 (task_statistics (ticking 1736500000000)
                       (frozen 1736600000000) task_store)
                (PNum 1) completed (at_index (tasks task_store) 0))
      as (t & db' & st & st' & Hrun & Hst & Hst' & Hcount).
    { apply find_at with (i := 0%nat); [vm_compute|]; reflexivity. }
    { vm_compute. reflexivity. }
    { vm_compute. reflexivity. }
    exists t, db', st'. split; [exact Hrun|]. split; [exact Hst'|].
    destruct (getStatistics_fields _ _ _ Hst) as (_ & _ & Hp & _).
    assert (Hone : length (List.filter (has_status "pending")
                             (tasks task_store)) = 1%nat)
      by (vm_compute; reflexivity).
    lia.
Defined.

(** Seen on 11 January 2025: an appointment on 14 January, one on the
    morning of 10 January, and one with no date. *)
Lemma createAppointment_statistics_run :
  (exists a db' st',
     createAppointment (frozen 1736600000000)
       (object [ ("patientId", VStr "P20250003");
                 ("scheduledDate", VStr "2025-01-14") ])
       initial_db = (Resolved a, db') /\
     getStatistics (frozen 1736600000000) db' = Resolved st' /\
     upcomingAppointments st' = 1%nat) /\
  (exists a db' st',
     createAppointment (frozen 1736600000000)
       (object [ ("patientId", VStr "P20250003");
                 ("scheduledDate", VStr "2025-01-10T09:30:00Z") ])
       initial_db = (Resolved a, db') /\
     getStatistics (frozen 1736600000000) db' = Resolved st' /\
     upcomingAppointments st' = 0%nat) /\
  (exists a db' st',
     createAppointment (frozen 1736600000000)
       (object [ ("patientId", VStr "P20250003") ])
       initial_db = (Resolved a, db') /\
     getStatistics (frozen 1736600000000) db' = Resolved st' /\
     upcomingAppointments st' = 0%nat).
Proof.
  split; [|split].
  - destruct (createAppointment_statistics (frozen 1736600000000)
                1736600000000
                (object [ ("patientId", VStr "P20250003");
                          ("scheduledDate", VStr "2025-01-14") ])
                initial_db)
      as (a & db' & st & st' & Hrun & Hst & Hst' & Hcount).
    { vm_compute. reflexivity. }
    exists a, db', st'. split; [exact Hrun|]. split; [exact Hst'|].
    destruct (getStatistics_fields _ _ _ Hst) as (_ & _ & _ & Hu).
    rewrite Hcount, Hu. vm_compute. reflexivity.
  - destruct (createAppointment_statistics (frozen 1736600000000)
                1736600000000
                (object [ ("patientId", VStr "P20250003");
                          ("scheduledDate", VStr "2025-01-10T09:30:00Z") ])
                initial_db)
      as (a & db' & st & st' & Hrun & Hst & Hst' & Hcount).
    { vm_compute. reflexivity. }
    exists a, db', st'. split; [exact Hrun|]. split; [exact Hst'|].
    destruct (getStatistics_fields _ _ _ Hst) as (_ & _ & _ & Hu).
    rewrite Hcount, Hu. vm_compute. reflexivity.
  - destruct (createAppointment_statistics (frozen 1736600000000)
                1736600000000
                (object [ ("patientId", VStr "P20250003") ])
                initial_db)
      as (a & db' & st & st' & Hrun & Hst & Hst' & Hcount).
    { vm_compute. reflexivity. }
    exists a, db', st'. split; [exact Hrun|]. split; [exact Hst'|].
    destruct (getStatistics_fields _ _ _ Hst) as (_ & _ & _ & Hu).
    rewrite Hcount, Hu. vm_compute. reflexivity.
Defined.

(** Workflow 2 is used twice and a workflow that does not exist once. *)
Lemma reachable_workflows_run :
  total_usage
    (run [ (frozen 1, IncrementWorkflowUsage (PNum 2));
           (frozen 2, IncrementWorkflowUsage (PNum 9999));
           (frozen 3, IncrementWorkflowUsage (PNum 2)) ] initial_db) =
  (290 +
   Z.of_nat
     (length
        (workflow_updates
           (run [ (frozen 1, IncrementWorkflowUsage (PNum 2));
                  (frozen 2, IncrementWorkflowUsage (PNum 9999));
                  (frozen 3, IncrementWorkflowUsage (PNum 2)) ]
              initial_db))))%Z.
Proof.
  exact (proj2 (reachable_workflows _
                  (reachable_run
                     [ (frozen 1, IncrementWorkflowUsage (PNum 2));
                       (frozen 2, IncrementWorkflowUsage (PNum 9999));
                       (frozen 3, IncrementWorkflowUsage (PNum 2)) ]
                     initial_db reachable_initial))).
Defined.

(** Using workflow 2 and reading it back. *)
Lemma incrementWorkflowUsage_then_getWorkflowById_run :
  exists w db',
    incrementWorkflowUsage (frozen 1) (PNum 2) initial_db =
      (Resolved (Some w), db') /\
    getWorkflowById (PNum 2) db' = Resolved w.
Proof.
  eexists. eexists. split; [reflexivity|].
  apply (incrementWorkflowUsage_then_getWorkflowById (frozen 1) (PNum 2)
           initial_db).
  reflexivity.
Defined.

(** Ada's first update, read back. *)
Lemma updatePatient_then_getPatientById_run :
  exists d,
    getPatientById ada_id ada_updated.2 = Resolved d /\
    patient d = resolved_with ada_updated.1.
Proof.
  destruct (updatePatient_then_getPatientById (ticking 1736500001000) ada_id
              first_update ada_created.2 ada_updated.2
              (resolved_with ada_updated.1))
    as (d0 & d & _ & Hget & Hd & _).
  - apply (update_resolves KPatient) with (n := 3%nat).
    vm_compute. reflexivity.
  - vm_compute. reflexivity.
  - exists d. split; assumption.
Defined.

(** Sarah Johnson is given a new identifier; her two allergies still
    refer to the old one. *)
Lemma updatePatient_rewrites_id_run :
  exists r db',
    updatePatient (frozen 1736600000000) P20250001
      (object [ ("id", VStr "P-renamed") ]) initial_db = (Resolved r, db') /\
    getPatientById P20250001 db' = Rejected "Patient not found" /\
    length (dependents P20250001 db') = 2%nat.
Proof.
  destruct (updatePatient_rewrites_id (frozen 1736600000000) P20250001
              (object [ ("id", VStr "P-renamed") ]) initial_db
              (VStr "P-renamed"))
    as (r & db' & Hrun & _ & Hrej & Hdep).
  - vm_compute. reflexivity.
  - vm_compute. reflexivity.
  - vm_compute. reflexivity.
  - exists r, db'. split; [exact Hrun|]. split; [exact Hrej|].
    rewrite Hdep. vm_compute. reflexivity.
Defined.

(** The follow-up task is completed and then set back to pending. *)
Lemma updateTask_keeps_completedAt_run :
  exists r db',
    updateTask (frozen 1736700000000) (PNum 1)
      (object [ ("status", VStr "pending") ])
      (updateTask (frozen 1736600000000) (PNum 1) completed task_store).2 =
      (Resolved r, db') /\
    r !! "status" = Some (VStr "pending") /\
    r !! "completedAt" = Some (VDate 1736600000000).
Proof.
  destruct (updateTask_keeps_completedAt (frozen 1736700000000) (PNum 1)
              (object [ ("status", VStr "pending") ])
              (updateTask (frozen 1736600000000) (PNum 1) completed
                 task_store).2
              (at_index
                 (tasks (updateTask (frozen 1736600000000) (PNum 1) completed
                           task_store).2) 0))
    as (r & db' & Hrun & Hstamp & Hstatus).
  - apply find_at with (i := 0%nat); [vm_compute|]; reflexivity.
  - vm_compute. reflexivity.
  - vm_compute. reflexivity.
  - exists r, db'. split; [exact Hrun|]. split.
    + apply Hstatus. vm_compute. reflexivity.
    + rewrite Hstamp. vm_compute. reflexivity.
Defined.

(** The empty query on the constructor's store. *)
Lemma searchPatients_empty_query_run :
  searchPatients "" initial_db = Resolved (patients initial_db).
Proof.
  apply searchPatients_empty_query.
  - reflexivity.
  - repeat constructor; eexists; vm_compute; reflexivity.
Defined.

(** A number typed with dots. *)
Lemma formatPhone_keeps_digits_run :
  formatPhone "555.234.5678" = "(555) 234-5678" /\
  String.length (formatPhone "555.234.5678") = 14%nat.
Proof.
  split; [reflexivity|].
  apply (proj1 (proj2 (proj2 (formatPhone_keeps_digits "555.234.5678")))).
  reflexivity.
Defined.

(** Markup is escaped; text that is already escaped is not changed. *)
Lemma sanitizeInput_escapes_run :
  sanitizeInput "<b>" = "&lt;b&gt;" /\
  sanitizeInput "&lt;b&gt;" = "&lt;b&gt;".
Proof.
  split; [reflexivity|].
  apply (proj1 (proj2 (sanitizeInput_escapes "&lt;b&gt;"))).
  intros c Hc. apply list_elem_of_In in Hc. simpl in Hc.
  destruct Hc as [<-|[<-|[<-|[<-|[<-|[]]]]]]; reflexivity.
Defined.
